(** * Airtable adapter: request executor, polling trigger, template rewriting

    A shallow embedding of
      - [execute], the record and base operations, [makeAirtableRequest]
        and [resolveValue]                        (src/nodes/airtable.node.js)
      - [trigger] with its inner [pollRecords]    (src/index.js, trigger node)
      - the credential [test]                     (src/credentials/airtable.credentials.js)

    Modelling conventions.
      - JavaScript numbers that the code uses as counters, delays, statuses
        and timestamps are integers; they are modelled as [Z] (exact
        arithmetic). Where a number is turned into text, the text is that of
        the nearest double ([Numbers.numberText]).
      - A delay handed to [setTimeout] or [setInterval] is recorded as it is
        handed over; the delay at which the timer then runs is
        [Timers.timerDelay].
      - [Js.toString] is the conversion to a string of values in which no
        object has a [toString] of its own; [Node.toText] is the conversion
        of any value, which can throw or call into the data. The former is
        applied to credentials, response bodies and the operation name, the
        latter to item data and to the parameters resolved against it; the
        two agree on the values of the former kind ([toText_plain]).
      - The HTTP client [axios], the clock [new Date()] and [Date] parsing are
        external; they are parameters of the model.
      - Effects (requests, logger calls, sleeps, emits) are recorded in an
        event log that is threaded through the functions. *)

From Stdlib Require Import Ascii String ZArith Lia.
From stdpp Require Import gmap strings list pretty.

Set Warnings "-register-all".
Local Open Scope Z_scope.

(** ** Numbers as text *)

Module Numbers.

(** The double nearest to a non-negative integer, ties to even; every
    integer up to 2^53 is its own double. *)
Definition roundToDouble (n : Z) : Z :=
  let bits := Z.log2 n + 1 in
  if bits <=? 53 then n
  else
    let shift := bits - 53 in
    let q := Z.shiftr n shift in
    let r := n - Z.shiftl q shift in
    let half := Z.shiftl 1 (shift - 1) in
    let q' := if (half <? r) || ((r =? half) && Z.odd q) then q + 1 else q in
    Z.shiftl q' shift.

Definition digitsOf (n : Z) : Z := Z.of_nat (String.length (pretty n)).

(** The decimal with [k] significant digits that denotes the double [x],
    if there is one: the closer of the two multiples of [10^(digits-k)]
    around [x], the even one on a tie. *)
Definition candidate (x digits k : Z) : option Z :=
  let p := 10 ^ (digits - k) in
  let lo := (x / p) * p in
  let hi := lo + p in
  match roundToDouble lo =? x, roundToDouble hi =? x with
  | true, true =>
      Some (if x - lo <? hi - x then lo
            else if hi - x <? x - lo then hi
            else if Z.even (lo / p) then lo else hi)
  | true, false => Some lo
  | false, true => Some hi
  | false, false => None
  end.

(** The decimal with the fewest significant digits that denotes [x]. *)
Fixpoint shortest (fuel : nat) (x digits k : Z) : Z :=
  match fuel with
  | O => x
  | S fuel' =>
      match candidate x digits k with
      | Some v => v
      | None => shortest fuel' x digits (k + 1)
      end
  end.

Fixpoint dropTrailingZeros (digits : list ascii) : list ascii :=
  match digits with
  | [] => []
  | c :: rest =>
      match dropTrailingZeros rest with
      | [] => if Ascii.eqb c "0" then [] else [c]
      | kept => c :: kept
      end
  end.

(** [d.ddde+n] *)
Definition exponentText (v : Z) : string :=
  let text := pretty v in
  let exponent := pretty (Z.of_nat (String.length text) - 1) in
  match dropTrailingZeros (list_ascii_of_string text) with
  | [] => text
  | [d] => String d "e+" +:+ exponent
  | d :: more => String d ("." +:+ string_of_list_ascii more) +:+ "e+" +:+ exponent
  end.

(** Number::toString of the number nearest to a non-negative integer. *)
Definition positiveText (n : Z) : string :=
  let x := roundToDouble n in
  if 2 ^ 1024 <=? x then "Infinity"
  else
    let v := shortest (String.length (pretty x)) x (digitsOf x) 1 in
    if v <? 10 ^ 21 then pretty v else exponentText v.

Definition numberText (n : Z) : string :=
  if n <? 0 then "-" +:+ positiveText (- n) else positiveText n.

End Numbers.

(** ** JavaScript values *)

Module Js.

Inductive JsValue : Type :=
| JUndefined
| JNull
| JBool (b : bool)
| JNum (n : Z)
| JStr (s : string)
| JArr (items : list JsValue)
| JObj (props : list (string * JsValue))
| JFun (name : string).

(** ToBoolean *)
Definition truthy (v : JsValue) : bool :=
  match v with
  | JUndefined | JNull => false
  | JBool b => b
  | JNum n => negb (n =? 0)
  | JStr s => negb (String.eqb s "")
  | JArr _ | JObj _ | JFun _ => true
  end.

(** [a || b] *)
Definition or (a b : JsValue) : JsValue := if truthy a then a else b.

(** ToString, as used by template literals and by [String.prototype.replace]
    on the value returned by a replacer function, for a value in which no
    object has a [toString] of its own: an object then has the text that
    [Object.prototype.toString] gives. *)
Fixpoint toString (v : JsValue) : string :=
  match v with
  | JUndefined => "undefined"
  | JNull => "null"
  | JBool true => "true"
  | JBool false => "false"
  | JNum n => Numbers.numberText n
  | JStr s => s
  | JArr items =>
      String.concat ","
        (List.map (fun x => match x with
                            | JUndefined | JNull => ""
                            | _ => toString x
                            end) items)
  | JObj _ => "[object Object]"
  | JFun name => "function " +:+ name +:+ "() { [native code] }"
  end.

Fixpoint assoc (k : string) (props : list (string * JsValue)) : JsValue :=
  match props with
  | [] => JUndefined
  | (k', v) :: rest => if String.eqb k k' then v else assoc k rest
  end.

(** [v?.k] where [k] is not a member of a built-in prototype. *)
Definition optGet (v : JsValue) (k : string) : JsValue :=
  match v with
  | JObj props => assoc k props
  | _ => JUndefined
  end.

(** [a === b] restricted to a string literal on the right. *)
Definition strictEqStr (a : JsValue) (s : string) : bool :=
  match a with
  | JStr s' => String.eqb s' s
  | _ => false
  end.

(** A property that holds a string or is absent. *)
Definition fromOption (o : option string) : JsValue :=
  match o with
  | Some s => JStr s
  | None => JUndefined
  end.

End Js.
Import Js.

(** ** Credentials and the Authorization header *)

Record Credentials : Type := {
  authenticationType : JsValue;
  accessToken : JsValue;
  apiKey : JsValue
}.

(** [credentials.accessToken || credentials.apiKey] *)
Definition tokenOf (credentials : Credentials) : JsValue :=
  Js.or (accessToken credentials) (apiKey credentials).

(** [credentials.authenticationType === "pat" ? `Bearer ${token}` : token] *)
Definition authHeaderOf (credentials : Credentials) : JsValue :=
  let token := tokenOf credentials in
  if strictEqStr (authenticationType credentials) "pat"
  then JStr ("Bearer " +:+ toString token)
  else token.

(** ** The HTTP client *)

Record Headers : Type := {
  Authorization : JsValue;
  ContentType : string
}.

Record RequestConfig : Type := {
  cfg_method : string;
  cfg_url : string;
  cfg_headers : Headers;
  cfg_timeout : Z;
  cfg_data : option JsValue
}.

Record ErrorResponse : Type := {
  err_status : Z;
  err_data : JsValue
}.

(** The object axios rejects with: [response] is absent for transport-level
    failures (connection refused, timeout). *)
Record AxiosError : Type := {
  response : option ErrorResponse;
  message : string;
  code : option string
}.

Inductive AxiosResult (A : Type) : Type :=
| Resolved (status : Z) (data : A)
| Rejected (error : AxiosError).
Arguments Resolved {A} status data.
Arguments Rejected {A} error.

(** [error.response?.status === n] *)
Definition statusIs (error : AxiosError) (n : Z) : bool :=
  match response error with
  | Some r => err_status r =? n
  | None => false
  end.

(** ** Request executor *)

Module Executor.

Inductive Event : Type :=
| EvRequest (config : RequestConfig)   (* axios(config) *)
| EvWarn (msg : string)                (* this.logger.warn(msg) *)
| EvSleep (ms : Z).                    (* await setTimeout(resolve, ms) *)

Inductive Exn : Type :=
| Error (msg : string)
| TypeError (msg : string).

Inductive Outcome : Type :=
| Returned (body : JsValue)
| Thrown (e : Exn).

Inductive LoopExit : Type :=
| LoopReturn (body : JsValue)
| LoopLeft (lastError : option AxiosError).

Definition isRequest (ev : Event) : bool :=
  match ev with EvRequest _ => true | _ => false end.

Definition attemptsIn (log : list Event) : nat :=
  length (List.filter isRequest log).

(** The delays handed to [setTimeout], in order. *)
Definition sleepsIn (log : list Event) : list Z :=
  omap (fun ev => match ev with EvSleep ms => Some ms | _ => None end) log.

Definition totalSlept (log : list Event) : Z :=
  foldr Z.add 0 (sleepsIn log).


(** A log in which every request but the last is followed by one warning
    and one sleep, and the last by nothing. *)
Fixpoint paced (log : list Event) : bool :=
  match log with
  | [EvRequest _] => true
  | EvRequest _ :: EvWarn _ :: EvSleep _ :: rest => paced rest
  | _ => false
  end.

(** The Error raised after the loop, from [lastError]. *)
Definition classify (lastError : option AxiosError) : Exn :=
  match lastError with
  | None => TypeError "Cannot read properties of undefined (reading 'response')"
  | Some e =>
      if statusIs e 401 then
        Error "Invalid Airtable credentials. Please check your token."
      else if statusIs e 403 then
        Error "Access forbidden. Check your token permissions."
      else if statusIs e 404 then
        Error "Resource not found. Check your base ID, table name, or record ID."
      else if statusIs e 422 then
        let detail :=
          match response e with
          | Some r => optGet (optGet (err_data r) "error") "message"
          | None => JUndefined
          end in
        Error ("Invalid request: " +:+ toString (Js.or detail (JStr "Unknown error")))
      else
        Error ("Airtable API error: " +:+ message e)
  end.

Section Run.

(** [axios k config]: how the [k]-th call (counting from 0) made during
    this invocation settles. *)
Variable axios : nat -> RequestConfig -> AxiosResult JsValue.

Variables (url : string) (data : JsValue) (credentials : Credentials)
          (method : string) (timeout maxRetries retryDelay : Z).

Definition configOf : RequestConfig :=
  {| cfg_method := method;
     cfg_url := url;
     cfg_headers := {| Authorization := authHeaderOf credentials;
                       ContentType := "application/json" |};
     cfg_timeout := timeout;
     cfg_data := if truthy data then Some data else None |}.

(** The [for (let attempt = 0; attempt <= maxRetries; attempt++)] loop.
    [fuel] bounds the number of guard evaluations. *)
Fixpoint retryLoop (fuel : nat) (attempt : Z) (lastError : option AxiosError)
         (log : list Event) : option (LoopExit * list Event) :=
  match fuel with
  | O => None
  | S fuel' =>
      if attempt <=? maxRetries then
        let config := configOf in
        let log1 := log ++ [EvRequest config] in
        match axios (attemptsIn log) config with
        | Resolved _ body => Some (LoopReturn body, log1)
        | Rejected error =>
            if statusIs error 429 && (attempt <? maxRetries) then
              let waitTime := retryDelay * 2 ^ attempt in
              let log2 :=
                log1 ++ [EvWarn ("Rate limited. Retrying in "
                                   +:+ Numbers.numberText waitTime +:+ "ms...");
                         EvSleep waitTime] in
              retryLoop fuel' (attempt + 1) (Some error) log2
            else if negb (statusIs error 429) then
              Some (LoopLeft (Some error), log1)
            else
              retryLoop fuel' (attempt + 1) (Some error) log1
        end
      else Some (LoopLeft lastError, log)
  end.

Definition makeAirtableRequest : option (Outcome * list Event) :=
  match retryLoop (S (Z.to_nat (maxRetries + 1))) 0 None [] with
  | None => None
  | Some (LoopReturn body, log) => Some (Returned body, log)
  | Some (LoopLeft lastError, log) => Some (Thrown (classify lastError), log)
  end.

(** The log left by [k] rate-limited attempts, each followed by its warning
    and backoff sleep. *)
Fixpoint backoffLog (k : nat) : list Event :=
  match k with
  | O => []
  | S k' =>
      let waitTime := retryDelay * 2 ^ Z.of_nat k' in
      backoffLog k' ++ [EvRequest configOf;
                        EvWarn ("Rate limited. Retrying in "
                                  +:+ Numbers.numberText waitTime +:+ "ms...");
                        EvSleep waitTime]
  end.

End Run.

(** The response was a failure with HTTP status 429. *)
Definition rejected429 (r : AxiosResult JsValue) : bool :=
  match r with
  | Rejected e => statusIs e 429
  | Resolved _ _ => false
  end.

Definition errorOf (r : AxiosResult JsValue) : option AxiosError :=
  match r with
  | Rejected e => Some e
  | Resolved _ _ => None
  end.

(** What the caller sees when the attempt that settled as [r] is the last. *)
Definition finalOutcome (r : AxiosResult JsValue) : Outcome :=
  match r with
  | Resolved _ body => Returned body
  | Rejected e => Thrown (classify (Some e))
  end.

Definition requestsIn (log : list Event) : list RequestConfig :=
  omap (fun ev => match ev with EvRequest c => Some c | _ => None end) log.

End Executor.

(** ** Polling trigger *)

Module Trigger.

(** A record of the Airtable list response. *)
Record AirtableRecord : Type := {
  rec_id : JsValue;
  rec_fields : JsValue;
  rec_createdTime : JsValue
}.

(** [response.data] of the list call; [records] is [None] when the property
    is missing (or otherwise falsy), which the code replaces by []. *)
Record ListBody : Type := {
  records : option (list AirtableRecord)
}.

(** The [json] payload of an emitted item. *)
Record Item : Type := {
  recordId : JsValue;
  fields : JsValue;
  createdTime : JsValue
}.

Inductive Event : Type :=
| EvSetInterval (ms : Z)                                  (* setInterval(cb, ms) *)
| EvGet (url : string) (headers : Headers) (timeout : Z)  (* axios.get(url, ...) *)
| EvEmit (items : list Item)                              (* this.emit("trigger", items) *)
| EvLogError (label msg : string)                         (* this.logger.error(label, msg) *)
| EvClearInterval.                                        (* clearInterval(intervalId) *)

(** Which caller a running [pollRecords] belongs to. *)
Inductive CycleKind : Type :=
| InitialPoll
| TimerPoll.

(** The state of one activated trigger. [inFlight] lists the poll cycles that
    are suspended at [await axios.get]. [handleReturned] becomes true when
    [trigger] has returned its cleanup function, which happens after the
    initial poll has completed. *)
Record State : Type := {
  lastCheck : Z;
  timerArmed : bool;
  handleReturned : bool;
  inFlight : list CycleKind;
  log : list Event
}.

(** What can happen to an activated trigger. *)
Inductive Input : Type :=
| Tick                                                    (* the interval timer fires *)
| Settle (i : nat) (result : AxiosResult ListBody) (now : Z)
                                                          (* the i-th pending call settles;
                                                             [now] is the clock when the
                                                             continuation runs *)
| Cancel.                                                 (* the cleanup function is called *)

Definition isEmit (ev : Event) : bool :=
  match ev with EvEmit _ => true | _ => false end.

Definition emitsIn (l : list Event) : list Event := List.filter isEmit l.

Definition isGet (ev : Event) : bool :=
  match ev with EvGet _ _ _ => true | _ => false end.

(** The number of list calls issued. *)
Definition getsIn (l : list Event) : nat := length (List.filter isGet l).


Definition isTick (i : Input) : bool :=
  match i with Tick => true | _ => false end.

Section Instance.

(** [new Date(v).getTime()], [None] for an invalid date. *)
Variable dateParse : JsValue -> option Z.
Variable encodeURIComponent : string -> string.

Variables (baseId tableName : string) (pollingInterval : Z)
          (filterFormula : string) (timeout : Z) (credentials : Credentials).

(** [Math.max(pollingInterval * 1000, 30000)], for a whole number of
    seconds. *)
Definition pollInterval : Z := Z.max (pollingInterval * 1000) 30000.

Definition pollUrl : string :=
  let url := "https://api.airtable.com/v0/" +:+ baseId +:+ "/"
               +:+ encodeURIComponent tableName +:+ "?pageSize=100" in
  if negb (String.eqb filterFormula "")
  then url +:+ "&filterByFormula=" +:+ encodeURIComponent filterFormula
  else url.

(** [pollRecords] up to its [await]: the request it issues. *)
Definition pollRecords_request : Event :=
  EvGet pollUrl
        {| Authorization := authHeaderOf credentials;
           ContentType := "application/json" |}
        timeout.

(** [new Date(record.createdTime) > lastCheck] *)
Definition isNew (lastCheck : Z) (record : AirtableRecord) : bool :=
  match dateParse (rec_createdTime record) with
  | Some recordTime => lastCheck <? recordTime
  | None => false
  end.

Definition project (record : AirtableRecord) : Item :=
  {| recordId := rec_id record;
     fields := rec_fields record;
     createdTime := rec_createdTime record |}.

(** [pollRecords] from its [await] on: the value it returns or the error it
    rethrows, the new [lastCheck], and what it logs. *)
Definition pollRecords_resume (lastCheck : Z) (result : AxiosResult ListBody) (now : Z)
  : (AxiosError + list Item) * Z * list Event :=
  match result with
  | Resolved _ body =>
      let records := default [] (records body) in
      let newRecords := List.filter (isNew lastCheck) records in
      let lastCheck' := now in
      if (0 <? length newRecords)%nat
      then (inr (List.map project newRecords), lastCheck', [])
      else (inr [], lastCheck', [])
  | Rejected error =>
      (inl error, lastCheck, [EvLogError "Airtable Trigger Error:" (message error)])
  end.

(** The two callers of [pollRecords]: the [setInterval] callback and the
    initial poll. Both emit a non-empty result and log a failure. *)
Definition afterPoll (kind : CycleKind) (r : AxiosError + list Item) : list Event :=
  match r with
  | inr records =>
      if (0 <? length records)%nat then [EvEmit records] else []
  | inl error =>
      [EvLogError (match kind with
                   | TimerPoll => "Polling error:"
                   | InitialPoll => "Initial poll error:"
                   end) (message error)]
  end.

(** [trigger] up to the first [await] of the initial poll. [None] when the
    credentials check throws. [now] is the clock at [let lastCheck = new Date()]. *)
Definition trigger (now : Z) : option State :=
  if negb (truthy (accessToken credentials)) && negb (truthy (apiKey credentials))
  then None
  else Some {| lastCheck := now;
               timerArmed := true;
               handleReturned := false;
               inFlight := [InitialPoll];
               log := [EvSetInterval pollInterval; pollRecords_request] |}.

(** One event of the run; [None] when the event cannot happen in that state:
    a cleared timer does not fire, only a pending call settles, and the
    cleanup function can only be called once [trigger] has returned it. *)
Definition step (st : State) (i : Input) : option State :=
  match i with
  | Tick =>
      if timerArmed st then
        Some {| lastCheck := lastCheck st;
                timerArmed := true;
                handleReturned := handleReturned st;
                inFlight := inFlight st ++ [TimerPoll];
                log := log st ++ [pollRecords_request] |}
      else None
  | Settle i result now =>
      match inFlight st !! i with
      | None => None
      | Some kind =>
          let '(r, lastCheck', logged) := pollRecords_resume (lastCheck st) result now in
          Some {| lastCheck := lastCheck';
                  timerArmed := timerArmed st;
                  handleReturned :=
                    match kind with
                    | InitialPoll => true
                    | TimerPoll => handleReturned st
                    end;
                  inFlight := delete i (inFlight st);
                  log := log st ++ logged ++ afterPoll kind r |}
      end
  | Cancel =>
      if handleReturned st then
        Some {| lastCheck := lastCheck st;
                timerArmed := false;
                handleReturned := true;
                inFlight := inFlight st;
                log := log st ++ [EvClearInterval] |}
      else None
  end.

Fixpoint run (st : State) (inputs : list Input) : option State :=
  match inputs with
  | [] => Some st
  | i :: rest =>
      match step st i with
      | Some st' => run st' rest
      | None => None
      end
  end.

End Instance.

End Trigger.

(** ** The credential test *)

Module CredentialTest.

Record TestResult : Type := {
  success : bool;
  test_message : string
}.

Definition codeIs (error : AxiosError) (c : string) : bool :=
  match code error with
  | Some c' => String.eqb c' c
  | None => false
  end.

(** [test(data)]: its result and the requests it issued. [axios] tells how
    the one call it may make settles. *)
Definition test (axios : RequestConfig -> AxiosResult JsValue) (data : Credentials)
  : TestResult * list RequestConfig :=
  if negb (truthy (accessToken data)) && negb (truthy (apiKey data))
  then ({| success := false;
           test_message := "Access token or API key is required" |}, [])
  else
    let config :=
      {| cfg_method := "GET";
         cfg_url := "https://api.airtable.com/v0/meta/bases";
         cfg_headers := {| Authorization := authHeaderOf data;
                           ContentType := "application/json" |};
         cfg_timeout := 5000;
         cfg_data := None |} in
    let result :=
      match axios config with
      | Resolved status _ =>
          if status =? 200
          then {| success := true;
                  test_message := "Connected successfully to Airtable" |}
          else {| success := false; test_message := "Connection test failed" |}
      | Rejected error =>
          if statusIs error 401 then
            {| success := false;
               test_message := "Invalid token. Please check your Airtable credentials." |}
          else if statusIs error 403 then
            {| success := false;
               test_message := "Access forbidden. Check your token permissions." |}
          else if codeIs error "ECONNREFUSED" then
            {| success := false;
               test_message :=
                 "Cannot connect to Airtable API. Please check your internet connection." |}
          else if codeIs error "ETIMEDOUT" then
            {| success := false;
               test_message := "Connection timeout. Airtable API is not responding." |}
          else
            {| success := false;
               test_message :=
                 "Connection failed: "
                   +:+ (if String.eqb (message error) "" then "Unknown error"
                        else message error) |}
      end in
    (result, [config]).

End CredentialTest.

(** ** Template rewriting *)

Module Template.

(** [\w] without the unicode and ignore-case flags: [A-Za-z0-9_]. *)
Definition isWordChar (c : ascii) : bool :=
  let n := nat_of_ascii c in
  ((65 <=? n) && (n <=? 90) || (97 <=? n) && (n <=? 122)
   || (48 <=? n) && (n <=? 57) || (n =? 95))%nat.

Fixpoint stripPrefix (p s : string) : option string :=
  match p with
  | EmptyString => Some s
  | String a p' =>
      match s with
      | EmptyString => None
      | String b s' => if Ascii.eqb a b then stripPrefix p' s' else None
      end
  end.

(** The longest prefix of word characters, and what follows it. *)
Fixpoint spanWord (s : string) : string * string :=
  match s with
  | EmptyString => (EmptyString, EmptyString)
  | String c s' =>
      if isWordChar c
      then let '(w, rest) := spanWord s' in (String c w, rest)
      else (EmptyString, s)
  end.

(** A match of [/\{\{json\.(\w+)\}\}/] anchored at the start of [s]: the
    captured key and the text after the match. The greedy [\w+] never needs
    to give characters back, because what must follow it is not a word
    character. *)
Definition matchPlaceholder (s : string) : option (string * string) :=
  match stripPrefix "{{json." s with
  | None => None
  | Some s1 =>
      let '(key, s2) := spanWord s1 in
      if String.eqb key "" then None
      else match stripPrefix "}}" s2 with
           | Some rest => Some (key, rest)
           | None => None
           end
  end.

(** [s.replace(re, f)] for the global expression above: scan left to right,
    replace each match by [f key] and resume after it. [skip] counts the
    characters of the current match still to be passed over. *)
Fixpoint replaceFrom (f : string -> string) (skip : nat) (s : string) : string :=
  match s with
  | EmptyString => EmptyString
  | String c tail =>
      match skip with
      | S k => replaceFrom f k tail
      | O =>
          match matchPlaceholder s with
          | Some (key, rest) =>
              f key +:+ replaceFrom f (String.length tail - String.length rest) tail
          | None => String c (replaceFrom f O tail)
          end
      end
  end.

Definition replaceAll (f : string -> string) (s : string) : string :=
  replaceFrom f O s.

(** [s.includes(p)] *)
Fixpoint includes (p s : string) : bool :=
  match stripPrefix p s with
  | Some _ => true
  | None =>
      match s with
      | EmptyString => false
      | String _ s' => includes p s'
      end
  end.

(** The members every plain object inherits from [Object.prototype]. *)
Definition objectPrototype (key : string) : JsValue :=
  if String.eqb key "constructor" then JFun "Object"
  else if String.eqb key "__proto__" then JObj []
  else if bool_decide (key ∈ ["hasOwnProperty"; "isPrototypeOf"; "propertyIsEnumerable";
                               "toLocaleString"; "toString"; "valueOf";
                               "__defineGetter__"; "__defineSetter__";
                               "__lookupGetter__"; "__lookupSetter__"])
  then JFun key
  else JUndefined.

(** [context[key]] for a plain object with own properties [context]. *)
Definition getMember (context : gmap string JsValue) (key : string) : JsValue :=
  match context !! key with
  | Some v => v
  | None => objectPrototype key
  end.

(** The replacer [(match, key) => context[key] || ""], with the conversion
    to a string that [replace] applies to its result, for a context in
    which no object has a [toString] of its own. *)
Definition replacer (context : gmap string JsValue) (key : string) : string :=
  toString (Js.or (getMember context key) (JStr "")).

(** [this.resolveValue(value, context)] for such a context. *)
Definition resolveValue (value : JsValue) (context : gmap string JsValue) : JsValue :=
  match value with
  | JStr s =>
      if includes "{{" s
      then JStr (replaceAll (replacer context) s)
      else value
  | _ => value
  end.

(** The text of a placeholder for [key]. *)
Definition placeholder (key : string) : string := "{{json." +:+ key +:+ "}}".

Fixpoint allWord (s : string) : bool :=
  match s with
  | EmptyString => true
  | String c s' => isWordChar c && allWord s'
  end.

(** No opening brace occurs in [s]. *)
Fixpoint braceFree (s : string) : bool :=
  match s with
  | EmptyString => true
  | String c s' => negb (Ascii.eqb c "{") && braceFree s'
  end.

End Template.

(** ** Timers *)

Module Timers.






End Timers.

(** ** Node operations *)

Module Node.

(** What a node method can throw: an Error or TypeError, or the SyntaxError
    of [JSON.parse]. *)
Inductive Exn : Type :=
| Raised (e : Executor.Exn)
| SyntaxError (msg : string).

(** [error.message] *)
Definition messageOf (e : Exn) : string :=
  match e with
  | Raised (Executor.Error msg) => msg
  | Raised (Executor.TypeError msg) => msg
  | SyntaxError msg => msg
  end.

Inductive Outcome : Type :=
| Returned (result : JsValue)
| Thrown (e : Exn).

Inductive Event : Type :=
| EvInfo (msg : string) (meta : list (string * JsValue))   (* this.logger.info(msg, meta) *)
| EvHttp (ev : Executor.Event)                            (* inside makeAirtableRequest *)
| EvError (msg : string) (meta : list (string * JsValue)). (* this.logger.error(msg, meta) *)

Definition isHttpRequest (ev : Event) : bool :=
  match ev with
  | EvHttp (Executor.EvRequest _) => true
  | _ => false
  end.

(** The requests sent, in order. *)
Definition httpRequests (log : list Event) : list RequestConfig :=
  omap (fun ev => match ev with
                  | EvHttp (Executor.EvRequest c) => Some c
                  | _ => None
                  end) log.

(** The backoff sleeps, in order. *)
Definition httpSleeps (log : list Event) : list Z :=
  omap (fun ev => match ev with
                  | EvHttp (Executor.EvSleep ms) => Some ms
                  | _ => None
                  end) log.

Definition cannotRead (v : JsValue) (k : string) : Exn :=
  Raised (Executor.TypeError
            ("Cannot read properties of " +:+ toString v +:+ " (reading '" +:+ k +:+ "')")).

(** [v.k] for a key other than [length]: reading a property of [undefined]
    or [null] throws. *)
Definition getProp (v : JsValue) (k : string) : Exn + JsValue :=
  match v with
  | JUndefined | JNull => inl (cannotRead v k)
  | JObj props => inr (assoc k props)
  | JFun name => inr (if String.eqb k "name" then JStr name else JUndefined)
  | _ => inr JUndefined
  end.

(** [v[0]] *)
Definition first (v : JsValue) : Exn + JsValue :=
  match v with
  | JUndefined | JNull => inl (cannotRead v "0")
  | JArr items => inr (List.hd JUndefined items)
  | JStr s => inr (match s with
                   | EmptyString => JUndefined
                   | String c _ => JStr (String c EmptyString)
                   end)
  | JObj props => inr (assoc "0" props)
  | _ => inr JUndefined
  end.

Definition bind {A B : Type} (m : Exn + A) (f : A -> Exn + B) : Exn + B :=
  match m with
  | inl e => inl e
  | inr a => f a
  end.

(** [items.map(f)], stopping at the first element on which [f] throws. *)
Fixpoint mapItems (f : JsValue -> Exn + JsValue) (items : list JsValue)
  : Exn + list JsValue :=
  match items with
  | [] => inr []
  | x :: rest =>
      bind (f x) (fun y => bind (mapItems f rest) (fun ys => inr (y :: ys)))
  end.

(** [v.length] followed by [v.map(f)] on the same value, as in
    [{ count: v.length, items: v.map(f) }]; [what] is the source text of
    [v]. Only an array has a [map] method to call. *)
Definition lengthAndMap (what : string) (v : JsValue) (f : JsValue -> Exn + JsValue)
  : Exn + (JsValue * JsValue) :=
  match v with
  | JUndefined | JNull => inl (cannotRead v "length")
  | JArr items =>
      bind (mapItems f items) (fun ys => inr (JNum (Z.of_nat (length items)), JArr ys))
  | _ => inl (Raised (Executor.TypeError (what +:+ ".map is not a function")))
  end.

(** [v.map(f)] alone. *)
Definition mapOnly (what : string) (v : JsValue) (f : JsValue -> Exn + JsValue)
  : Exn + JsValue :=
  match v with
  | JUndefined | JNull => inl (cannotRead v "map")
  | JArr items => bind (mapItems f items) (fun ys => inr (JArr ys))
  | _ => inl (Raised (Executor.TypeError (what +:+ ".map is not a function")))
  end.

(** The [options] collection as its schema types it: numbers, or absent. *)
Record Options : Type := {
  opt_timeout : option Z;
  opt_maxRetries : option Z;
  opt_retryDelay : option Z
}.

(** [n || d] for a number that may be absent. *)
Definition numberOr (n : option Z) (d : Z) : Z :=
  match n with
  | Some v => if v =? 0 then d else v
  | None => d
  end.

Section Methods.

(** The host: [this.getNodeParameter(name, fallback)]. *)
Variable getNodeParameter : string -> option JsValue -> JsValue.
(** [JSON.parse] *)
Variable jsonParse : string -> Exn + JsValue.
Variable encodeURIComponent : string -> string.
(** Calling a function that is stored in the data, by its name, on the
    object that holds it: what it returns or throws. *)
Variable invoke : string -> JsValue -> Exn + JsValue.

(** *** Conversion to a string *)

Definition isObject (v : JsValue) : bool :=
  match v with
  | JArr _ | JObj _ | JFun _ => true
  | _ => false
  end.

(** The own property [k], if the object has one. *)
Fixpoint lookupOwn (k : string) (props : list (string * JsValue)) : option JsValue :=
  match props with
  | [] => None
  | (k', v) :: rest => if String.eqb k k' then Some v else lookupOwn k rest
  end.

(** One step of OrdinaryToPrimitive on the object [this]: the method is the
    own property [own] when there is one, and otherwise the inherited one,
    whose result is [inherited]. A method that is not callable is skipped,
    and so is a result that is an object: [None]. *)
Definition viaMethod (this : JsValue) (own : option JsValue) (inherited : JsValue)
  : Exn + option JsValue :=
  match own with
  | None => inr (if isObject inherited then None else Some inherited)
  | Some (JFun name) =>
      match invoke name this with
      | inl e => inl e
      | inr result => inr (if isObject result then None else Some result)
      end
  | Some _ => inr None
  end.

Definition cannotConvert : Exn :=
  Raised (Executor.TypeError "Cannot convert object to primitive value").

(** ToString of a plain object: [toString] first, then [valueOf]; what
    [Object.prototype] provides returns "[object Object]" and the object
    itself. *)
Definition objectText (props : list (string * JsValue)) : Exn + string :=
  let this := JObj props in
  match viaMethod this (lookupOwn "toString" props) (JStr "[object Object]") with
  | inl e => inl e
  | inr (Some p) => inr (Js.toString p)
  | inr None =>
      match viaMethod this (lookupOwn "valueOf" props) this with
      | inl e => inl e
      | inr (Some p) => inr (Js.toString p)
      | inr None => inl cannotConvert
      end
  end.

(** ToString, as applied by template literals, by [encodeURIComponent] and
    by [String.prototype.replace] to what a replacer returns. An array is
    joined with commas, [undefined] and [null] elements giving nothing. *)
Fixpoint toText (v : JsValue) : Exn + string :=
  match v with
  | JArr items =>
      (fix join (items : list JsValue) : Exn + string :=
         match items with
         | [] => inr ""
         | x :: rest =>
             let element :=
               match x with
               | JUndefined | JNull => inr ""
               | _ => toText x
               end in
             match rest with
             | [] => element
             | _ :: _ =>
                 bind element (fun a => bind (join rest) (fun b => inr (a +:+ "," +:+ b)))
             end
         end) items
  | JObj props => objectText props
  | _ => inr (Js.toString v)
  end.

(** No object that the conversion of [v] reaches has a [toString] of its
    own. *)
Fixpoint plain (v : JsValue) : bool :=
  match v with
  | JArr items => forallb plain items
  | JObj props =>
      match lookupOwn "toString" props with
      | None => true
      | Some _ => false
      end
  | _ => true
  end.

(** *** Template rewriting, with the conversion that can throw *)

(** [s.replace(re, f)] as [Template.replaceFrom], for a replacer whose
    result may fail to convert to a string. *)
Fixpoint replaceFrom (f : string -> Exn + string) (skip : nat) (s : string)
  : Exn + string :=
  match s with
  | EmptyString => inr EmptyString
  | String c tail =>
      match skip with
      | S k => replaceFrom f k tail
      | O =>
          match Template.matchPlaceholder s with
          | Some (key, rest) =>
              bind (f key) (fun text =>
              bind (replaceFrom f (String.length tail - String.length rest) tail)
                   (fun after => inr (text +:+ after)))
          | None => bind (replaceFrom f O tail) (fun after => inr (String c after))
          end
      end
  end.

(** The replacer [(match, key) => context[key] || ""] and the conversion of
    its result. *)
Definition replacer (context : gmap string JsValue) (key : string) : Exn + string :=
  toText (Js.or (Template.getMember context key) (JStr "")).

(** [this.resolveValue(value, context)] for any context: the method throws
    when the conversion of a value it looks up does. *)
Definition resolveValue (value : JsValue) (context : gmap string JsValue) : Exn + JsValue :=
  match value with
  | JStr s =>
      if Template.includes "{{" s
      then bind (replaceFrom (replacer context) O s) (fun text => inr (JStr text))
      else inr value
  | _ => inr value
  end.

(** *** The operations *)

(** [await this.makeAirtableRequest(...)] after the [logger.info] call
    [info], and what the method does with the response. *)
Definition requestThen (axios : nat -> RequestConfig -> AxiosResult JsValue)
           (info : Event) (url : string) (data : JsValue) (credentials : Credentials)
           (method : string) (timeout maxRetries retryDelay : Z)
           (k : JsValue -> Exn + JsValue) : option (Outcome * list Event) :=
  match Executor.makeAirtableRequest axios url data credentials method timeout
                                     maxRetries retryDelay with
  | None => None
  | Some (Executor.Thrown e, log) => Some (Thrown (Raised e), info :: (EvHttp <$> log))
  | Some (Executor.Returned response, log) =>
      Some (match k response with
            | inl e => Thrown e
            | inr result => Returned result
            end, info :: (EvHttp <$> log))
  end.

(** [`https://api.airtable.com/v0/${baseId}/${encodeURIComponent(tableName)}`] *)
Definition tableUrl (baseId tableName : JsValue) : Exn + string :=
  bind (toText baseId) (fun base =>
  bind (toText tableName) (fun table =>
  inr ("https://api.airtable.com/v0/" +:+ base +:+ "/" +:+ encodeURIComponent table))).

(** The same followed by [`/${recordId}`]. *)
Definition recordUrl (baseId tableName recordId : JsValue) : Exn + string :=
  bind (tableUrl baseId tableName) (fun url =>
  bind (toText recordId) (fun record => inr (url +:+ "/" +:+ record))).

(** [typeof fields === "string" ? JSON.parse(fields) : fields] *)
Definition parseFields (fields : JsValue) : Exn + JsValue :=
  match fields with
  | JStr s => jsonParse s
  | _ => inr fields
  end.

Section PerItem.

Variable axios : nat -> RequestConfig -> AxiosResult JsValue.
Variable json : gmap string JsValue.      (* item.json *)
Variables (credentials : Credentials) (timeout maxRetries retryDelay : Z).

(** [this.resolveValue(this.getNodeParameter(name), item.json)] *)
Definition resolved (name : string) : Exn + JsValue :=
  resolveValue (getNodeParameter name None) json.

(** What a method does when the expression of its URL has been evaluated,
    after [info] was logged. *)
Definition sendTo (info : Event) (url : Exn + string) (data : JsValue) (method : string)
           (k : JsValue -> Exn + JsValue) : option (Outcome * list Event) :=
  match url with
  | inl e => Some (Thrown e, [info])
  | inr url =>
      requestThen axios info url data credentials method timeout maxRetries retryDelay k
  end.

Definition createRecord : option (Outcome * list Event) :=
  match bind (resolved "baseId") (fun baseId =>
        bind (resolved "tableName") (fun tableName => inr (baseId, tableName))) with
  | inl e => Some (Thrown e, [])
  | inr (baseId, tableName) =>
      let fields := getNodeParameter "fields" None in
      if negb (truthy baseId) || negb (truthy tableName) || negb (truthy fields) then
        Some (Thrown (Raised (Executor.Error "Base ID, table name, and fields are required")),
              [])
      else
        match parseFields fields with
        | inl e => Some (Thrown e, [])
        | inr parsed =>
            let payload := JObj [("records", JArr [JObj [("fields", parsed)]])] in
            sendTo
              (EvInfo "Creating Airtable record"
                      [("baseId", baseId); ("tableName", tableName)])
              (tableUrl baseId tableName) payload "POST"
              (fun response =>
                 bind (getProp response "records") (fun records =>
                 bind (first records) (fun record =>
                 bind (getProp record "id") (fun id =>
                 bind (getProp record "fields") (fun fields' =>
                 bind (getProp record "createdTime") (fun createdTime =>
                 inr (JObj [("success", JBool true); ("recordId", id);
                            ("fields", fields'); ("createdTime", createdTime)])))))))
        end
  end.

Definition readRecord : option (Outcome * list Event) :=
  match bind (resolved "baseId") (fun baseId =>
        bind (resolved "tableName") (fun tableName =>
        bind (resolved "recordId") (fun recordId =>
        inr (baseId, tableName, recordId)))) with
  | inl e => Some (Thrown e, [])
  | inr (baseId, tableName, recordId) =>
      if negb (truthy baseId) || negb (truthy tableName) || negb (truthy recordId) then
        Some (Thrown (Raised (Executor.Error
                                "Base ID, table name, and record ID are required")), [])
      else
        sendTo
          (EvInfo "Reading Airtable record"
                  [("baseId", baseId); ("tableName", tableName); ("recordId", recordId)])
          (recordUrl baseId tableName recordId) JNull "GET"
          (fun response =>
             bind (getProp response "id") (fun id =>
             bind (getProp response "fields") (fun fields =>
             bind (getProp response "createdTime") (fun createdTime =>
             inr (JObj [("success", JBool true); ("recordId", id);
                        ("fields", fields); ("createdTime", createdTime)])))))
  end.

Definition updateRecord : option (Outcome * list Event) :=
  match bind (resolved "baseId") (fun baseId =>
        bind (resolved "tableName") (fun tableName =>
        bind (resolved "recordId") (fun recordId =>
        inr (baseId, tableName, recordId)))) with
  | inl e => Some (Thrown e, [])
  | inr (baseId, tableName, recordId) =>
      let updateFields := getNodeParameter "updateFields" None in
      if negb (truthy baseId) || negb (truthy tableName) || negb (truthy recordId)
         || negb (truthy updateFields) then
        Some (Thrown (Raised (Executor.Error
                "Base ID, table name, record ID, and update fields are required")), [])
      else
        match parseFields updateFields with
        | inl e => Some (Thrown e, [])
        | inr parsed =>
            let payload :=
              JObj [("records", JArr [JObj [("id", recordId); ("fields", parsed)]])] in
            sendTo
              (EvInfo "Updating Airtable record"
                      [("baseId", baseId); ("tableName", tableName);
                       ("recordId", recordId)])
              (tableUrl baseId tableName) payload "PATCH"
              (fun response =>
                 bind (getProp response "records") (fun records =>
                 bind (first records) (fun record =>
                 bind (getProp record "id") (fun id =>
                 bind (getProp record "fields") (fun fields' =>
                 inr (JObj [("success", JBool true); ("recordId", id);
                            ("fields", fields')]))))))
        end
  end.

Definition deleteRecord : option (Outcome * list Event) :=
  match bind (resolved "baseId") (fun baseId =>
        bind (resolved "tableName") (fun tableName =>
        bind (resolved "recordId") (fun recordId =>
        inr (baseId, tableName, recordId)))) with
  | inl e => Some (Thrown e, [])
  | inr (baseId, tableName, recordId) =>
      if negb (truthy baseId) || negb (truthy tableName) || negb (truthy recordId) then
        Some (Thrown (Raised (Executor.Error
                                "Base ID, table name, and record ID are required")), [])
      else
        sendTo
          (EvInfo "Deleting Airtable record"
                  [("baseId", baseId); ("tableName", tableName); ("recordId", recordId)])
          (recordUrl baseId tableName recordId) JNull "DELETE"
          (fun _ =>
             inr (JObj [("success", JBool true); ("recordId", recordId);
                        ("deleted", JBool true)]))
  end.

(** The URL of [listRecords], with its query string. *)
Definition listUrl (baseId tableName filterFormula sortField sortDirection limit : JsValue)
  : Exn + string :=
  bind (tableUrl baseId tableName) (fun table =>
  bind (toText limit) (fun size =>
  let url := table +:+ "?pageSize=" +:+ size in
  bind (if truthy filterFormula
        then bind (toText filterFormula) (fun formula =>
             inr (url +:+ "&filterByFormula=" +:+ encodeURIComponent formula))
        else inr url) (fun url =>
  if truthy sortField
  then bind (toText sortField) (fun field =>
       bind (toText sortDirection) (fun direction =>
       inr (url +:+ "&sort[0][field]=" +:+ encodeURIComponent field
                +:+ "&sort[0][direction]=" +:+ direction)))
  else inr url))).

Definition listRecords : option (Outcome * list Event) :=
  match bind (resolved "baseId") (fun baseId =>
        bind (resolved "tableName") (fun tableName =>
        bind (resolveValue (getNodeParameter "filterFormula" (Some (JStr ""))) json)
             (fun filterFormula =>
        bind (resolveValue (getNodeParameter "sortField" (Some (JStr ""))) json)
             (fun sortField =>
        inr (baseId, tableName, filterFormula, sortField))))) with
  | inl e => Some (Thrown e, [])
  | inr (baseId, tableName, filterFormula, sortField) =>
      let sortDirection := getNodeParameter "sortDirection" (Some (JStr "asc")) in
      let limit := getNodeParameter "limit" (Some (JNum 100)) in
      if negb (truthy baseId) || negb (truthy tableName) then
        Some (Thrown (Raised (Executor.Error "Base ID and table name are required")), [])
      else
        match listUrl baseId tableName filterFormula sortField sortDirection limit with
        | inl e => Some (Thrown e, [])
        | inr url =>
            requestThen axios
              (EvInfo "Listing Airtable records"
                      [("baseId", baseId); ("tableName", tableName); ("limit", limit)])
              url JNull credentials "GET" timeout maxRetries retryDelay
              (fun response =>
                 bind (getProp response "records") (fun records =>
                 bind (lengthAndMap "response.records" records
                         (fun record =>
                            bind (getProp record "id") (fun id =>
                            bind (getProp record "fields") (fun fields =>
                            bind (getProp record "createdTime") (fun createdTime =>
                            inr (JObj [("recordId", id); ("fields", fields);
                                       ("createdTime", createdTime)]))))))
                      (fun '(count, mapped) =>
                         inr (JObj [("success", JBool true); ("count", count);
                                    ("records", mapped)]))))
        end
  end.

Definition listBases : option (Outcome * list Event) :=
  requestThen axios
    (EvInfo "Listing Airtable bases" [])
    "https://api.airtable.com/v0/meta/bases" JNull credentials "GET"
    timeout maxRetries retryDelay
    (fun response =>
       bind (getProp response "bases") (fun bases =>
       bind (lengthAndMap "response.bases" bases
               (fun base =>
                  bind (getProp base "id") (fun id =>
                  bind (getProp base "name") (fun name =>
                  inr (JObj [("id", id); ("name", name)])))))
            (fun '(count, mapped) =>
               inr (JObj [("success", JBool true); ("count", count);
                          ("bases", mapped)])))).

Definition getBase : option (Outcome * list Event) :=
  match resolved "baseId" with
  | inl e => Some (Thrown e, [])
  | inr baseId =>
      if negb (truthy baseId) then
        Some (Thrown (Raised (Executor.Error "Base ID is required")), [])
      else
        sendTo
          (EvInfo "Getting Airtable base" [("baseId", baseId)])
          (bind (toText baseId) (fun base =>
           inr ("https://api.airtable.com/v0/meta/bases/" +:+ base)))
          JNull "GET"
          (fun response =>
             bind (getProp response "id") (fun id =>
             bind (getProp response "name") (fun name =>
             bind (getProp response "tables") (fun tables =>
             bind (mapOnly "response.tables" tables
                     (fun table =>
                        bind (getProp table "id") (fun tid =>
                        bind (getProp table "name") (fun tname =>
                        inr (JObj [("id", tid); ("name", tname)])))))
                  (fun mapped =>
                     inr (JObj [("success", JBool true); ("id", id); ("name", name);
                                ("tables", mapped)]))))))
  end.

Definition listTables : option (Outcome * list Event) :=
  match resolved "baseId" with
  | inl e => Some (Thrown e, [])
  | inr baseId =>
      if negb (truthy baseId) then
        Some (Thrown (Raised (Executor.Error "Base ID is required")), [])
      else
        sendTo
          (EvInfo "Listing Airtable tables" [("baseId", baseId)])
          (bind (toText baseId) (fun base =>
           inr ("https://api.airtable.com/v0/meta/bases/" +:+ base +:+ "/tables")))
          JNull "GET"
          (fun response =>
             bind (getProp response "tables") (fun tables =>
             bind (lengthAndMap "response.tables" tables
                     (fun table =>
                        bind (getProp table "id") (fun tid =>
                        bind (getProp table "name") (fun tname =>
                        bind (getProp table "fields") (fun tfields =>
                        bind (mapOnly "table.fields" tfields
                                (fun field =>
                                   bind (getProp field "id") (fun fid =>
                                   bind (getProp field "name") (fun fname =>
                                   bind (getProp field "type") (fun ftype =>
                                   inr (JObj [("id", fid); ("name", fname);
                                              ("type", ftype)]))))))
                             (fun mappedFields =>
                                inr (JObj [("id", tid); ("name", tname);
                                           ("fields", mappedFields)])))))))
                  (fun '(count, mapped) =>
                     inr (JObj [("success", JBool true); ("count", count);
                                ("tables", mapped)]))))
  end.

(** The two [switch] statements of [execute] for one item. An operation
    that no case handles throws; a resource that is neither "record" nor
    "base" leaves [result] undefined. *)
Definition dispatch (resource operation : JsValue) : option (Outcome * list Event) :=
  let unknown :=
    Some (Thrown (Raised (Executor.Error ("Unknown operation: " +:+ toString operation))),
          []) in
  if strictEqStr resource "record" then
    if strictEqStr operation "createRecord" then createRecord
    else if strictEqStr operation "readRecord" then readRecord
    else if strictEqStr operation "updateRecord" then updateRecord
    else if strictEqStr operation "deleteRecord" then deleteRecord
    else if strictEqStr operation "listRecords" then listRecords
    else unknown
  else if strictEqStr resource "base" then
    if strictEqStr operation "listBases" then listBases
    else if strictEqStr operation "getBase" then getBase
    else if strictEqStr operation "listTables" then listTables
    else unknown
  else Some (Returned JUndefined, []).

End PerItem.

(** The [for (const item of itemsToProcess)] loop of [execute]. [axios i]
    serves the calls made for the [i]-th item. The result is the error that
    left the loop or the [results] array. *)
Fixpoint processItems (axios : nat -> nat -> RequestConfig -> AxiosResult JsValue)
         (continueOnFail : bool) (resource operation : JsValue)
         (credentials : Credentials) (timeout maxRetries retryDelay : Z)
         (i : nat) (items : list (gmap string JsValue))
         (results : list JsValue) (log : list Event)
  : option ((Exn + list JsValue) * list Event) :=
  match items with
  | [] => Some (inr results, log)
  | json :: rest =>
      match dispatch (axios i) json credentials timeout maxRetries retryDelay
                     resource operation with
      | None => None
      | Some (Returned result, logged) =>
          processItems axios continueOnFail resource operation credentials
                       timeout maxRetries retryDelay (S i) rest
                       (results ++ [JObj [("json", result)]]) (log ++ logged)
      | Some (Thrown error, logged) =>
          if continueOnFail then
            processItems axios continueOnFail resource operation credentials
                         timeout maxRetries retryDelay (S i) rest
                         (results ++ [JObj [("json",
                                             JObj [("success", JBool false);
                                                   ("error", JStr (messageOf error));
                                                   ("operation", operation);
                                                   ("resource", resource)])]])
                         (log ++ logged)
          else Some (inl error, log ++ logged)
      end
  end.

(** [execute(inputData)]. [main0] is [inputData.main?.[0]] (the [json] of
    each item), [continueOnFail] is [this.settings?.continueOnFail],
    [credentials] is what [this.getCredentials("airtable")] resolved to, and
    [options] is the options collection. *)
Definition execute (axios : nat -> nat -> RequestConfig -> AxiosResult JsValue)
           (main0 : option (list (gmap string JsValue))) (continueOnFail : bool)
           (credentials : option Credentials) (options : Options)
  : option (Outcome * list Event) :=
  let items := default [] main0 in
  let resource := getNodeParameter "resource" None in
  let operation := getNodeParameter "operation" None in
  let failed (error : Exn) (log : list Event) :=
    (Thrown error,
     log ++ [EvError "Airtable Node Error:"
                     [("operation", operation); ("resource", resource);
                      ("error", JStr (messageOf error))]]) in
  match credentials with
  | Some creds =>
      if negb (truthy (accessToken creds)) && negb (truthy (apiKey creds)) then
        Some (failed (Raised (Executor.Error
          "Airtable credentials are required. Please configure Airtable credentials.")) [])
      else
        let maxRetries := match opt_maxRetries options with
                          | Some n => n
                          | None => 3
                          end in
        let retryDelay := numberOr (opt_retryDelay options) 1000 in
        let timeout := numberOr (opt_timeout options) 30000 in
        let itemsToProcess := if (0 <? length items)%nat then items else [∅] in
        match processItems axios continueOnFail resource operation creds
                           timeout maxRetries retryDelay 0 itemsToProcess [] [] with
        | None => None
        | Some (inr results, log) =>
            Some (Returned (JArr [JObj [("main", JArr results)]]), log)
        | Some (inl error, log) => Some (failed error log)
        end
  | None =>
      Some (failed (Raised (Executor.Error
        "Airtable credentials are required. Please configure Airtable credentials.")) [])
  end.

End Methods.

End Node.

(** ** Vocabulary for runs and templates *)

Module Runs.

Import Trigger.

Definition isSettle (i : Input) : bool :=
  match i with Settle _ _ _ => true | _ => false end.

(** Ticks and failed responses only. *)
Definition isTickOrFailure (i : Input) : bool :=
  match i with
  | Tick => true
  | Settle _ (Rejected _) _ => true
  | _ => false
  end.

(** The items of all batches emitted, in order. *)
Definition emittedItems (l : list Event) : list Item :=
  concat (omap (fun ev => match ev with EvEmit items => Some items | _ => None end) l).

(** The clock readings taken by successful cycles never fall below the
    watermark in force, starting from watermark [T]. *)
Fixpoint clockMonotone (T : Z) (inputs : list Input) : Prop :=
  match inputs with
  | [] => True
  | Settle _ (Resolved _ _) now :: rest => T <= now /\ clockMonotone now rest
  | _ :: rest => clockMonotone T rest
  end.

End Runs.

Module Segments.

Import Template.

(** A template: literal text and the key of the placeholder that follows
    it, repeated, then a last literal. *)
Fixpoint templateOf (segments : list (string * string)) (last : string) : string :=
  match segments with
  | [] => last
  | (text, key) :: rest => text +:+ placeholder key +:+ templateOf rest last
  end.

(** The same with each placeholder replaced by [f key]. *)
Fixpoint expansionOf (f : string -> string) (segments : list (string * string))
         (last : string) : string :=
  match segments with
  | [] => last
  | (text, key) :: rest => text +:+ f key +:+ expansionOf f rest last
  end.

Definition wellFormed (segment : string * string) : bool :=
  braceFree segment.1 && allWord segment.2 && negb (String.eqb segment.2 "").

End Segments.

(** ** Sample inputs *)

Module Sample.

Definition patCredentials : Credentials :=
  {| authenticationType := JStr "pat";
     accessToken := JStr "patAbc123";
     apiKey := JUndefined |}.

Definition rateLimited : AxiosError :=
  {| response := Some {| err_status := 429; err_data := JNull |};
     message := "Request failed with status code 429";
     code := Some "ERR_BAD_REQUEST" |}.

Definition notFound : AxiosError :=
  {| response := Some {| err_status := 404; err_data := JNull |};
     message := "Request failed with status code 404";
     code := Some "ERR_BAD_REQUEST" |}.

Definition refused : AxiosError :=
  {| response := None;
     message := "connect ECONNREFUSED";
     code := Some "ECONNREFUSED" |}.

(** A server that answers every call with 429. *)
Definition alwaysLimited (k : nat) (config : RequestConfig) : AxiosResult JsValue :=
  Rejected rateLimited.

(** A server that answers 429 until call [n], which succeeds. *)
Definition limitedUntil (n : nat) (k : nat) (config : RequestConfig) : AxiosResult JsValue :=
  if (k <? n)%nat then Rejected rateLimited
  else Resolved 200 (JObj [("records", JArr [])]).

(** A server that answers 429 until call [n], which is not found. *)
Definition limitedThenMissing (n : nat) (k : nat) (config : RequestConfig)
  : AxiosResult JsValue :=
  if (k <? n)%nat then Rejected rateLimited else Rejected notFound.

(** Creation times given as epoch milliseconds. *)
Definition epochMillis (v : JsValue) : option Z :=
  match v with
  | JNum n => Some n
  | _ => None
  end.

Definition recordAt (id : string) (t : Z) : Trigger.AirtableRecord :=
  {| Trigger.rec_id := JStr id;
     Trigger.rec_fields := JObj [("Name", JStr id)];
     Trigger.rec_createdTime := JNum t |}.

Definition listOf (recs : list Trigger.AirtableRecord) : AxiosResult Trigger.ListBody :=
  Resolved 200 {| Trigger.records := Some recs |}.

Definition stateAt (T : Z) : Trigger.State :=
  {| Trigger.lastCheck := T;
     Trigger.timerArmed := true;
     Trigger.handleReturned := true;
     Trigger.inFlight := [Trigger.TimerPoll];
     Trigger.log := [] |}.

End Sample.

(** ** Sample host *)

Module NodeSample.

(** A host whose parameters are the given ones; any other parameter takes
    the fallback of the call. *)
Definition hostOf (given : list (string * JsValue)) (name : string)
           (fallback : option JsValue) : JsValue :=
  match List.find (fun p => String.eqb p.1 name) given with
  | Some p => p.2
  | None => default JUndefined fallback
  end.

(** A parser that knows the empty object and rejects everything else. *)
Definition parseEmptyObject (text : string) : Node.Exn + JsValue :=
  if String.eqb text "{}" then inr (JObj [])
  else inl (Node.SyntaxError "Unexpected token in JSON").

Definition readTask : list (string * JsValue) :=
  [("resource", JStr "record"); ("operation", JStr "readRecord");
   ("baseId", JStr "appX"); ("tableName", JStr "Tasks");
   ("recordId", JStr "{{json.id}}"); ("fields", JStr "{}");
   ("updateFields", JStr "{oops")].

Definition listAllBases : list (string * JsValue) :=
  [("resource", JStr "base"); ("operation", JStr "listBases")].

(** No function is stored in the sample data; a call would return
    [undefined]. *)
Definition returnsUndefined (name : string) (this : JsValue) : Node.Exn + JsValue :=
  inr JUndefined.

(** An object whose [toString] is not a function. *)
Definition unprintable : JsValue := JObj [("toString", JStr "x")].

Definition noOptions : Node.Options :=
  {| Node.opt_timeout := None; Node.opt_maxRetries := None; Node.opt_retryDelay := None |}.

(** A server that answers every call of every item with 429. *)
Definition alwaysLimited (i k : nat) (config : RequestConfig) : AxiosResult JsValue :=
  Rejected Sample.rateLimited.

(** A server that answers every call with the given body. *)
Definition answering (body : JsValue) (k : nat) (config : RequestConfig)
  : AxiosResult JsValue :=
  Resolved 200 body.

End NodeSample.

(** * Facts about the request executor *)

Section ExecutorFacts.

Import Executor.

Context (axios : nat -> RequestConfig -> AxiosResult JsValue)
        (url : string) (data : JsValue) (credentials : Credentials)
        (method : string) (timeout maxRetries retryDelay : Z).

Local Abbreviation config := (configOf url data credentials method timeout).
Local Abbreviation loop := (retryLoop axios url data credentials method timeout maxRetries retryDelay).
Local Abbreviation request :=
  (makeAirtableRequest axios url data credentials method timeout maxRetries retryDelay).
Local Abbreviation backoff := (backoffLog url data credentials method timeout retryDelay).

Lemma attemptsIn_app (l1 l2 : list Event) :
  attemptsIn (l1 ++ l2) = (attemptsIn l1 + attemptsIn l2)%nat.
Proof. unfold attemptsIn. by rewrite List.filter_app, length_app. Qed.

Lemma attemptsIn_backoff (k : nat) : attemptsIn (backoff k) = k.
Proof.
  induction k as [|k IH]; [done|].
  cbn [backoffLog]. rewrite attemptsIn_app, IH. cbn. lia.
Qed.

Lemma sleepsIn_app (l1 l2 : list Event) :
  sleepsIn (l1 ++ l2) = sleepsIn l1 ++ sleepsIn l2.
Proof. unfold sleepsIn. apply omap_app. Qed.

Lemma totalSlept_app (l1 l2 : list Event) :
  totalSlept (l1 ++ l2) = totalSlept l1 + totalSlept l2.
Proof.
  unfold totalSlept. rewrite sleepsIn_app.
  induction (sleepsIn l1) as [|x xs IH]; cbn; [done|]. rewrite IH. lia.
Qed.

Lemma sleepsIn_backoff (k : nat) :
  sleepsIn (backoff k) = (λ a : nat, retryDelay * 2 ^ Z.of_nat a) <$> seq 0 k.
Proof.
  induction k as [|k IH]; [done|].
  cbn [backoffLog]. rewrite sleepsIn_app, IH, seq_S, fmap_app. done.
Qed.

Lemma totalSlept_backoff (k : nat) :
  totalSlept (backoff k) = retryDelay * (2 ^ Z.of_nat k - 1).
Proof.
  induction k as [|k IH]; [cbn; lia|].
  cbn [backoffLog]. rewrite totalSlept_app, IH.
  replace (Z.of_nat (S k)) with (Z.of_nat k + 1) by lia.
  rewrite Z.pow_add_r by lia. cbn. lia.
Qed.

(** Each retried 429 moves the loop one attempt forward. *)
Lemma loop_429_prefix (k fuel : nat) :
  Z.of_nat k <= maxRetries ->
  (forall i, (i < k)%nat -> rejected429 (axios i config) = true) ->
  loop (k + fuel)%nat 0 None [] =
  loop fuel (Z.of_nat k)
       (match k with O => None | S k' => errorOf (axios k' config) end)
       (backoff k).
Proof.
  revert fuel. induction k as [|k IH]; intros fuel Hk H429; [done|].
  replace (S k + fuel)%nat with (k + S fuel)%nat by lia.
  rewrite IH by (try lia; intros; apply H429; lia).
  cbn [retryLoop].
  replace (Z.of_nat k <=? maxRetries) with true by (symmetry; apply Z.leb_le; lia).
  rewrite attemptsIn_backoff.
  specialize (H429 k ltac:(lia)).
  destruct (axios k config) as [st body|e]; [done|]. cbn in H429. rewrite H429.
  replace (Z.of_nat k <? maxRetries) with true by (symmetry; apply Z.ltb_lt; lia).
  cbn [andb errorOf backoffLog].
  rewrite <- app_assoc. cbn [app].
  do 2 f_equal; lia.
Qed.

(** After [k] retried 429s, a response that is not a 429 ends the run. *)
Lemma request_ends_at (k : nat) :
  Z.of_nat k <= maxRetries ->
  (forall i, (i < k)%nat -> rejected429 (axios i config) = true) ->
  rejected429 (axios k config) = false ->
  request = Some (finalOutcome (axios k config), backoff k ++ [EvRequest config]).
Proof.
  intros Hk H429 Hlast. unfold makeAirtableRequest.
  replace (S (Z.to_nat (maxRetries + 1))) with (k + S (S (Z.to_nat maxRetries - k)))%nat by lia.
  rewrite loop_429_prefix by done.
  cbn [retryLoop].
  replace (Z.of_nat k <=? maxRetries) with true by (symmetry; apply Z.leb_le; lia).
  rewrite attemptsIn_backoff.
  destruct (axios k config) as [st body|e]; [done|].
  cbn in Hlast. rewrite Hlast. done.
Qed.

(** A 429 on the last permitted attempt ends the run as well. *)
Lemma request_exhausted (k : nat) :
  Z.of_nat k = maxRetries ->
  (forall i, (i <= k)%nat -> rejected429 (axios i config) = true) ->
  request = Some (finalOutcome (axios k config), backoff k ++ [EvRequest config]).
Proof.
  intros Hk H429. unfold makeAirtableRequest.
  replace (S (Z.to_nat (maxRetries + 1))) with (k + 2)%nat by lia.
  rewrite loop_429_prefix by (try lia; intros; apply H429; lia).
  cbn [retryLoop].
  replace (Z.of_nat k <=? maxRetries) with true by (symmetry; apply Z.leb_le; lia).
  rewrite attemptsIn_backoff.
  specialize (H429 k ltac:(lia)).
  destruct (axios k config) as [st body|e]; [done|]. cbn in H429. rewrite H429.
  replace (Z.of_nat k <? maxRetries) with false by (symmetry; apply Z.ltb_ge; lia).
  cbn [andb negb].
  replace (Z.of_nat k + 1 <=? maxRetries) with false by (symmetry; apply Z.leb_gt; lia).
  done.
Qed.

(** The shape of every run with a non-negative retry budget. *)
Lemma request_shape :
  0 <= maxRetries ->
  exists k : nat,
    Z.of_nat k <= maxRetries /\
    (forall i, (i < k)%nat -> rejected429 (axios i config) = true) /\
    (rejected429 (axios k config) = true -> Z.of_nat k = maxRetries) /\
    request = Some (finalOutcome (axios k config), backoff k ++ [EvRequest config]).
Proof.
  intros Hn.
  assert (Hgen : forall m k : nat,
             (Z.of_nat k + Z.of_nat m = maxRetries) ->
             (forall i, (i < k)%nat -> rejected429 (axios i config) = true) ->
             exists k' : nat,
               Z.of_nat k' <= maxRetries /\
               (forall i, (i < k')%nat -> rejected429 (axios i config) = true) /\
               (rejected429 (axios k' config) = true -> Z.of_nat k' = maxRetries) /\
               request = Some (finalOutcome (axios k' config),
                               backoff k' ++ [EvRequest config])).
  { induction m as [|m IH]; intros k Hk H429.
    - destruct (rejected429 (axios k config)) eqn:E.
      + exists k. repeat split; [lia|done|lia|].
        apply request_exhausted; [lia|].
        intros i Hi. destruct (decide (i = k)) as [->|]; [done|apply H429; lia].
      + exists k. repeat split; [lia|done|congruence|].
        apply request_ends_at; [lia|done|done].
    - destruct (rejected429 (axios k config)) eqn:E.
      + apply (IH (S k)); [lia|].
        intros i Hi. destruct (decide (i = k)) as [->|]; [done|apply H429; lia].
      + exists k. repeat split; [lia|done|congruence|].
        apply request_ends_at; [lia|done|done]. }
  apply (Hgen (Z.to_nat maxRetries) 0%nat); [lia|intros; lia].
Qed.

(** With a negative budget the loop body never runs. *)
Lemma request_negative_budget :
  maxRetries < 0 -> request = Some (Thrown (classify None), []).
Proof.
  intros Hn. unfold makeAirtableRequest. cbn [retryLoop].
  replace (0 <=? maxRetries) with false by (symmetry; apply Z.leb_gt; lia). done.
Qed.

(** The executor always settles. *)
Lemma request_total : exists out log, request = Some (out, log).
Proof.
  destruct (Z_lt_le_dec maxRetries 0) as [Hn|Hn].
  - rewrite request_negative_budget by done. eauto.
  - destruct (request_shape Hn) as (k & _ & _ & _ & ->). eauto.
Qed.

Lemma statusIs_unique (e : AxiosError) (a b : Z) :
  statusIs e a = true -> a <> b -> statusIs e b = false.
Proof.
  unfold statusIs. destruct (response e) as [r|]; [|done].
  intros Ha Hab. apply Z.eqb_eq in Ha. apply Z.eqb_neq. lia.
Qed.

Lemma classify_429 (e : AxiosError) :
  statusIs e 429 = true ->
  classify (Some e) = Error ("Airtable API error: " +:+ message e).
Proof.
  intros H. unfold classify.
  by rewrite !(statusIs_unique e 429 _ H).
Qed.

Lemma last_snoc_request (l : list Event) (c : RequestConfig) :
  last (l ++ [EvRequest c]) = Some (EvRequest c).
Proof. apply last_snoc. Qed.




(** C1: with [maxRetries = n >= 0], [n+1] consecutive 429 responses give
    exactly [n+1] attempts and then the rate-limit failure is raised; and a
    2xx response on attempt [k <= n] returns its decoded body at once, with
    no attempt after it. *)
Theorem C1_retry_budget (n : nat) :
  maxRetries = Z.of_nat n ->
  ((forall i, (i <= n)%nat -> rejected429 (axios i config) = true) ->
   exists e log,
     axios n config = Rejected e /\
     request = Some (Thrown (Error ("Airtable API error: " +:+ message e)), log) /\
     attemptsIn log = S n)
  /\
  (forall (k : nat) (status : Z) (body : JsValue),
     (k <= n)%nat ->
     (forall i, (i < k)%nat -> rejected429 (axios i config) = true) ->
     axios k config = Resolved status body ->
     exists log,
       request = Some (Returned body, log) /\
       attemptsIn log = S k /\
       last log = Some (EvRequest config)).
Proof.
  intros Hn. split.
  - intros H429.
    pose proof (H429 n ltac:(lia)) as Hlast.
    destruct (axios n config) as [st body|e] eqn:E; [done|].
    exists e, (backoff n ++ [EvRequest config]). split; [done|].
    rewrite (request_exhausted n) by (try lia; done).
    rewrite E. cbn [finalOutcome]. rewrite classify_429 by done.
    split; [done|]. rewrite attemptsIn_app, attemptsIn_backoff. cbn. lia.
  - intros k status body Hk H429 Hok.
    exists (backoff k ++ [EvRequest config]).
    rewrite (request_ends_at k) by (try lia; try done; by rewrite Hok).
    rewrite Hok. cbn [finalOutcome]. split; [done|]. split.
    + rewrite attemptsIn_app, attemptsIn_backoff. cbn. lia.
    + apply last_snoc_request.
Qed.

(** C2: a failure that is not a 429, be it another HTTP status or a
    transport failure without any status, is never retried: when attempt [j]
    fails that way, the run ends after exactly [j+1] attempts, nothing is
    logged or slept after that request, and the classified error is raised. *)
Theorem C2_no_retry_on_other_failures (j : nat) (e : AxiosError) :
  Z.of_nat j <= maxRetries ->
  (forall i, (i < j)%nat -> rejected429 (axios i config) = true) ->
  axios j config = Rejected e ->
  statusIs e 429 = false ->
  exists log,
    request = Some (Thrown (classify (Some e)), log) /\
    attemptsIn log = S j /\
    log = backoff j ++ [EvRequest config] /\
    length (sleepsIn log) = j /\
    (j = 0%nat -> sleepsIn log = []).
Proof.
  intros Hj H429 Hrej Hst.
  exists (backoff j ++ [EvRequest config]).
  rewrite (request_ends_at j) by (try done; by rewrite Hrej).
  rewrite Hrej. cbn [finalOutcome]. split; [done|].
  rewrite attemptsIn_app, attemptsIn_backoff, sleepsIn_app, sleepsIn_backoff.
  cbn. rewrite app_nil_r, length_fmap, length_seq.
  repeat split; [lia|]. by intros ->.
Qed.







(** Every request of a run carries the same configuration. *)
Lemma requests_use_config (out : Outcome) (log : list Event) (c : RequestConfig) :
  request = Some (out, log) -> c ∈ requestsIn log -> c = config.
Proof.
  intros Hrun Hc.
  assert (Hb : forall k, forall c', c' ∈ requestsIn (backoff k) -> c' = config).
  { induction k as [|k IH]; intros c' Hc'; cbn in Hc'.
    - by apply elem_of_nil in Hc'.
    - unfold requestsIn in Hc'. rewrite omap_app in Hc'. cbn in Hc'.
      apply elem_of_app in Hc' as [Hc'|Hc']; [by apply IH|].
      by apply list_elem_of_singleton in Hc'. }
  destruct (Z_lt_le_dec maxRetries 0) as [Hn|Hn].
  - rewrite request_negative_budget in Hrun by done.
    injection Hrun as _ <-. by apply elem_of_nil in Hc.
  - destruct (request_shape Hn) as (k & _ & _ & _ & Hrun').
    rewrite Hrun' in Hrun. injection Hrun as _ <-.
    unfold requestsIn in Hc. rewrite omap_app in Hc. cbn in Hc.
    apply elem_of_app in Hc as [Hc|Hc]; [by apply (Hb k)|].
    by apply list_elem_of_singleton in Hc.
Qed.

End ExecutorFacts.

(** * Facts about the polling trigger *)

Section TriggerFacts.

Import Trigger.

Context (dateParse : JsValue -> option Z) (encodeURIComponent : string -> string)
        (baseId tableName : string) (pollingInterval : Z)
        (filterFormula : string) (timeout : Z) (credentials : Credentials).

Local Abbreviation step :=
  (Trigger.step dateParse encodeURIComponent baseId tableName filterFormula timeout credentials).
Local Abbreviation run :=
  (Trigger.run dateParse encodeURIComponent baseId tableName filterFormula timeout credentials).
Local Abbreviation trigger :=
  (Trigger.trigger encodeURIComponent baseId tableName pollingInterval
                    filterFormula timeout credentials).
Local Abbreviation isNew := (Trigger.isNew dateParse).
Local Abbreviation request :=
  (pollRecords_request encodeURIComponent baseId tableName filterFormula timeout credentials).

Lemma emitsIn_app (l1 l2 : list Event) : emitsIn (l1 ++ l2) = emitsIn l1 ++ emitsIn l2.
Proof. apply List.filter_app. Qed.


Lemma getsIn_app (l1 l2 : list Event) : getsIn (l1 ++ l2) = (getsIn l1 + getsIn l2)%nat.
Proof. unfold getsIn. by rewrite List.filter_app, length_app. Qed.

(** What a settled list call appends to the log. *)
Lemma resume_resolved (T : Z) (status : Z) (body : ListBody) (now : Z) (kind : CycleKind) :
  let new := List.filter (isNew T) (default [] (records body)) in
  exists r,
    pollRecords_resume dateParse T (Resolved status body) now = (r, now, []) /\
    afterPoll kind r = match new with
                       | [] => []
                       | _ :: _ => [EvEmit (project <$> new)]
                       end.
Proof.
  cbn. destruct (List.filter _ _) as [|x xs]; cbn; eauto.
Qed.

Lemma isNew_spec (T : Z) (recs : list AirtableRecord) (r : AirtableRecord) :
  r ∈ List.filter (isNew T) recs <->
  r ∈ recs /\ exists t, dateParse (rec_createdTime r) = Some t /\ T < t.
Proof.
  rewrite !list_elem_of_In, filter_In, <- list_elem_of_In.
  unfold Trigger.isNew. split.
  - intros [Hin Hnew]. split; [done|].
    destruct (dateParse (rec_createdTime r)) as [t|]; [|done].
    exists t. split; [done|]. by apply Z.ltb_lt.
  - intros [Hin (t & -> & Ht)]. split; [done|]. by apply Z.ltb_lt.
Qed.

(** C4: when a poll response arrives, the cycle emits, as one batch of
    projected items, exactly the records whose creation time is strictly
    later than the watermark, and emits nothing when there is none. *)
Theorem C4_poll_emits_new_records
        (st : State) (i : nat) (kind : CycleKind)
        (status : Z) (body : ListBody) (now : Z) :
  inFlight st !! i = Some kind ->
  let T := lastCheck st in
  let recs := default [] (records body) in
  let new := List.filter (isNew T) recs in
  (forall r, r ∈ new <->
             r ∈ recs /\ exists t, dateParse (rec_createdTime r) = Some t /\ T < t) /\
  exists st',
    step st (Settle i (Resolved status body) now) = Some st' /\
    log st' = log st ++ match new with
                        | [] => []
                        | _ :: _ =>
                            [EvEmit ((fun r => {| recordId := rec_id r;
                                                  fields := rec_fields r;
                                                  createdTime := rec_createdTime r |})
                                       <$> new)]
                        end.
Proof.
  intros Hi T recs new. subst T recs new. split; [apply isNew_spec|].
  unfold Trigger.step. rewrite Hi.
  destruct (resume_resolved (lastCheck st) status body now kind) as (r & -> & Hafter).
  eexists. split; [reflexivity|]. cbn [log]. by rewrite Hafter.
Qed.

(** C5: a cycle whose request fails keeps the watermark and emits nothing;
    the error is logged twice and the timer stays armed, so that the next tick
    starts a new list call without touching the watermark, and when that
    call, or any call that was pending, succeeds, what it emits is measured
    against the watermark from before the failure; a successful cycle moves
    the watermark to its completion time whether or not it found records. *)
Theorem C5_failed_cycle_keeps_watermark
        (st : State) (i : nat) (kind : CycleKind) (e : AxiosError) (now : Z) :
  inFlight st !! i = Some kind ->
  let batch (T : Z) (body : ListBody) :=
    match List.filter (isNew T) (default [] (records body)) with
    | [] => []
    | new => [EvEmit (project <$> new)]
    end in
  (exists st',
     step st (Settle i (Rejected e) now) = Some st' /\
     lastCheck st' = lastCheck st /\
     emitsIn (log st') = emitsIn (log st) /\
     log st' = log st ++ [EvLogError "Airtable Trigger Error:" (message e);
                          EvLogError match kind with
                                     | InitialPoll => "Initial poll error:"
                                     | TimerPoll => "Polling error:"
                                     end (message e)] /\
     timerArmed st' = timerArmed st /\
     inFlight st' = delete i (inFlight st) /\
     (timerArmed st = true ->
      exists st2,
        step st' Tick = Some st2 /\
        lastCheck st2 = lastCheck st /\
        timerArmed st2 = true /\
        inFlight st2 = inFlight st' ++ [TimerPoll] /\
        log st2 = log st' ++ [request] /\
        forall status body now',
          exists st3,
            step st2 (Settle (length (inFlight st')) (Resolved status body) now') = Some st3 /\
            lastCheck st3 = now' /\
            inFlight st3 = inFlight st' /\
            log st3 = log st2 ++ batch (lastCheck st) body) /\
     (forall j kind' status body now',
        inFlight st' !! j = Some kind' ->
        exists st'',
          step st' (Settle j (Resolved status body) now') = Some st'' /\
          lastCheck st'' = now' /\
          log st'' = log st' ++ batch (lastCheck st) body))
  /\
  (forall status body,
     exists st',
       step st (Settle i (Resolved status body) now) = Some st' /\
       lastCheck st' = now /\
       log st' = log st ++ batch (lastCheck st) body).
Proof.
  intros Hi batch. subst batch. cbv beta. split.
  - unfold Trigger.step at 1. rewrite Hi. cbn [pollRecords_resume afterPoll].
    eexists. split; [reflexivity|]. cbn [lastCheck log timerArmed inFlight].
    split; [done|]. split.
    { rewrite emitsIn_app. cbn. by rewrite app_nil_r. }
    split; [done|]. split; [done|]. split; [done|]. split.
    + intros Harmed. unfold Trigger.step at 1. cbn [timerArmed]. rewrite Harmed.
      eexists. split; [reflexivity|]. cbn [lastCheck timerArmed inFlight log].
      split; [done|]. split; [done|]. split; [done|]. split; [done|].
      intros status body now'. unfold Trigger.step. cbn [inFlight lastCheck log].
      rewrite lookup_app_r by lia. rewrite Nat.sub_diag. cbn [lookup list_lookup].
      destruct (resume_resolved (lastCheck st) status body now' TimerPoll)
        as (r & -> & Hafter).
      eexists. split; [reflexivity|]. cbn [lastCheck log inFlight].
      split; [done|]. split.
      * pose proof (delete_middle (delete i (inFlight st)) [] TimerPoll) as Hdel.
        by rewrite app_nil_r in Hdel.
      * rewrite Hafter. by destruct (List.filter _ _).
    + intros j kind' status body now' Hj.
      unfold Trigger.step. cbn [inFlight lastCheck log]. rewrite Hj.
      destruct (resume_resolved (lastCheck st) status body now' kind') as (r & -> & Hafter).
      eexists. split; [reflexivity|]. cbn [lastCheck log]. split; [done|].
      rewrite Hafter. by destruct (List.filter _ _).
  - intros status body. unfold Trigger.step. rewrite Hi.
    destruct (resume_resolved (lastCheck st) status body now kind) as (r & -> & Hafter).
    eexists. split; [reflexivity|]. cbn [lastCheck log]. split; [done|].
    rewrite Hafter. by destruct (List.filter _ _).
Qed.




(** ** Cancellation *)

Lemma step_settle_emits (st st' : State) (j : nat) (result : AxiosResult ListBody) (now : Z) :
  step st (Settle j result now) = Some st' ->
  timerArmed st' = timerArmed st /\
  getsIn (log st') = getsIn (log st) /\
  S (length (inFlight st')) = length (inFlight st) /\
  exists batch, emitsIn (log st') = emitsIn (log st) ++ batch /\ (length batch <= 1)%nat.
Proof.
  unfold Trigger.step. destruct (inFlight st !! j) as [kind|] eqn:Hj; [|done].
  assert (Hlen : S (length (delete j (inFlight st))) = length (inFlight st)).
  { rewrite length_delete by eauto. apply lookup_lt_Some in Hj. lia. }
  destruct result as [status body|e].
  - destruct (resume_resolved (lastCheck st) status body now kind) as (r & -> & Hafter).
    intros [= <-]. cbn [timerArmed inFlight log]. repeat split; [|done|].
    + rewrite !getsIn_app, Hafter. cbn. destruct (List.filter _ _); cbn; lia.
    + rewrite Hafter, !emitsIn_app. cbn [app emitsIn List.filter].
      eexists. split; [reflexivity|]. destruct (List.filter _ _); cbn; lia.
  - cbn [pollRecords_resume afterPoll]. intros [= <-]. cbn [timerArmed inFlight log].
    repeat split; [|done|].
    + rewrite !getsIn_app. cbn. lia.
    + exists []. rewrite emitsIn_app. cbn. split; [done|lia].
Qed.

(** Once the timer is cleared it stays cleared, no tick is accepted, no
    request is issued, and only cycles that were pending can still emit. *)
Lemma run_disarmed (inputs : list Input) :
  forall st st',
    timerArmed st = false ->
    run st inputs = Some st' ->
    timerArmed st' = false /\
    Forall (fun i => isTick i = false) inputs /\
    getsIn (log st') = getsIn (log st) /\
    emitsIn (log st) `prefix_of` emitsIn (log st') /\
    (length (emitsIn (log st')) + length (inFlight st')
     <= length (emitsIn (log st)) + length (inFlight st))%nat.
Proof.
  induction inputs as [|i inputs IH]; intros st st' Hoff; cbn [Trigger.run].
  - intros [= ->]. repeat split; [done|constructor|done|lia].
  - destruct (step st i) as [st1|] eqn:E; [|done]. intros Hrun.
    destruct i as [|j result now|].
    + unfold Trigger.step in E. by rewrite Hoff in E.
    + destruct (step_settle_emits _ _ _ _ _ E) as (Ht & Hg & Hl & batch & Hb & Hbl).
      destruct (IH st1 st' ltac:(congruence) Hrun) as (H1 & H2 & H3 & H4 & H5).
      repeat split; [done|by constructor|congruence| |].
      * etrans; [|exact H4]. rewrite Hb. by apply prefix_app_r.
      * rewrite Hb, length_app in H5. lia.
    + unfold Trigger.step in E. destruct (handleReturned st); [|done].
      injection E as <-.
      apply IH in Hrun as (H1 & H2 & H3 & H4 & H5); [|done].
      cbn [log inFlight] in *.
      rewrite getsIn_app in H3. rewrite emitsIn_app in H4, H5. cbn in H3, H4, H5.
      rewrite app_nil_r in H4, H5.
      repeat split; [done|by constructor|lia|done|done].
Qed.

(** The timer is cleared by the cleanup function and by nothing else. *)
Lemma run_stops_only_by_cancel (inputs : list Input) :
  forall st st',
    timerArmed st = true ->
    run st inputs = Some st' ->
    timerArmed st' = false ->
    Cancel ∈ inputs.
Proof.
  induction inputs as [|i inputs IH]; intros st st' Hon; cbn [Trigger.run].
  - intros [= ->] Hoff. congruence.
  - destruct (step st i) as [st1|] eqn:E; [|done]. intros Hrun Hoff.
    destruct i as [|j result now|]; [| |apply list_elem_of_here].
    + apply list_elem_of_further, (IH st1 st'); [|done|done].
      unfold Trigger.step in E. rewrite Hon in E. by injection E as <-.
    + apply list_elem_of_further, (IH st1 st'); [|done|done].
      destruct (step_settle_emits _ _ _ _ _ E) as (Ht & _). congruence.
Qed.

(** C9, to the extent the code guarantees it: calling the cleanup function clears the timer; from
    then on no tick fires, even one that was due, no new poll cycle starts,
    and the only emissions left are those of cycles that were already
    waiting for their response, one batch each at most, hence none when no
    cycle was pending; and nothing but that call ever clears the timer. *)
Theorem C9_cancel_stops_new_cycles
        (st st' st'' : State) (inputs : list Input) :
  step st Cancel = Some st' ->
  run st' inputs = Some st'' ->
  timerArmed st' = false /\
  last (log st') = Some EvClearInterval /\
  timerArmed st'' = false /\
  Forall (fun i => isTick i = false) inputs /\
  getsIn (log st'') = getsIn (log st') /\
  (length (emitsIn (log st'')) <= length (emitsIn (log st')) + length (inFlight st'))%nat /\
  (inFlight st' = [] -> emitsIn (log st'') = emitsIn (log st')) /\
  (forall (s0 s1 : State) (ins : list Input),
     timerArmed s0 = true -> run s0 ins = Some s1 -> timerArmed s1 = false ->
     Cancel ∈ ins).
Proof.
  intros Hcancel Hrun.
  assert (Hoff : timerArmed st' = false).
  { unfold Trigger.step in Hcancel. destruct (handleReturned st); [|done].
    by injection Hcancel as <-. }
  assert (Hlast : last (log st') = Some EvClearInterval).
  { unfold Trigger.step in Hcancel. destruct (handleReturned st); [|done].
    injection Hcancel as <-. apply last_snoc. }
  destruct (run_disarmed inputs st' st'' Hoff Hrun) as (H1 & H2 & H3 & H4 & H5).
  repeat split; try done.
  - lia.
  - intros Hnone. rewrite Hnone in H5. cbn in H5.
    symmetry. apply prefix_length_eq; [done|lia].
  - intros s0 s1 ins. apply run_stops_only_by_cancel.
Qed.

End TriggerFacts.

(** * Facts about the Authorization header *)

Lemma strictEqStr_true (v : JsValue) (s : string) :
  strictEqStr v s = true <-> v = JStr s.
Proof.
  destruct v; cbn; try (split; [discriminate|discriminate]).
  rewrite String.eqb_eq. split; [by intros ->|by intros [= ->]].
Qed.

Lemma tokenOf_strings (ty : JsValue) (a k : option string) :
  tokenOf {| authenticationType := ty;
             accessToken := fromOption a;
             apiKey := fromOption k |}
  = match a with
    | Some s => if decide (s = "") then fromOption k else JStr s
    | None => fromOption k
    end.
Proof.
  unfold tokenOf, Js.or. cbn.
  destruct a as [s|]; cbn; [|done].
  case_decide as Hs; [by subst|].
  by apply String.eqb_neq in Hs as ->.
Qed.

(** C8: every request of the executor, and the request of the credential
    test, carries [Bearer <token>] when the authentication type is "pat" and
    the bare token otherwise, where the token is the access token when that
    is a non-empty string and the API key otherwise. *)
Theorem C8_authorization_header
        (axios : nat -> RequestConfig -> AxiosResult JsValue)
        (url : string) (data : JsValue) (method : string)
        (timeout maxRetries retryDelay : Z)
        (ty : JsValue) (a k : option string)
        (out : Executor.Outcome) (log : list Executor.Event) (c : RequestConfig) :
  let credentials := {| authenticationType := ty;
                        accessToken := fromOption a;
                        apiKey := fromOption k |} in
  let token := match a with
               | Some s => if decide (s = "") then fromOption k else JStr s
               | None => fromOption k
               end in
  Executor.makeAirtableRequest axios url data credentials method timeout
                               maxRetries retryDelay = Some (out, log) ->
  c ∈ Executor.requestsIn log ->
  (ty = JStr "pat" ->
     Authorization (cfg_headers c) = JStr ("Bearer " +:+ toString token)) /\
  (ty <> JStr "pat" -> Authorization (cfg_headers c) = token) /\
  (forall (server : RequestConfig -> AxiosResult JsValue) (t : RequestConfig),
     t ∈ (CredentialTest.test server credentials).2 ->
     Authorization (cfg_headers t) = Authorization (cfg_headers c)).
Proof.
  intros credentials token Hrun Hc.
  pose proof (requests_use_config _ _ _ _ _ _ _ _ _ _ _ Hrun Hc) as ->.
  cbn [cfg_headers Authorization Executor.configOf].
  unfold authHeaderOf. subst credentials token. rewrite tokenOf_strings.
  cbn [authenticationType]. split_and!.
  - intros ->. done.
  - intros Hty. destruct (strictEqStr ty "pat") eqn:E; [|done].
    by apply strictEqStr_true in E.
  - intros server t. unfold CredentialTest.test.
    destruct (_ && _); cbn [snd].
    + by intros ?%elem_of_nil.
    + intros ->%list_elem_of_singleton. cbn.
      unfold authHeaderOf. by rewrite tokenOf_strings.
Qed.

(** * Facts about template rewriting *)

Section TemplateFacts.

Import Template.

Lemma string_app_nil (b : string) : "" +:+ b = b.
Proof. reflexivity. Qed.

Lemma string_app_cons (c : ascii) (a b : string) :
  String c a +:+ b = String c (a +:+ b).
Proof. reflexivity. Qed.

Lemma string_length_app (a b : string) :
  String.length (a +:+ b) = (String.length a + String.length b)%nat.
Proof.
  induction a as [|c a IH]; [done|].
  rewrite string_app_cons. cbn. by rewrite IH.
Qed.

Lemma string_app_assoc (a b c : string) : (a +:+ b) +:+ c = a +:+ (b +:+ c).
Proof.
  induction a as [|x a IH]; [done|].
  rewrite !string_app_cons. by rewrite IH.
Qed.

Lemma stripPrefix_app (p s : string) : stripPrefix p (p +:+ s) = Some s.
Proof.
  induction p as [|c p IH]; [done|].
  rewrite string_app_cons. cbn. by rewrite Ascii.eqb_refl.
Qed.

Lemma spanWord_key (key rest : string) :
  allWord key = true ->
  spanWord (key +:+ "}}" +:+ rest) = (key, "}}" +:+ rest).
Proof.
  induction key as [|c key IH]; [done|].
  rewrite string_app_cons. cbn.
  intros [Hc Hkey]%andb_prop. rewrite Hc, IH by done. done.
Qed.

(** A well-formed placeholder is matched, capturing its key. *)
Lemma matchPlaceholder_placeholder (key rest : string) :
  allWord key = true -> key <> "" ->
  matchPlaceholder (placeholder key +:+ rest) = Some (key, rest).
Proof.
  intros Hkey Hne. unfold matchPlaceholder, placeholder.
  rewrite !string_app_assoc, stripPrefix_app, spanWord_key by done.
  apply String.eqb_neq in Hne. rewrite Hne.
  by rewrite (stripPrefix_app "}}" rest).
Qed.

(** Text that does not start with an opening brace is not a match. *)
Lemma matchPlaceholder_other (c : ascii) (s : string) :
  c <> "{"%char -> matchPlaceholder (String c s) = None.
Proof.
  intros Hc. unfold matchPlaceholder.
  change (stripPrefix "{{json." (String c s))
    with (if Ascii.eqb "{" c then stripPrefix "{json." s else None).
  by destruct (Ascii.eqb_spec "{" c) as [<-|_].
Qed.

Lemma replaceFrom_skip (f : string -> string) (a b : string) :
  replaceFrom f (String.length a) (a +:+ b) = replaceFrom f 0 b.
Proof.
  induction a as [|c a IH]; [by destruct b|].
  rewrite string_app_cons. cbn. exact IH.
Qed.

Lemma replaceFrom_match (f : string -> string) (s : string) (c : ascii)
      (tail key rest : string) :
  matchPlaceholder s = Some (key, rest) ->
  s = String c tail ->
  replaceFrom f 0 s
  = f key +:+ replaceFrom f (String.length tail - String.length rest) tail.
Proof. intros H ->. cbn [replaceFrom]. by rewrite H. Qed.

(** Rewriting passes over brace-free text and replaces the placeholder that
    follows it, then goes on with the rest. *)
Lemma replaceAll_placeholder (f : string -> string) (pre key post : string) :
  braceFree pre = true ->
  allWord key = true -> key <> "" ->
  replaceAll f (pre +:+ placeholder key +:+ post)
  = pre +:+ f key +:+ replaceAll f post.
Proof.
  intros Hpre Hkey Hne. unfold replaceAll.
  induction pre as [|c pre IH].
  - rewrite !string_app_nil.
    rewrite (replaceFrom_match f (placeholder key +:+ post) "{"
               (("{json." +:+ key +:+ "}}") +:+ post) key post);
      [|by apply matchPlaceholder_placeholder|reflexivity].
    f_equal. rewrite string_length_app.
    replace (String.length ("{json." +:+ key +:+ "}}") + String.length post
             - String.length post)%nat
      with (String.length ("{json." +:+ key +:+ "}}")) by lia.
    apply replaceFrom_skip.
  - rewrite !string_app_cons. cbn [replaceFrom].
    cbn in Hpre. apply andb_prop in Hpre as [Hc Hpre].
    rewrite matchPlaceholder_other.
    + by rewrite IH.
    + intros ->. done.
Qed.

(** Text in which no match starts anywhere is left as it is. *)
Lemma replaceAll_no_match (f : string -> string) (s : string) :
  (forall a b, s = a +:+ b -> matchPlaceholder b = None) ->
  replaceAll f s = s.
Proof.
  unfold replaceAll. induction s as [|c s IH]; intros Hno; [done|].
  cbn [replaceFrom]. rewrite (Hno "" (String c s)) by done.
  f_equal. apply IH. intros a b ->. by apply (Hno (String c a) b).
Qed.

Lemma resolveValue_not_string (value : JsValue) (context : gmap string JsValue) :
  (forall s, value <> JStr s) -> resolveValue value context = value.
Proof. destruct value; cbn; try done. intros H. by destruct (H s). Qed.

Lemma resolveValue_no_braces (s : string) (context : gmap string JsValue) :
  includes "{{" s = false -> resolveValue (JStr s) context = JStr s.
Proof. intros H. cbn. by rewrite H. Qed.

(** An own property is substituted as its string form when truthy and as
    the empty string when falsy. *)
Lemma replacer_own (context : gmap string JsValue) (key : string) (v : JsValue) :
  context !! key = Some v ->
  replacer context key = if truthy v then toString v else "".
Proof.
  intros H. unfold replacer, getMember, Js.or. rewrite H. by destruct (truthy v).
Qed.

(** A key that is neither an own property nor a member of
    [Object.prototype] is substituted by the empty string. *)
Lemma replacer_absent (context : gmap string JsValue) (key : string) :
  context !! key = None ->
  objectPrototype key = JUndefined ->
  replacer context key = "".
Proof.
  intros H Hp. unfold replacer, getMember, Js.or. by rewrite H, Hp.
Qed.

(** C10 (where the code departs from it): a placeholder whose key is absent
    from the context but names a member that plain objects inherit is not
    replaced by the empty string; the inherited member is substituted. *)
Theorem C10_inherited_member_substituted :
  (∅ : gmap string JsValue) !! "constructor" = None /\
  resolveValue (JStr "{{json.constructor}}") ∅
  = JStr "function Object() { [native code] }" /\
  resolveValue (JStr "id-{{json.valueOf}}") {[ "id" := JNum 7 ]}
  = JStr "id-function valueOf() { [native code] }".
Proof. split; [done|]. split; vm_compute; reflexivity. Qed.

End TemplateFacts.

(** * The theorems at sample inputs *)

(** Budget 2: three 429s exhaust it; a success on the second call returns. *)
Lemma C1_retry_budget_witness :
  (exists e log,
     Sample.alwaysLimited 2
       (Executor.configOf "https://api.airtable.com/v0/appX/Tasks" JNull
                          Sample.patCredentials "GET" 30000)
     = Rejected e /\
     Executor.makeAirtableRequest Sample.alwaysLimited
       "https://api.airtable.com/v0/appX/Tasks" JNull Sample.patCredentials
       "GET" 30000 2 1000
     = Some (Executor.Thrown
               (Executor.Error ("Airtable API error: " +:+ message e)), log) /\
     Executor.attemptsIn log = 3%nat)
  /\
  (exists log,
     Executor.makeAirtableRequest (Sample.limitedUntil 1)
       "https://api.airtable.com/v0/appX/Tasks" JNull Sample.patCredentials
       "GET" 30000 2 1000
     = Some (Executor.Returned (JObj [("records", JArr [])]), log) /\
     Executor.attemptsIn log = 2%nat /\
     last log = Some (Executor.EvRequest
                        (Executor.configOf "https://api.airtable.com/v0/appX/Tasks"
                                           JNull Sample.patCredentials "GET" 30000))).
Proof.
  split.
  - apply (proj1 (C1_retry_budget Sample.alwaysLimited
                    "https://api.airtable.com/v0/appX/Tasks" JNull
                    Sample.patCredentials "GET" 30000 2 1000 2 eq_refl)).
    intros i Hi. reflexivity.
  - apply (proj2 (C1_retry_budget (Sample.limitedUntil 1)
                    "https://api.airtable.com/v0/appX/Tasks" JNull
                    Sample.patCredentials "GET" 30000 2 1000 2 eq_refl)
                 1%nat 200 (JObj [("records", JArr [])])).
    + lia.
    + intros i Hi. destruct i as [|i]; [reflexivity|lia].
    + reflexivity.
Defined.

(** A 404 on the first call: one request, no sleep. *)
Lemma C2_no_retry_on_other_failures_witness :
  exists log,
    Executor.makeAirtableRequest (Sample.limitedThenMissing 0)
      "https://api.airtable.com/v0/appX/Tasks/rec1" JNull Sample.patCredentials
      "GET" 30000 3 1000
    = Some (Executor.Thrown (Executor.classify (Some Sample.notFound)), log) /\
    Executor.attemptsIn log = 1%nat /\
    log = Executor.backoffLog "https://api.airtable.com/v0/appX/Tasks/rec1" JNull
            Sample.patCredentials "GET" 30000 1000 0
          ++ [Executor.EvRequest
                (Executor.configOf "https://api.airtable.com/v0/appX/Tasks/rec1"
                                   JNull Sample.patCredentials "GET" 30000)] /\
    length (Executor.sleepsIn log) = 0%nat /\
    (0%nat = 0%nat -> Executor.sleepsIn log = []).
Proof.
  apply (C2_no_retry_on_other_failures (Sample.limitedThenMissing 0)
           "https://api.airtable.com/v0/appX/Tasks/rec1" JNull
           Sample.patCredentials "GET" 30000 3 1000 0 Sample.notFound).
  - lia.
  - intros i Hi. lia.
  - reflexivity.
  - reflexivity.
Defined.




(** An empty access token falls back to the API key. *)
Lemma C8_authorization_header_witness :
  Authorization
    (cfg_headers (Executor.configOf "https://api.airtable.com/v0/meta/bases" JNull
                    {| authenticationType := JStr "pat";
                       accessToken := fromOption (Some "");
                       apiKey := fromOption (Some "keyLegacy") |} "GET" 30000))
  = JStr "Bearer keyLegacy".
Proof.
  refine (proj1 (C8_authorization_header Sample.alwaysLimited
           "https://api.airtable.com/v0/meta/bases" JNull "GET" 30000 0 1000
           (JStr "pat") (Some "") (Some "keyLegacy")
           (Executor.Thrown
              (Executor.Error "Airtable API error: Request failed with status code 429"))
           [Executor.EvRequest
              (Executor.configOf "https://api.airtable.com/v0/meta/bases" JNull
                 {| authenticationType := JStr "pat";
                    accessToken := fromOption (Some "");
                    apiKey := fromOption (Some "keyLegacy") |} "GET" 30000)]
           _ _ _) eq_refl).
  - reflexivity.
  - apply list_elem_of_here.
Defined.

(** Watermark 1000 and creation times 999, 1000, 1001, 1005. *)
Lemma C4_poll_emits_new_records_witness :
  exists st',
    Trigger.step Sample.epochMillis id "appX" "Tasks" "" 30000 Sample.patCredentials
      (Sample.stateAt 1000)
      (Trigger.Settle 0
         (Sample.listOf [Sample.recordAt "a" 999; Sample.recordAt "b" 1000;
                         Sample.recordAt "c" 1001; Sample.recordAt "d" 1005])
         2000)
    = Some st' /\
    Trigger.log st'
    = [Trigger.EvEmit
         [ {| Trigger.recordId := JStr "c";
              Trigger.fields := JObj [("Name", JStr "c")];
              Trigger.createdTime := JNum 1001 |};
           {| Trigger.recordId := JStr "d";
              Trigger.fields := JObj [("Name", JStr "d")];
              Trigger.createdTime := JNum 1005 |} ] ].
Proof.
  apply (C4_poll_emits_new_records Sample.epochMillis id "appX" "Tasks" "" 30000
           Sample.patCredentials (Sample.stateAt 1000) 0 Trigger.TimerPoll 200
           {| Trigger.records :=
                Some [Sample.recordAt "a" 999; Sample.recordAt "b" 1000;
                      Sample.recordAt "c" 1001; Sample.recordAt "d" 1005] |}
           2000).
  reflexivity.
Defined.

(** A refused connection with watermark 1000, then a tick whose call is
    answered with one record from before the watermark and one from after
    it. *)
Lemma C5_failed_cycle_keeps_watermark_witness :
  exists st' st2 st3,
    Trigger.step Sample.epochMillis id "appX" "Tasks" "" 30000 Sample.patCredentials
      (Sample.stateAt 1000) (Trigger.Settle 0 (Rejected Sample.refused) 2000)
    = Some st' /\
    Trigger.lastCheck st' = 1000 /\
    Trigger.emitsIn (Trigger.log st') = [] /\
    Trigger.timerArmed st' = true /\
    Trigger.step Sample.epochMillis id "appX" "Tasks" "" 30000 Sample.patCredentials
      st' Trigger.Tick
    = Some st2 /\
    Trigger.lastCheck st2 = 1000 /\
    Trigger.step Sample.epochMillis id "appX" "Tasks" "" 30000 Sample.patCredentials
      st2 (Trigger.Settle 0 (Sample.listOf [Sample.recordAt "recA" 999;
                                            Sample.recordAt "recB" 1500]) 3000)
    = Some st3 /\
    Trigger.lastCheck st3 = 3000 /\
    Trigger.emitsIn (Trigger.log st3)
    = [Trigger.EvEmit [Trigger.project (Sample.recordAt "recB" 1500)]].
Proof.
  destruct (proj1 (C5_failed_cycle_keeps_watermark Sample.epochMillis id "appX" "Tasks"
                     "" 30000 Sample.patCredentials (Sample.stateAt 1000) 0
                     Trigger.TimerPoll Sample.refused 2000 eq_refl))
    as (st' & Hstep & Hcheck & Hemit & Hlog & Harmed & Hpending & Htick & _).
  destruct (Htick eq_refl) as (st2 & Hstep2 & Hcheck2 & _ & _ & Hlog2 & Hsettle).
  destruct (Hsettle 200 {| Trigger.records := Some [Sample.recordAt "recA" 999;
                                                     Sample.recordAt "recB" 1500] |}
                    3000) as (st3 & Hstep3 & Hcheck3 & _ & Hlog3).
  rewrite Hpending in Hstep3.
  exists st', st2, st3.
  split; [exact Hstep|]. split; [exact Hcheck|]. split; [exact Hemit|].
  split; [exact Harmed|]. split; [exact Hstep2|]. split; [exact Hcheck2|].
  split; [exact Hstep3|]. split; [exact Hcheck3|].
  rewrite Hlog3, Hlog2, Hlog. reflexivity.
Defined.



(** C9 (as stated) fails: a cycle that is waiting for its response when the
    cleanup function is called still emits when the response arrives. *)
Lemma C9_emission_after_cancel :
  exists st0 st st' st'',
    Trigger.trigger id "appX" "Tasks" 60 "" 30000 Sample.patCredentials 1000000
    = Some st0 /\
    Trigger.run Sample.epochMillis id "appX" "Tasks" "" 30000 Sample.patCredentials st0
      [Trigger.Settle 0 (Sample.listOf []) 1000400; Trigger.Tick]
    = Some st /\
    Trigger.step Sample.epochMillis id "appX" "Tasks" "" 30000 Sample.patCredentials st
      Trigger.Cancel
    = Some st' /\
    Trigger.run Sample.epochMillis id "appX" "Tasks" "" 30000 Sample.patCredentials st'
      [Trigger.Settle 0 (Sample.listOf [Sample.recordAt "late" 1030000]) 1060700]
    = Some st'' /\
    Trigger.emitsIn (Trigger.log st') = [] /\
    Trigger.emitsIn (Trigger.log st'')
    = [Trigger.EvEmit [Trigger.project (Sample.recordAt "late" 1030000)]].
Proof.
  do 4 eexists. repeat split.
Qed.

(** Cancelling while one cycle is pending. *)
Lemma C9_cancel_stops_new_cycles_witness :
  Trigger.timerArmed
    {| Trigger.lastCheck := 1000;
       Trigger.timerArmed := false;
       Trigger.handleReturned := true;
       Trigger.inFlight := [Trigger.TimerPoll];
       Trigger.log := [Trigger.EvClearInterval] |} = false /\
  Forall (fun i => Trigger.isTick i = false)
         [Trigger.Settle 0 (Sample.listOf [Sample.recordAt "a" 1500]) 2000].
Proof.
  destruct (C9_cancel_stops_new_cycles Sample.epochMillis id "appX" "Tasks" "" 30000
              Sample.patCredentials (Sample.stateAt 1000) _ _
              [Trigger.Settle 0 (Sample.listOf [Sample.recordAt "a" 1500]) 2000]
              eq_refl eq_refl)
    as (Hoff & _ & _ & Hticks & _).
  split; [exact Hoff|exact Hticks].
Defined.

(** * Further facts about the request executor *)

Section ExecutorBounds.

Import Executor.

Context (axios : nat -> RequestConfig -> AxiosResult JsValue)
        (url : string) (data : JsValue) (credentials : Credentials)
        (method : string) (timeout maxRetries retryDelay : Z).

Local Abbreviation config := (configOf url data credentials method timeout).
Local Abbreviation request :=
  (makeAirtableRequest axios url data credentials method timeout maxRetries retryDelay).
Local Abbreviation backoff := (backoffLog url data credentials method timeout retryDelay).

Lemma paced_backoff (k : nat) (rest : list Event) :
  paced (backoff k ++ rest) = paced rest.
Proof.
  revert rest. induction k as [|k IH]; intros rest; [done|].
  cbn [backoffLog]. rewrite <- app_assoc, IH. reflexivity.
Qed.

(** X1: with a non-negative integer budget a run makes at least one and at
    most [maxRetries + 1] attempts; what it leaves is, for every attempt but
    the last, the request, one warning and one sleep, and then the last
    request: it sleeps exactly once between two consecutive attempts and
    never after its last attempt. *)
Theorem X1_attempts_within_budget :
  0 <= maxRetries ->
  exists out log,
    request = Some (out, log) /\
    (1 <= attemptsIn log)%nat /\
    Z.of_nat (attemptsIn log) <= maxRetries + 1 /\
    S (length (sleepsIn log)) = attemptsIn log /\
    last log = Some (EvRequest config) /\
    paced log = true /\
    log = backoff (attemptsIn log - 1) ++ [EvRequest config].
Proof.
  intros Hn.
  destruct (request_shape axios url data credentials method timeout maxRetries retryDelay Hn)
    as (k & Hk & _ & _ & Hrun).
  eexists _, _. split; [exact Hrun|].
  rewrite paced_backoff.
  rewrite attemptsIn_app, attemptsIn_backoff, sleepsIn_app, sleepsIn_backoff.
  cbn. rewrite app_nil_r, length_fmap, length_seq.
  replace (k + 1 - 1)%nat with k by lia.
  repeat split; [lia|lia|lia|apply last_snoc].
Qed.

(** X2: with a negative budget the loop body never runs: no request is
    sent, and what is thrown is the TypeError of reading [lastError.response]
    on [undefined], not a classified Error. *)
Theorem X2_negative_budget_sends_nothing :
  maxRetries < 0 ->
  exists msg log,
    request = Some (Thrown (TypeError msg), log) /\
    attemptsIn log = 0%nat /\
    sleepsIn log = [].
Proof.
  intros Hn. eexists _, []. split; [by apply request_negative_budget|done].
Qed.

(** X3: a run returns a body exactly when some attempt within the budget
    succeeds and every attempt before it was answered with 429; the body
    returned is that attempt's. *)
Theorem X3_returns_iff_attempt_succeeds (body : JsValue) :
  0 <= maxRetries ->
  (exists log, request = Some (Returned body, log)) <->
  (exists (k : nat) (status : Z),
     Z.of_nat k <= maxRetries /\
     (forall i, (i < k)%nat -> rejected429 (axios i config) = true) /\
     axios k config = Resolved status body).
Proof.
  intros Hn. split.
  - intros [log Hrun].
    destruct (request_shape axios url data credentials method timeout maxRetries
                            retryDelay Hn) as (k & Hk & H429 & _ & Hshape).
    rewrite Hshape in Hrun.
    destruct (axios k config) as [status body'|e] eqn:E; cbn in Hrun; [|done].
    injection Hrun as -> _. by exists k, status.
  - intros (k & status & Hk & H429 & Hok).
    exists (backoff k ++ [EvRequest config]).
    rewrite (request_ends_at axios url data credentials method timeout maxRetries
                             retryDelay k) by (try done; by rewrite Hok).
    by rewrite Hok.
Qed.

(** X4: every attempt of a run sends the same request: the method, URL,
    timeout and headers given by the caller, a JSON content type, and the
    payload only when it is truthy. *)
Theorem X4_retries_resend_same_request
        (out : Outcome) (log : list Event) (c : RequestConfig) :
  request = Some (out, log) ->
  c ∈ requestsIn log ->
  cfg_method c = method /\ cfg_url c = url /\ cfg_timeout c = timeout /\
  ContentType (cfg_headers c) = "application/json" /\
  Authorization (cfg_headers c) = authHeaderOf credentials /\
  cfg_data c = (if truthy data then Some data else None).
Proof.
  intros Hrun Hc.
  by rewrite (requests_use_config axios url data credentials method timeout
                                  maxRetries retryDelay out log c Hrun Hc).
Qed.

End ExecutorBounds.

(** * Facts about the credential test *)

Section CredentialTestFacts.

Import CredentialTest.

(** X5: the test reports success exactly when a token is present and the
    single call it makes resolves with status 200; any other 2xx status is
    reported as a failed test. *)
Theorem X5_test_succeeds_iff_200
        (axios : RequestConfig -> AxiosResult JsValue) (data : Credentials) :
  success (test axios data).1 = true <->
  (truthy (accessToken data) || truthy (apiKey data) = true /\
   exists c body, (test axios data).2 = [c] /\ axios c = Resolved 200 body).
Proof.
  unfold test.
  destruct (truthy (accessToken data)), (truthy (apiKey data)); cbn [negb andb orb fst snd];
    try (split; [intros H|intros [_ (c & body & [= <-] & Hax)]];
         [split; [done|];
          match goal with
          | H : success (match axios ?c with _ => _ end) = true |- _ =>
              destruct (axios c) as [status body|e] eqn:E;
              [destruct (Z.eqb_spec status 200) as [->|]; [by eexists _, _|done]
              |by repeat case_match]
          end
         |by rewrite Hax]).
  split; [done|]. by intros [? _].
Qed.

(** X6: the test never retries: whatever the failure, a 429 included, it
    has sent exactly one request, a GET of the bases list with a 5 second
    timeout, and it reports a failure. *)
Theorem X6_test_is_single_shot
        (axios : RequestConfig -> AxiosResult JsValue) (data : Credentials)
        (e : AxiosError) :
  truthy (accessToken data) || truthy (apiKey data) = true ->
  (forall c', axios c' = Rejected e) ->
  exists c,
    (test axios data).2 = [c] /\
    cfg_method c = "GET" /\
    cfg_url c = "https://api.airtable.com/v0/meta/bases" /\
    cfg_timeout c = 5000 /\
    success (test axios data).1 = false.
Proof.
  intros Htok Hrej. unfold test.
  replace (negb (truthy (accessToken data)) && negb (truthy (apiKey data))) with false
    by (by destruct (truthy (accessToken data)), (truthy (apiKey data))).
  eexists. split; [reflexivity|]. cbn [fst]. rewrite Hrej.
  repeat split. by repeat case_match.
Qed.

End CredentialTestFacts.

(** * Further facts about the polling trigger *)

Section TriggerRuns.

Import Trigger Runs.

Context (dateParse : JsValue -> option Z) (encodeURIComponent : string -> string)
        (baseId tableName : string) (pollingInterval : Z)
        (filterFormula : string) (timeout : Z) (credentials : Credentials).

Local Abbreviation step :=
  (Trigger.step dateParse encodeURIComponent baseId tableName filterFormula timeout credentials).
Local Abbreviation run :=
  (Trigger.run dateParse encodeURIComponent baseId tableName filterFormula timeout credentials).
Local Abbreviation trigger :=
  (Trigger.trigger encodeURIComponent baseId tableName pollingInterval
                   filterFormula timeout credentials).
Local Abbreviation isNew := (Trigger.isNew dateParse).

Lemma run_app (xs ys : list Input) :
  forall st, run st (xs ++ ys) = match run st xs with
                                 | Some st' => run st' ys
                                 | None => None
                                 end.
Proof.
  induction xs as [|x xs IH]; intros st; cbn; [done|].
  destruct (step st x); [apply IH|done].
Qed.

(** X7: a tick never waits for a pending cycle: while the timer is armed,
    any number of ticks in a row is accepted, each starting one more list
    call while the earlier ones are still pending, and the watermark does not
    move. *)
Theorem X7_ticks_overlap (st : State) (n : nat) :
  timerArmed st = true ->
  exists st',
    run st (replicate n Tick) = Some st' /\
    inFlight st' = inFlight st ++ replicate n TimerPoll /\
    getsIn (log st') = (getsIn (log st) + n)%nat /\
    lastCheck st' = lastCheck st /\
    timerArmed st' = true.
Proof.
  revert st. induction n as [|n IH]; intros st Harmed; cbn [replicate Trigger.run].
  - exists st. rewrite app_nil_r. repeat split; [lia|done].
  - unfold Trigger.step. rewrite Harmed.
    destruct (IH {| lastCheck := lastCheck st; timerArmed := true;
                    handleReturned := handleReturned st;
                    inFlight := inFlight st ++ [TimerPoll];
                    log := log st ++ [pollRecords_request encodeURIComponent baseId
                                        tableName filterFormula timeout credentials] |}
                 eq_refl) as (st' & Hrun & Hfl & Hg & Hlc & Ht).
    exists st'. split; [exact Hrun|]. cbn [inFlight log lastCheck] in *.
    rewrite Hfl, Hg, <- app_assoc, getsIn_app. cbn. repeat split; [lia|done|done].
Qed.

Lemma step_accounting (st st' : State) (i : Input) :
  step st i = Some st' ->
  (getsIn (log st') = getsIn (log st) + (if isTick i then 1 else 0))%nat /\
  (length (inFlight st') + (if isSettle i then 1 else 0)
   = length (inFlight st) + (if isTick i then 1 else 0))%nat.
Proof.
  destruct i as [|j result now|]; cbn [isSettle isTick].
  - unfold Trigger.step. destruct (timerArmed st); [|done]. intros [= <-].
    cbn [log inFlight]. rewrite getsIn_app, length_app. cbn. lia.
  - intros Hs.
    apply step_settle_emits in Hs as (_ & Hg & Hl & _). lia.
  - unfold Trigger.step. destruct (handleReturned st); [|done]. intros [= <-].
    cbn [log inFlight]. rewrite getsIn_app. cbn. lia.
Qed.

(** X8: in every run of an activated trigger, the list calls issued are the
    initial one plus one for each tick, and each of them is either settled
    or still pending: nothing is issued twice and nothing is dropped. *)
Theorem X8_calls_are_accounted_for (now : Z) (st0 st : State) (inputs : list Input) :
  trigger now = Some st0 ->
  run st0 inputs = Some st ->
  getsIn (log st) = S (length (List.filter isTick inputs)) /\
  getsIn (log st) = (length (List.filter isSettle inputs) + length (inFlight st))%nat.
Proof.
  intros Hact Hrun.
  assert (Hgen : forall inputs s s',
             run s inputs = Some s' ->
             (getsIn (log s') = getsIn (log s) + length (List.filter isTick inputs))%nat /\
             (length (inFlight s') + length (List.filter isSettle inputs)
              = length (inFlight s) + length (List.filter isTick inputs))%nat).
  { clear. induction inputs as [|i inputs IH]; intros s s'; cbn [Trigger.run].
    - intros [= ->]. cbn. lia.
    - destruct (step s i) as [s1|] eqn:E; [|done]. intros Hrun.
      destruct (IH _ _ Hrun) as [H1 H2].
      destruct (step_accounting _ _ _ E) as [H3 H4].
      cbn [List.filter]. destruct (isSettle i), (isTick i); cbn [length]; lia. }
  destruct (Hgen _ _ _ Hrun) as [H1 H2].
  unfold Trigger.trigger in Hact. destruct (_ && _); [done|]. injection Hact as <-.
  cbn [log inFlight] in *. unfold getsIn in H1 at 2. cbn in H1, H2. lia.
Qed.

(** X9: however many cycles fail, and however many ticks fire in between,
    the watermark stays where it was, nothing is emitted and the timer stays
    armed. *)
Theorem X9_failures_never_move_watermark (st st' : State) (inputs : list Input) :
  forallb isTickOrFailure inputs = true ->
  run st inputs = Some st' ->
  lastCheck st' = lastCheck st /\
  emitsIn (log st') = emitsIn (log st) /\
  timerArmed st' = timerArmed st.
Proof.
  revert st. induction inputs as [|i inputs IH]; intros st Hall; cbn [Trigger.run].
  - by intros [= ->].
  - cbn in Hall. apply andb_prop in Hall as [Hi Hall].
    destruct (step st i) as [s1|] eqn:E; [|done]. intros Hrun.
    destruct (IH s1 Hall Hrun) as (H1 & H2 & H3).
    rewrite H1, H2, H3. clear IH Hrun H1 H2 H3.
    destruct i as [|j [status body|e] now|]; try done; unfold Trigger.step in E.
    + destruct (timerArmed st) eqn:Ht; [|done]. injection E as <-.
      cbn. rewrite emitsIn_app. cbn. by rewrite app_nil_r.
    + destruct (inFlight st !! j); [|done]. cbn in E. injection E as <-.
      cbn. rewrite emitsIn_app. cbn. by rewrite app_nil_r.
Qed.

Lemma emittedItems_app (l1 l2 : list Event) :
  emittedItems (l1 ++ l2) = emittedItems l1 ++ emittedItems l2.
Proof. unfold emittedItems. by rewrite omap_app, concat_app. Qed.

Lemma step_emits_newer (st st' : State) (i : Input) :
  step st i = Some st' ->
  clockMonotone (lastCheck st) [i] ->
  lastCheck st <= lastCheck st' /\
  exists new,
    emittedItems (log st') = emittedItems (log st) ++ new /\
    forall item, item ∈ new ->
      exists t, dateParse (createdTime item) = Some t /\ lastCheck st < t.
Proof.
  destruct i as [|j result now|]; unfold Trigger.step.
  - destruct (timerArmed st); [|done]. intros [= <-] _. cbn [lastCheck log].
    split; [lia|]. exists []. rewrite emittedItems_app. cbn. split; [done|].
    by intros item ?%elem_of_nil.
  - destruct (inFlight st !! j) as [kind|]; [|done].
    destruct result as [status body|e].
    + destruct (resume_resolved dateParse (lastCheck st) status body now kind)
        as (r & -> & Hafter).
      intros [= <-] [Hnow _]. cbn [lastCheck log]. split; [done|].
      exists (project <$> List.filter (isNew (lastCheck st)) (default [] (records body))).
      rewrite Hafter, !emittedItems_app. split.
      * cbn. destruct (List.filter _ _); cbn; by rewrite ?app_nil_r.
      * intros item (r' & -> & Hr')%list_elem_of_fmap.
        apply isNew_spec in Hr' as [_ Ht]. exact Ht.
    + cbn [pollRecords_resume]. intros [= <-] _. cbn [lastCheck log]. split; [lia|].
      exists []. rewrite !emittedItems_app. cbn. split; [done|].
      by intros item ?%elem_of_nil.
  - destruct (handleReturned st); [|done]. intros [= <-] _. cbn [lastCheck log].
    split; [lia|]. exists []. rewrite emittedItems_app. cbn. split; [done|].
    by intros item ?%elem_of_nil.
Qed.

Lemma clockMonotone_cons (T : Z) (i : Input) (rest : list Input) (st st' : State) :
  lastCheck st = T ->
  step st i = Some st' ->
  clockMonotone T (i :: rest) ->
  clockMonotone T [i] /\ clockMonotone (lastCheck st') rest.
Proof.
  intros <- Hstep Hmono.
  destruct i as [|j [status body|e] now|]; cbn [clockMonotone] in Hmono |- *;
    unfold Trigger.step in Hstep.
  - destruct (timerArmed st); [|done]. by injection Hstep as <-.
  - destruct (inFlight st !! j) as [kind|]; [|done].
    destruct (resume_resolved dateParse (lastCheck st) status body now kind)
      as (r & Hr & _).
    rewrite Hr in Hstep. injection Hstep as <-. cbn. tauto.
  - destruct (inFlight st !! j); [|done]. cbn in Hstep. by injection Hstep as <-.
  - destruct (handleReturned st); [|done]. by injection Hstep as <-.
Qed.

(** X10: when the clock does not go backwards, every item emitted later in
    a run has a creation time strictly after the watermark at hand: a record
    that is not newer than the watermark is never emitted again; and the
    watermark itself never decreases. *)
Theorem X10_emitted_items_are_newer (st st' : State) (inputs : list Input) :
  run st inputs = Some st' ->
  clockMonotone (lastCheck st) inputs ->
  lastCheck st <= lastCheck st' /\
  exists new,
    emittedItems (log st') = emittedItems (log st) ++ new /\
    forall item, item ∈ new ->
      exists t, dateParse (createdTime item) = Some t /\ lastCheck st < t.
Proof.
  revert st. induction inputs as [|i inputs IH]; intros st; cbn [Trigger.run].
  - intros [= ->] _. split; [lia|]. exists []. rewrite app_nil_r. split; [done|].
    by intros item ?%elem_of_nil.
  - destruct (step st i) as [s1|] eqn:E; [|done]. intros Hrun Hmono.
    destruct (clockMonotone_cons _ _ _ _ _ eq_refl E Hmono) as [Hone Hrest].
    destruct (step_emits_newer _ _ _ E Hone) as (Hle1 & new1 & Hnew1 & Hall1).
    destruct (IH s1 Hrun Hrest) as (Hle2 & new2 & Hnew2 & Hall2).
    split; [lia|]. exists (new1 ++ new2). split.
    + by rewrite Hnew2, Hnew1, app_assoc.
    + intros item [Hin|Hin]%elem_of_app; [by apply Hall1|].
      destruct (Hall2 item Hin) as (t & Ht & Hlt). exists t. split; [done|lia].
Qed.

(** X11: no batch that an activated trigger emits is empty. *)
Theorem X11_no_empty_batch (now : Z) (st0 st : State) (inputs : list Input)
        (items : list Item) :
  trigger now = Some st0 ->
  run st0 inputs = Some st ->
  EvEmit items ∈ log st ->
  (0 < length items)%nat.
Proof.
  intros Hact Hrun Hemit.
  cut (items <> []); [destruct items; [done|cbn; lia]|].
  revert items Hemit.
  assert (Hgen : forall inputs s s',
             run s inputs = Some s' ->
             (forall items, EvEmit items ∈ log s -> items <> []) ->
             (forall items, EvEmit items ∈ log s' -> items <> [])).
  { clear. induction inputs as [|i inputs IH]; intros s s'; cbn [Trigger.run].
    - by intros [= ->].
    - destruct (step s i) as [s1|] eqn:E; [|done]. intros Hrun Hs.
      apply (IH _ _ Hrun). clear IH Hrun. intros items.
      destruct i as [|j result now'|]; unfold Trigger.step in E.
      + destruct (timerArmed s); [|done]. injection E as <-. cbn [log].
        intros [Hin|Hin]%elem_of_app; [by apply Hs|].
        by apply list_elem_of_singleton in Hin.
      + destruct (inFlight s !! j) as [kind|]; [|done].
        destruct result as [status body|e].
        * destruct (resume_resolved dateParse (lastCheck s) status body now' kind)
            as (r & Hr & Hafter).
          rewrite Hr in E. injection E as <-. cbn [log]. rewrite Hafter.
          intros [Hin|Hin]%elem_of_app; [by apply Hs|].
          destruct (List.filter _ _) as [|x xs]; cbn in Hin.
          -- by apply elem_of_nil in Hin.
          -- apply list_elem_of_singleton in Hin. by injection Hin as ->.
        * cbn in E. injection E as <-. cbn [log].
          intros [Hin|Hin]%elem_of_app; [by apply Hs|].
          apply elem_of_cons in Hin as [Hin|Hin]; [done|].
          by apply list_elem_of_singleton in Hin.
      + destruct (handleReturned s); [|done]. injection E as <-. cbn [log].
        intros [Hin|Hin]%elem_of_app; [by apply Hs|].
        by apply list_elem_of_singleton in Hin. }
  apply (Hgen _ _ _ Hrun).
  unfold Trigger.trigger in Hact. destruct (_ && _); [done|]. injection Hact as <-.
  cbn [log]. intros items' Hin.
  apply elem_of_cons in Hin as [Hin|Hin]; [done|].
  by apply list_elem_of_singleton in Hin.
Qed.

End TriggerRuns.

(** * Further facts about template rewriting *)

Section TemplateMore.

Import Template Segments.

Lemma includes_suffix (p a b : string) :
  includes p b = true -> includes p (a +:+ b) = true.
Proof.
  intros Hb. induction a as [|c a IH]; [done|].
  rewrite string_app_cons. cbn [includes].
  destruct (stripPrefix p (String c (a +:+ b))); [done|exact IH].
Qed.

Lemma matchPlaceholder_includes (s : string) (m : string * string) :
  matchPlaceholder s = Some m -> includes "{{" s = true.
Proof.
  unfold matchPlaceholder.
  destruct s as [|c1 [|c2 s]]; try done.
  - change (stripPrefix "{{json." (String c1 ""))
      with (if Ascii.eqb "{" c1 then @None string else None).
    by destruct (Ascii.eqb "{" c1).
  - change (stripPrefix "{{json." (String c1 (String c2 s)))
      with (if Ascii.eqb "{" c1
            then if Ascii.eqb "{" c2 then stripPrefix "json." s else None
            else None).
    destruct (Ascii.eqb_spec "{" c1) as [<-|]; [|done].
    destruct (Ascii.eqb_spec "{" c2) as [<-|]; [|done].
    done.
Qed.

(** The early return of [resolveValue] only saves work. *)
Lemma replaceAll_without_braces (f : string -> string) (s : string) :
  includes "{{" s = false -> replaceAll f s = s.
Proof.
  intros Hno. apply replaceAll_no_match. intros a b ->.
  destruct (matchPlaceholder b) as [m|] eqn:E; [|done].
  apply matchPlaceholder_includes in E.
  by rewrite (includes_suffix "{{" a b E) in Hno.
Qed.

(** X12: on every string, [resolveValue] is the global replacement; the
    test for "{{" that precedes it never changes the result. *)
Theorem X12_guard_is_transparent (s : string) (context : gmap string JsValue) :
  resolveValue (JStr s) context = JStr (replaceAll (replacer context) s).
Proof.
  cbn [resolveValue]. destruct (includes "{{" s) eqn:E; [done|].
  by rewrite replaceAll_without_braces.
Qed.




Lemma replaceFrom_braceFree_prefix (f : string -> string) (pre s : string) :
  braceFree pre = true ->
  replaceFrom f 0 (pre +:+ s) = pre +:+ replaceFrom f 0 s.
Proof.
  induction pre as [|c pre IH]; [done|].
  cbn [braceFree]. intros [Hc Hpre]%andb_prop.
  rewrite !string_app_cons. cbn [replaceFrom].
  rewrite matchPlaceholder_other by (intros ->; done).
  by rewrite IH.
Qed.

Lemma replaceAll_braceFree (f : string -> string) (s : string) :
  braceFree s = true -> replaceAll f s = s.
Proof.
  intros H. unfold replaceAll.
  pose proof (replaceFrom_braceFree_prefix f s "" H) as Hp.
  assert (Hnil : forall x : string, x +:+ "" = x).
  { induction x as [|c x IH]; [done|]. by rewrite string_app_cons, IH. }
  by rewrite !Hnil in Hp.
Qed.

(** X13: in a template made of brace-free text and well-formed
    placeholders, every placeholder is replaced by what the replacer returns
    for its key and all the text in between is kept; what is substituted is
    not scanned again. *)
Theorem X13_placeholders_are_replaced_in_order
        (f : string -> string) (segments : list (string * string)) (last : string) :
  forallb wellFormed segments = true ->
  braceFree last = true ->
  replaceAll f (templateOf segments last) = expansionOf f segments last.
Proof.
  intros Hsegs Hlast. induction segments as [|[text key] rest IH].
  - by apply replaceAll_braceFree.
  - cbn in Hsegs. apply andb_prop in Hsegs as [Hseg Hrest].
    unfold wellFormed in Hseg. cbn [fst snd] in Hseg.
    apply andb_prop in Hseg as [[Htext Hkey]%andb_prop Hne].
    cbn [templateOf expansionOf].
    rewrite replaceAll_placeholder; [by rewrite IH|done|done|].
    intros ->. done.
Qed.



End TemplateMore.

(** * Facts about the node operations *)

Section NodeFacts.

Import Node.

Context (getNodeParameter : string -> option JsValue -> JsValue)
        (jsonParse : string -> Exn + JsValue)
        (encodeURIComponent : string -> string)
        (invoke : string -> JsValue -> Exn + JsValue).

Local Abbreviation toText := (Node.toText invoke).
Local Abbreviation resolveValue := (Node.resolveValue invoke).
Local Abbreviation resolved := (Node.resolved getNodeParameter invoke).
Local Abbreviation tableUrl := (Node.tableUrl encodeURIComponent invoke).
Local Abbreviation recordUrl := (Node.recordUrl encodeURIComponent invoke).
Local Abbreviation listUrl := (Node.listUrl encodeURIComponent invoke).
Local Abbreviation parseFields := (Node.parseFields jsonParse).
Local Abbreviation createRecord :=
  (Node.createRecord getNodeParameter jsonParse encodeURIComponent invoke).
Local Abbreviation readRecord := (Node.readRecord getNodeParameter encodeURIComponent invoke).
Local Abbreviation updateRecord :=
  (Node.updateRecord getNodeParameter jsonParse encodeURIComponent invoke).
Local Abbreviation deleteRecord := (Node.deleteRecord getNodeParameter encodeURIComponent invoke).
Local Abbreviation listRecords := (Node.listRecords getNodeParameter encodeURIComponent invoke).
Local Abbreviation getBase := (Node.getBase getNodeParameter invoke).
Local Abbreviation listTables := (Node.listTables getNodeParameter invoke).
Local Abbreviation dispatch :=
  (Node.dispatch getNodeParameter jsonParse encodeURIComponent invoke).
Local Abbreviation processItems :=
  (Node.processItems getNodeParameter jsonParse encodeURIComponent invoke).
Local Abbreviation execute :=
  (Node.execute getNodeParameter jsonParse encodeURIComponent invoke).

Lemma httpRequests_app (l1 l2 : list Event) :
  httpRequests (l1 ++ l2) = httpRequests l1 ++ httpRequests l2.
Proof. apply omap_app. Qed.

Lemma httpSleeps_app (l1 l2 : list Event) :
  httpSleeps (l1 ++ l2) = httpSleeps l1 ++ httpSleeps l2.
Proof. apply omap_app. Qed.

Lemma httpRequests_lift (log : list Executor.Event) :
  httpRequests (EvHttp <$> log) = Executor.requestsIn log.
Proof.
  unfold httpRequests, httpSleeps, Executor.requestsIn, Executor.sleepsIn.
  induction log as [|ev log IH]; [done|].
  destruct ev; cbn; by rewrite ?IH.
Qed.

Lemma httpSleeps_lift (log : list Executor.Event) :
  httpSleeps (EvHttp <$> log) = Executor.sleepsIn log.
Proof.
  unfold httpRequests, httpSleeps, Executor.requestsIn, Executor.sleepsIn.
  induction log as [|ev log IH]; [done|].
  destruct ev; cbn; by rewrite ?IH.
Qed.

Lemma httpRequests_info msg meta (log : list Event) :
  httpRequests (EvInfo msg meta :: log) = httpRequests log.
Proof. reflexivity. Qed.

Lemma httpSleeps_info msg meta (log : list Event) :
  httpSleeps (EvInfo msg meta :: log) = httpSleeps log.
Proof. reflexivity. Qed.

Lemma requestsIn_backoff url data credentials method timeout retryDelay (k : nat) :
  forall c, c ∈ Executor.requestsIn
                  (Executor.backoffLog url data credentials method timeout retryDelay k) ->
            c = Executor.configOf url data credentials method timeout.
Proof.
  induction k as [|k IH]; intros c Hc; cbn in Hc.
  - by apply elem_of_nil in Hc.
  - unfold Executor.requestsIn in Hc. rewrite omap_app in Hc. cbn in Hc.
    apply elem_of_app in Hc as [Hc|Hc]; [by apply IH|].
    by apply list_elem_of_singleton in Hc.
Qed.

(** What [requestThen] makes of a run of the executor. *)
Lemma requestThen_run axios info url data credentials method timeout maxRetries retryDelay k :
  exists out elog,
    Executor.makeAirtableRequest axios url data credentials method timeout
                                 maxRetries retryDelay = Some (out, elog) /\
    requestThen axios info url data credentials method timeout maxRetries retryDelay k
    = Some (match out with
            | Executor.Thrown e => Thrown (Raised e)
            | Executor.Returned response =>
                match k response with
                | inl e => Thrown e
                | inr result => Returned result
                end
            end, info :: (EvHttp <$> elog)).
Proof.
  destruct (request_total axios url data credentials method timeout maxRetries retryDelay)
    as (out & elog & Hrun).
  exists out, elog. split; [done|]. unfold requestThen. rewrite Hrun.
  by destruct out.
Qed.

Lemma requestThen_total axios info url data credentials method timeout maxRetries retryDelay k :
  is_Some (requestThen axios info url data credentials method timeout
                       maxRetries retryDelay k).
Proof.
  destruct (requestThen_run axios info url data credentials method timeout
                            maxRetries retryDelay k) as (out & elog & _ & ->).
  by eexists.
Qed.

Lemma sendTo_total axios credentials timeout maxRetries retryDelay info url data method k :
  is_Some (Node.sendTo axios credentials timeout maxRetries retryDelay info url data method k).
Proof.
  destruct url as [e|url]; cbn [Node.sendTo]; [by eexists|apply requestThen_total].
Qed.

Lemma dispatch_total axios json credentials timeout maxRetries retryDelay resource operation :
  is_Some (dispatch axios json credentials timeout maxRetries retryDelay resource operation).
Proof.
  unfold Node.dispatch, Node.createRecord, Node.readRecord, Node.updateRecord,
    Node.deleteRecord, Node.listRecords, Node.listBases, Node.getBase, Node.listTables.
  repeat case_match; try (by eexists);
    first [apply requestThen_total | apply sendTo_total].
Qed.

(** X15: once the parameters of an operation have been resolved, a required
    one that is missing or empty makes the operation throw its own validation
    message before anything is logged or sent. *)
Theorem X15_validation_precedes_request
        axios (json : gmap string JsValue) credentials timeout maxRetries retryDelay
        (baseId : JsValue) :
  let empty v := negb (truthy v) in
  let absent name := negb (truthy (getNodeParameter name None)) in
  let fails msg := Some (Thrown (Raised (Executor.Error msg)), []) in
  resolved json "baseId" = inr baseId ->
  (empty baseId = true ->
   getBase axios json credentials timeout maxRetries retryDelay
   = fails "Base ID is required" /\
   listTables axios json credentials timeout maxRetries retryDelay
   = fails "Base ID is required") /\
  (forall tableName,
     resolved json "tableName" = inr tableName ->
     (empty baseId || empty tableName || absent "fields" = true ->
      createRecord axios json credentials timeout maxRetries retryDelay
      = fails "Base ID, table name, and fields are required") /\
     (forall filterFormula sortField,
        resolveValue (getNodeParameter "filterFormula" (Some (JStr ""))) json
        = inr filterFormula ->
        resolveValue (getNodeParameter "sortField" (Some (JStr ""))) json
        = inr sortField ->
        empty baseId || empty tableName = true ->
        listRecords axios json credentials timeout maxRetries retryDelay
        = fails "Base ID and table name are required") /\
     (forall recordId,
        resolved json "recordId" = inr recordId ->
        (empty baseId || empty tableName || empty recordId = true ->
         readRecord axios json credentials timeout maxRetries retryDelay
         = fails "Base ID, table name, and record ID are required" /\
         deleteRecord axios json credentials timeout maxRetries retryDelay
         = fails "Base ID, table name, and record ID are required") /\
        (empty baseId || empty tableName || empty recordId || absent "updateFields" = true ->
         updateRecord axios json credentials timeout maxRetries retryDelay
         = fails "Base ID, table name, record ID, and update fields are required"))).
Proof.
  intros empty absent fails Hb. subst empty absent fails. cbv beta.
  unfold Node.createRecord, Node.readRecord, Node.updateRecord,
    Node.deleteRecord, Node.listRecords, Node.getBase, Node.listTables.
  rewrite Hb. cbn [bind]. split; [by intros ->|].
  intros tableName Ht. rewrite Ht. cbn [bind]. split; [by intros ->|]. split.
  - intros filterFormula sortField -> ->. cbn [bind]. by intros ->.
  - intros recordId ->. cbn [bind]. split; by intros ->.
Qed.

(** X16: when the fields are given as text that [JSON.parse] rejects,
    [createRecord] and [updateRecord], their other parameters resolved and
    present, throw that SyntaxError; nothing has been logged or sent. *)
Theorem X16_invalid_json_sends_nothing
        axios (json : gmap string JsValue) credentials timeout maxRetries retryDelay
        (baseId tableName : JsValue) (text : string) (e : Exn) :
  resolved json "baseId" = inr baseId ->
  truthy baseId = true ->
  resolved json "tableName" = inr tableName ->
  truthy tableName = true ->
  text <> "" ->
  jsonParse text = inl e ->
  (getNodeParameter "fields" None = JStr text ->
   createRecord axios json credentials timeout maxRetries retryDelay
   = Some (Thrown e, [])) /\
  (forall recordId,
     getNodeParameter "updateFields" None = JStr text ->
     resolved json "recordId" = inr recordId ->
     truthy recordId = true ->
     updateRecord axios json credentials timeout maxRetries retryDelay
     = Some (Thrown e, [])).
Proof.
  intros Hb Hbt Ht Htt Htext Hparse.
  assert (Htruthy : truthy (JStr text) = true).
  { cbn. by apply String.eqb_neq in Htext as ->. }
  split.
  - intros Hf. unfold Node.createRecord. rewrite Hb, Ht. cbn [bind].
    rewrite Hbt, Htt, Hf, Htruthy. cbn. by rewrite Hparse.
  - intros recordId Hf Hr Hrt. unfold Node.updateRecord. rewrite Hb, Ht, Hr. cbn [bind].
    rewrite Hbt, Htt, Hrt, Hf, Htruthy. cbn. by rewrite Hparse.
Qed.

(** Every request of a [requestThen] is the one it was asked to make. *)
Lemma requestThen_requests axios msg meta url data credentials method timeout
      maxRetries retryDelay f :
  0 <= maxRetries ->
  exists out log,
    requestThen axios (EvInfo msg meta) url data credentials method timeout
                maxRetries retryDelay f
    = Some (out, EvInfo msg meta :: log) /\
    httpRequests log <> [] /\
    forall c, c ∈ httpRequests log ->
              c = Executor.configOf url data credentials method timeout.
Proof.
  intros Hn.
  destruct (requestThen_run axios (EvInfo msg meta) url data credentials method timeout
                            maxRetries retryDelay f) as (out & elog & Hrun & ->).
  destruct (request_shape axios url data credentials method timeout maxRetries
                          retryDelay Hn) as (k & _ & _ & _ & Hshape).
  rewrite Hshape in Hrun. injection Hrun as _ <-.
  eexists _, _. split; [reflexivity|].
  rewrite httpRequests_lift.
  unfold Executor.requestsIn at 1 2. rewrite omap_app. cbn [omap].
  split; [by destruct (omap _ _)|].
  intros c [Hc|Hc]%elem_of_app.
  - by apply (requestsIn_backoff _ _ _ _ _ _ k c Hc).
  - by apply list_elem_of_singleton in Hc.
Qed.

(** X17: [createRecord], its parameters resolved and present and its fields
    parsed, logs and then builds the URL. If the base id or the table name
    cannot be converted to a string, it throws the error of that conversion
    and has sent nothing. Otherwise every request it sends is a POST to the
    table with the payload [{records: [{fields}]}], where text given as
    fields has been parsed and an object is passed as it is; with a
    non-negative retry budget at least one request is sent. *)
Theorem X17_create_sends_fields
        axios (json : gmap string JsValue) credentials timeout maxRetries retryDelay
        (baseId tableName fields parsed : JsValue) :
  resolved json "baseId" = inr baseId ->
  truthy baseId = true ->
  resolved json "tableName" = inr tableName ->
  truthy tableName = true ->
  getNodeParameter "fields" None = fields ->
  truthy fields = true ->
  parseFields fields = inr parsed ->
  0 <= maxRetries ->
  let info := EvInfo "Creating Airtable record"
                     [("baseId", baseId); ("tableName", tableName)] in
  match tableUrl baseId tableName with
  | inl e =>
      createRecord axios json credentials timeout maxRetries retryDelay
      = Some (Thrown e, [info])
  | inr url =>
      exists out log,
        createRecord axios json credentials timeout maxRetries retryDelay
        = Some (out, info :: log) /\
        httpRequests log <> [] /\
        forall c, c ∈ httpRequests log ->
          cfg_method c = "POST" /\
          cfg_url c = url /\
          cfg_data c = Some (JObj [("records", JArr [JObj [("fields", parsed)]])])
  end.
Proof.
  intros Hb Hbt Ht Htt Hf Hfields Hparse Hn info. subst info.
  unfold Node.createRecord. rewrite Hb, Ht. cbn [bind].
  rewrite Hbt, Htt, Hf, Hfields, Hparse. cbn [negb orb].
  destruct (tableUrl baseId tableName) as [e|url]; cbn [Node.sendTo]; [done|].
  match goal with
  | |- context [requestThen ?ax (EvInfo ?msg ?meta) ?url ?data ?cr ?m ?to ?mr ?rd ?f] =>
      destruct (requestThen_requests ax msg meta url data cr m to mr rd f Hn)
        as (out & log & -> & Hne & Hall)
  end.
  exists out, log. split; [done|]. split; [done|].
  intros c Hc. by rewrite (Hall c Hc).
Qed.

Lemma requestsIn_backoff_length url data credentials method timeout retryDelay (k : nat) :
  length (Executor.requestsIn
            (Executor.backoffLog url data credentials method timeout retryDelay k)) = k.
Proof.
  induction k as [|k IH]; [done|]. cbn [Executor.backoffLog].
  unfold Executor.requestsIn in *. rewrite omap_app, length_app, IH. cbn. lia.
Qed.

(** A run of [requestThen] whose attempt [k] is the first not answered with
    429 and succeeds. *)
Lemma requestThen_resolved axios info url data credentials method timeout
      maxRetries retryDelay f (k : nat) (status : Z) (response : JsValue) :
  Z.of_nat k <= maxRetries ->
  (forall i, (i < k)%nat ->
     Executor.rejected429
       (axios i (Executor.configOf url data credentials method timeout)) = true) ->
  axios k (Executor.configOf url data credentials method timeout)
  = Resolved status response ->
  requestThen axios info url data credentials method timeout maxRetries retryDelay f
  = Some (match f response with
          | inl e => Thrown e
          | inr result => Returned result
          end,
          info :: (EvHttp <$> (Executor.backoffLog url data credentials method timeout
                                                   retryDelay k
                               ++ [Executor.EvRequest
                                     (Executor.configOf url data credentials method
                                                        timeout)]))).
Proof.
  intros Hk H429 Hok. unfold requestThen.
  rewrite (request_ends_at axios url data credentials method timeout maxRetries
                           retryDelay k) by (try done; by rewrite Hok).
  by rewrite Hok.
Qed.

(** X18: [deleteRecord] does not look at the response: as soon as an
    attempt succeeds, whatever its body, it reports the record id it was
    given as deleted. Each request it sent was a DELETE, without a payload,
    to the URL of the record. *)
Theorem X18_delete_ignores_response_body
        axios (json : gmap string JsValue) credentials timeout maxRetries retryDelay
        (baseId tableName recordId : JsValue) (url : string)
        (k : nat) (status : Z) (body : JsValue) :
  let config := Executor.configOf url JNull credentials "DELETE" timeout in
  resolved json "baseId" = inr baseId ->
  truthy baseId = true ->
  resolved json "tableName" = inr tableName ->
  truthy tableName = true ->
  resolved json "recordId" = inr recordId ->
  truthy recordId = true ->
  recordUrl baseId tableName recordId = inr url ->
  Z.of_nat k <= maxRetries ->
  (forall i, (i < k)%nat -> Executor.rejected429 (axios i config) = true) ->
  axios k config = Resolved status body ->
  exists log,
    deleteRecord axios json credentials timeout maxRetries retryDelay
    = Some (Returned (JObj [("success", JBool true);
                            ("recordId", recordId);
                            ("deleted", JBool true)]), log) /\
    length (httpRequests log) = S k /\
    forall c, c ∈ httpRequests log ->
      cfg_method c = "DELETE" /\ cfg_url c = url /\ cfg_data c = None.
Proof.
  intros config Hb Hbt Ht Htt Hr Hrt Hurl Hk H429 Hok. subst config.
  unfold Node.deleteRecord. rewrite Hb, Ht, Hr. cbn [bind].
  rewrite Hbt, Htt, Hrt, Hurl. cbn [negb orb Node.sendTo].
  erewrite requestThen_resolved by done.
  eexists. split; [reflexivity|].
  rewrite httpRequests_info, httpRequests_lift.
  unfold Executor.requestsIn at 1 2. rewrite omap_app. cbn [omap]. split.
  - rewrite length_app. cbn.
    pose proof (requestsIn_backoff_length) as Hlen. unfold Executor.requestsIn in Hlen.
    rewrite Hlen. lia.
  - intros c [Hc|Hc]%elem_of_app.
    + by rewrite (requestsIn_backoff _ _ _ _ _ _ k c Hc).
    + by apply list_elem_of_singleton in Hc as ->.
Qed.

Lemma mapItems_objects (f : JsValue -> Exn + JsValue) (g : JsValue -> JsValue)
      (items : list JsValue) :
  (forall props, f (JObj props) = inr (g (JObj props))) ->
  (forall x, x ∈ items -> exists props, x = JObj props) ->
  mapItems f items = inr (g <$> items).
Proof.
  intros Hf. induction items as [|x items IH]; intros Hobj; [done|].
  destruct (Hobj x) as [props ->]; [apply list_elem_of_here|].
  cbn [mapItems]. rewrite Hf. cbn [bind].
  rewrite IH by (intros y Hy; apply Hobj; by apply list_elem_of_further).
  done.
Qed.

(** X19: when the list response carries an array of record objects,
    [listRecords] returns one entry per record, in order, each reduced to its
    id, fields and creation time, and [count] is the number of entries. *)
Theorem X19_list_counts_what_it_returns
        axios (json : gmap string JsValue) credentials timeout maxRetries retryDelay
        (baseId tableName filterFormula sortField : JsValue) (url : string)
        (status : Z) (response : JsValue) (recs : list JsValue) :
  resolved json "baseId" = inr baseId ->
  truthy baseId = true ->
  resolved json "tableName" = inr tableName ->
  truthy tableName = true ->
  resolveValue (getNodeParameter "filterFormula" (Some (JStr ""))) json = inr filterFormula ->
  resolveValue (getNodeParameter "sortField" (Some (JStr ""))) json = inr sortField ->
  listUrl baseId tableName filterFormula sortField
          (getNodeParameter "sortDirection" (Some (JStr "asc")))
          (getNodeParameter "limit" (Some (JNum 100))) = inr url ->
  0 <= maxRetries ->
  axios 0%nat (Executor.configOf url JNull credentials "GET" timeout)
  = Resolved status response ->
  getProp response "records" = inr (JArr recs) ->
  (forall r, r ∈ recs -> exists props, r = JObj props) ->
  exists log,
    listRecords axios json credentials timeout maxRetries retryDelay
    = Some (Returned
              (JObj [("success", JBool true);
                     ("count", JNum (Z.of_nat (length recs)));
                     ("records",
                      JArr ((fun r => JObj [("recordId", optGet r "id");
                                            ("fields", optGet r "fields");
                                            ("createdTime", optGet r "createdTime")])
                              <$> recs))]), log) /\
    httpRequests log = [Executor.configOf url JNull credentials "GET" timeout].
Proof.
  intros Hb Hbt Ht Htt Hf Hs Hurl Hn Hok Hrecs Hobj.
  unfold Node.listRecords. rewrite Hb, Ht, Hf, Hs. cbn [bind].
  rewrite Hbt, Htt, Hurl. cbn [negb orb].
  erewrite (requestThen_resolved _ _ _ _ _ _ _ _ _ _ 0%nat) by (try done; intros; lia).
  rewrite Hrecs. cbn [bind lengthAndMap].
  erewrite mapItems_objects; [by eexists| |exact Hobj].
  intros props. reflexivity.
Qed.

(** X20: a list response without a [records] array is not read as an empty
    list: the request has been sent and has succeeded, and [listRecords]
    throws the TypeError of reading [length] on the missing value. *)
Theorem X20_list_needs_records
        axios (json : gmap string JsValue) credentials timeout maxRetries retryDelay
        (baseId tableName filterFormula sortField : JsValue) (url : string)
        (status : Z) (response missing : JsValue) :
  resolved json "baseId" = inr baseId ->
  truthy baseId = true ->
  resolved json "tableName" = inr tableName ->
  truthy tableName = true ->
  resolveValue (getNodeParameter "filterFormula" (Some (JStr ""))) json = inr filterFormula ->
  resolveValue (getNodeParameter "sortField" (Some (JStr ""))) json = inr sortField ->
  listUrl baseId tableName filterFormula sortField
          (getNodeParameter "sortDirection" (Some (JStr "asc")))
          (getNodeParameter "limit" (Some (JNum 100))) = inr url ->
  0 <= maxRetries ->
  axios 0%nat (Executor.configOf url JNull credentials "GET" timeout)
  = Resolved status response ->
  getProp response "records" = inr missing ->
  missing = JUndefined \/ missing = JNull ->
  exists log,
    listRecords axios json credentials timeout maxRetries retryDelay
    = Some (Thrown (Raised (Executor.TypeError
                              ("Cannot read properties of " +:+ toString missing
                                 +:+ " (reading 'length')"))), log) /\
    httpRequests log = [Executor.configOf url JNull credentials "GET" timeout].
Proof.
  intros Hb Hbt Ht Htt Hf Hs Hurl Hn Hok Hrecs Hmissing.
  unfold Node.listRecords. rewrite Hb, Ht, Hf, Hs. cbn [bind].
  rewrite Hbt, Htt, Hurl. cbn [negb orb].
  erewrite (requestThen_resolved _ _ _ _ _ _ _ _ _ _ 0%nat) by (try done; intros; lia).
  rewrite Hrecs. cbn [bind].
  eexists. split.
  - by destruct Hmissing as [-> | ->].
  - reflexivity.
Qed.

(** When every call is rejected, [requestThen] throws. *)
Lemma requestThen_all_rejected axios info url data credentials method timeout
      maxRetries retryDelay f (e : AxiosError) :
  (forall k c, axios k c = Rejected e) ->
  0 <= maxRetries ->
  exists log,
    requestThen axios info url data credentials method timeout maxRetries retryDelay f
    = Some (Thrown (Raised (Executor.classify (Some e))), log).
Proof.
  intros Hrej Hn.
  destruct (requestThen_run axios info url data credentials method timeout
                            maxRetries retryDelay f) as (out & elog & Hrun & ->).
  destruct (request_shape axios url data credentials method timeout maxRetries
                          retryDelay Hn) as (k & _ & _ & _ & Hshape).
  rewrite Hshape, Hrej in Hrun. injection Hrun as <- <-. by eexists.
Qed.

(** X27: when the API rejects every call, no operation reports a result:
    whatever the resource and operation, the item fails, unless the resource
    is unknown, in which case the result is undefined. *)
Theorem X27_no_result_when_every_call_fails
        axios (json : gmap string JsValue) credentials timeout maxRetries retryDelay
        (resource operation : JsValue) (e : AxiosError) :
  (forall k c, axios k c = Rejected e) ->
  0 <= maxRetries ->
  exists out log,
    dispatch axios json credentials timeout maxRetries retryDelay resource operation
    = Some (out, log) /\
    forall result, out = Returned result ->
      result = JUndefined /\
      strictEqStr resource "record" = false /\ strictEqStr resource "base" = false.
Proof.
  intros Hrej Hn.
  unfold Node.dispatch, Node.createRecord, Node.readRecord, Node.updateRecord,
    Node.deleteRecord, Node.listRecords, Node.listBases, Node.getBase, Node.listTables,
    Node.sendTo.
  repeat case_match;
    try (eexists _, _; split; [reflexivity|]; intros result [= <-]; done);
    try (eexists _, _; split; [reflexivity|]; intros result [=]);
    match goal with
    | |- context [requestThen ?ax ?info ?url ?data ?cr ?m ?to ?mr ?rd ?f] =>
        destruct (requestThen_all_rejected ax info url data cr m to mr rd f e Hrej Hn)
          as (log & ->);
        eexists _, _; split; [reflexivity|]; intros result [=]
    end.
Qed.

(** X28: [createRecord] takes its result from the first record of the
    response. When the call succeeds but the response lists no record, the
    request has been made and the method throws the TypeError of reading
    [id] on [undefined]. *)
Theorem X28_create_needs_a_returned_record
        axios (json : gmap string JsValue) credentials timeout maxRetries retryDelay
        (baseId tableName fields parsed response : JsValue) (url : string) (status : Z) :
  let config :=
    Executor.configOf url (JObj [("records", JArr [JObj [("fields", parsed)]])])
                      credentials "POST" timeout in
  resolved json "baseId" = inr baseId ->
  truthy baseId = true ->
  resolved json "tableName" = inr tableName ->
  truthy tableName = true ->
  getNodeParameter "fields" None = fields ->
  truthy fields = true ->
  parseFields fields = inr parsed ->
  tableUrl baseId tableName = inr url ->
  0 <= maxRetries ->
  axios 0%nat config = Resolved status response ->
  getProp response "records" = inr (JArr []) ->
  exists log,
    createRecord axios json credentials timeout maxRetries retryDelay
    = Some (Thrown (Raised (Executor.TypeError
                              "Cannot read properties of undefined (reading 'id')")), log) /\
    httpRequests log = [config].
Proof.
  intros config Hb Hbt Ht Htt Hf Hfields Hparse Hurl Hn Hok Hrecs. subst config.
  unfold Node.createRecord. rewrite Hb, Ht. cbn [bind].
  rewrite Hbt, Htt, Hf, Hfields, Hparse, Hurl. cbn [negb orb Node.sendTo].
  erewrite (requestThen_resolved _ _ _ _ _ _ _ _ _ _ 0%nat) by (try done; intros; lia).
  rewrite Hrecs. cbn [bind]. eexists. split; reflexivity.
Qed.

(** X29: every request that [updateRecord] sends is a PATCH to the table,
    not to the record: the record id travels in the payload
    [{records: [{id, fields}]}], next to the parsed fields. *)
Theorem X29_update_sends_id_in_payload
        axios (json : gmap string JsValue) credentials timeout maxRetries retryDelay
        (baseId tableName recordId updateFields parsed : JsValue) (url : string) :
  resolved json "baseId" = inr baseId ->
  truthy baseId = true ->
  resolved json "tableName" = inr tableName ->
  truthy tableName = true ->
  resolved json "recordId" = inr recordId ->
  truthy recordId = true ->
  getNodeParameter "updateFields" None = updateFields ->
  truthy updateFields = true ->
  parseFields updateFields = inr parsed ->
  tableUrl baseId tableName = inr url ->
  0 <= maxRetries ->
  exists out log,
    updateRecord axios json credentials timeout maxRetries retryDelay = Some (out, log) /\
    httpRequests log <> [] /\
    forall c, c ∈ httpRequests log ->
      cfg_method c = "PATCH" /\
      cfg_url c = url /\
      cfg_data c = Some (JObj [("records",
                                JArr [JObj [("id", recordId); ("fields", parsed)]])]).
Proof.
  intros Hb Hbt Ht Htt Hr Hrt Hf Hfields Hparse Hurl Hn.
  unfold Node.updateRecord. rewrite Hb, Ht, Hr. cbn [bind].
  rewrite Hbt, Htt, Hrt, Hf, Hfields, Hparse, Hurl. cbn [negb orb Node.sendTo].
  match goal with
  | |- context [requestThen ?ax (EvInfo ?msg ?meta) ?url ?data ?cr ?m ?to ?mr ?rd ?f] =>
      destruct (requestThen_requests ax msg meta url data cr m to mr rd f Hn)
        as (out & log & -> & Hne & Hall)
  end.
  eexists out, _. split; [done|]. split; [done|].
  intros c Hc. by rewrite (Hall c Hc).
Qed.

(** On plain data the conversion does not throw and is [Js.toString]. *)
Lemma toText_plain :
  forall v : JsValue, Node.plain v = true -> toText v = inr (toString v).
Proof.
  fix IH 1. intros [| |b|n|s|items|props|name] Hplain; try reflexivity.
  - cbn [Node.toText toString]. cbn [Node.plain] in Hplain.
    revert items Hplain. fix IHrest 1. intros [|x rest] Hplain; [reflexivity|].
    cbn [forallb] in Hplain. apply andb_true_iff in Hplain as [Hx Hrest].
    assert (Helement : match x with
                       | JUndefined | JNull => inr ""
                       | _ => toText x
                       end
                       = inr (match x with
                              | JUndefined | JNull => ""
                              | _ => toString x
                              end)).
    { pose proof (IH x Hx) as Htext. destruct x; try reflexivity; exact Htext. }
    pose proof (IHrest rest Hrest) as Htail.
    cbn [List.map String.concat]. rewrite Helement.
    destruct rest as [|y rest']; [reflexivity|].
    cbn [bind]. rewrite Htail. reflexivity.
  - cbn [Node.toText toString Node.plain] in *. unfold Node.objectText.
    destruct (Node.lookupOwn "toString" props); [discriminate|]. reflexivity.
Qed.

Lemma replaceFrom_plain (f : string -> Exn + string) (g : string -> string) :
  (forall key, f key = inr (g key)) ->
  forall s skip, Node.replaceFrom f skip s = inr (Template.replaceFrom g skip s).
Proof.
  intros Hf. induction s as [|c tail IH]; intros skip; [reflexivity|].
  cbn [Node.replaceFrom Template.replaceFrom].
  destruct skip as [|k]; [|apply IH].
  destruct (Template.matchPlaceholder (String c tail)) as [[key rest]|].
  - rewrite Hf, IH. reflexivity.
  - rewrite IH. reflexivity.
Qed.

(** On item values in which no object has a [toString] of its own,
    [resolveValue] does not throw, and what it returns is given by
    [Template.resolveValue]. *)
Lemma resolveValue_plain (value : JsValue) (context : gmap string JsValue) :
  (forall key v, context !! key = Some v -> Node.plain v = true) ->
  resolveValue value context = inr (Template.resolveValue value context).
Proof.
  intros Hplain. destruct value as [| |b|n|s|items|props|name]; try reflexivity.
  cbn [Node.resolveValue Template.resolveValue].
  destruct (Template.includes "{{" s); [|reflexivity].
  unfold Template.replaceAll.
  rewrite (replaceFrom_plain (Node.replacer invoke context) (Template.replacer context));
    [reflexivity|].
  intros key. unfold Node.replacer, Template.replacer. apply toText_plain.
  unfold Template.getMember.
  destruct (context !! key) as [v|] eqn:E.
  - unfold Js.or. destruct (truthy v); [by apply (Hplain key)|reflexivity].
  - unfold Template.objectPrototype. by repeat case_match.
Qed.

(** X30: a parameter whose template cannot be rewritten, because a value it
    names cannot be converted to a string, makes the operation throw the
    error of that conversion, whatever the other parameters are: the
    parameters are resolved in the order base id, table name, record id,
    before any of them is validated, and nothing has been logged or sent. *)
Theorem X30_unresolved_parameter_fails_first
        axios (json : gmap string JsValue) credentials timeout maxRetries retryDelay
        (e : Exn) :
  let thrown := Some (Thrown e, []) in
  (resolved json "baseId" = inl e ->
   createRecord axios json credentials timeout maxRetries retryDelay = thrown /\
   readRecord axios json credentials timeout maxRetries retryDelay = thrown /\
   updateRecord axios json credentials timeout maxRetries retryDelay = thrown /\
   deleteRecord axios json credentials timeout maxRetries retryDelay = thrown /\
   listRecords axios json credentials timeout maxRetries retryDelay = thrown /\
   getBase axios json credentials timeout maxRetries retryDelay = thrown /\
   listTables axios json credentials timeout maxRetries retryDelay = thrown) /\
  (forall baseId,
     resolved json "baseId" = inr baseId ->
     resolved json "tableName" = inl e ->
     createRecord axios json credentials timeout maxRetries retryDelay = thrown /\
     readRecord axios json credentials timeout maxRetries retryDelay = thrown /\
     updateRecord axios json credentials timeout maxRetries retryDelay = thrown /\
     deleteRecord axios json credentials timeout maxRetries retryDelay = thrown /\
     listRecords axios json credentials timeout maxRetries retryDelay = thrown) /\
  (forall baseId tableName,
     resolved json "baseId" = inr baseId ->
     resolved json "tableName" = inr tableName ->
     resolved json "recordId" = inl e ->
     readRecord axios json credentials timeout maxRetries retryDelay = thrown /\
     updateRecord axios json credentials timeout maxRetries retryDelay = thrown /\
     deleteRecord axios json credentials timeout maxRetries retryDelay = thrown).
Proof.
  intros thrown. subst thrown.
  unfold Node.createRecord, Node.readRecord, Node.updateRecord,
    Node.deleteRecord, Node.listRecords, Node.getBase, Node.listTables.
  split_and!.
  - by intros ->.
  - intros baseId -> ->. done.
  - intros baseId tableName -> -> ->. done.
Qed.

(** ** The item loop *)

Section Execute.

Context (axios : nat -> nat -> RequestConfig -> AxiosResult JsValue)
        (credentials : Credentials) (options : Options).

Local Abbreviation resource := (getNodeParameter "resource" None).
Local Abbreviation operation := (getNodeParameter "operation" None).
Local Abbreviation maxRetries :=
  (match opt_maxRetries options with Some n => n | None => 3 end).
Local Abbreviation retryDelay := (numberOr (opt_retryDelay options) 1000).
Local Abbreviation timeout := (numberOr (opt_timeout options) 30000).
Local Abbreviation nodeError :=
  (fun e : Exn => EvError "Airtable Node Error:"
                          [("operation", operation); ("resource", resource);
                           ("error", JStr (messageOf e))]).
Local Abbreviation perItem :=
  (fun i json => dispatch (axios i) json credentials timeout maxRetries retryDelay
                          resource operation).
Local Abbreviation loop :=
  (fun continueOnFail => processItems axios continueOnFail resource operation credentials
                                      timeout maxRetries retryDelay).

(** X21: without credentials, or with credentials that hold neither token,
    [execute] throws before it looks at any item: the failure is logged once
    and no request is sent. *)
Theorem X21_execute_requires_credentials
        (main0 : option (list (gmap string JsValue))) (continueOnFail : bool)
        (given : option Credentials) :
  given = None \/
  (exists c, given = Some c /\ truthy (accessToken c) = false /\ truthy (apiKey c) = false) ->
  let e := Raised (Executor.Error
    "Airtable credentials are required. Please configure Airtable credentials.") in
  execute axios main0 continueOnFail given options
  = Some (Thrown e, [nodeError e]).
Proof.
  intros [->|(c & -> & Ha & Hk)] e; unfold Node.execute; [done|].
  by rewrite Ha, Hk.
Qed.

Lemma loop_continue (items : list (gmap string JsValue)) :
  forall (i : nat) (results : list JsValue) (log : list Event),
  exists results' log',
    loop true i items results log = Some (inr (results ++ results'), log') /\
    length results' = length items /\
    forall n json, items !! n = Some json ->
      exists out lg,
        perItem (i + n)%nat json = Some (out, lg) /\
        results' !! n
        = Some (JObj [("json",
                       match out with
                       | Returned result => result
                       | Thrown e =>
                           JObj [("success", JBool false);
                                 ("error", JStr (messageOf e));
                                 ("operation", operation);
                                 ("resource", resource)]
                       end)]).
Proof.
  induction items as [|json items IH]; intros i results log.
  - exists [], log. rewrite app_nil_r. split; [done|]. split; [done|].
    intros n json' Hn. by rewrite lookup_nil in Hn.
  - cbn [Node.processItems].
    destruct (dispatch_total (axios i) json credentials timeout maxRetries retryDelay
                             resource operation) as [[out lg] Hd].
    rewrite Hd.
    destruct out as [result|e].
    + destruct (IH (S i) (results ++ [JObj [("json", result)]]) (log ++ lg))
        as (results' & log' & Hrun & Hlen & Hpos).
      exists (JObj [("json", result)] :: results'), log'.
      rewrite Hrun, <- app_assoc. split; [done|]. split; [cbn; lia|].
      intros [|n] json' Hn; cbn in Hn.
      * injection Hn as <-. exists (Returned result), lg.
        by rewrite Nat.add_0_r.
      * destruct (Hpos n json' Hn) as (out & lg' & Hd' & Hres).
        exists out, lg'. by replace (i + S n)%nat with (S i + n)%nat by lia.
    + destruct (IH (S i)
                   (results ++ [JObj [("json",
                                       JObj [("success", JBool false);
                                             ("error", JStr (messageOf e));
                                             ("operation", operation);
                                             ("resource", resource)])]])
                   (log ++ lg))
        as (results' & log' & Hrun & Hlen & Hpos).
      eexists (_ :: results'), log'.
      rewrite Hrun, <- app_assoc. split; [done|]. split; [cbn; lia|].
      intros [|n] json' Hn; cbn in Hn.
      * injection Hn as <-. exists (Thrown e), lg.
        by rewrite Nat.add_0_r.
      * destruct (Hpos n json' Hn) as (out & lg' & Hd' & Hres).
        exists out, lg'. by replace (i + S n)%nat with (S i + n)%nat by lia.
Qed.

(** X22: with continue-on-fail set, [execute] never throws once the
    credentials are in order: it returns one result per input item, in input
    order, a failed item being replaced by a record of its error message,
    and it runs once on an empty context when there is no input. *)
Theorem X22_continue_on_fail_keeps_one_result_per_item
        (main0 : option (list (gmap string JsValue))) :
  truthy (accessToken credentials) || truthy (apiKey credentials) = true ->
  let items := match default [] main0 with
               | [] => [∅]
               | given => given
               end in
  exists results log,
    execute axios main0 true (Some credentials) options
    = Some (Returned (JArr [JObj [("main", JArr results)]]), log) /\
    length results = length items /\
    forall n json, items !! n = Some json ->
      exists out lg,
        perItem n json = Some (out, lg) /\
        results !! n
        = Some (JObj [("json",
                       match out with
                       | Returned result => result
                       | Thrown e =>
                           JObj [("success", JBool false);
                                 ("error", JStr (messageOf e));
                                 ("operation", operation);
                                 ("resource", resource)]
                       end)]).
Proof.
  intros Htok items. unfold Node.execute.
  replace (negb (truthy (accessToken credentials)) && negb (truthy (apiKey credentials)))
    with false
    by (by destruct (truthy (accessToken credentials)), (truthy (apiKey credentials))).
  replace (if (0 <? length (default [] main0))%nat then default [] main0 else [∅])
    with items by (subst items; by destruct (default [] main0)).
  destruct (loop_continue items 0%nat [] []) as (results & log & Hrun & Hlen & Hpos).
  rewrite Hrun. exists results, log. done.
Qed.


Lemma loop_unknown_resource (continueOnFail : bool) (items : list (gmap string JsValue)) :
  strictEqStr resource "record" = false ->
  strictEqStr resource "base" = false ->
  forall i results log,
    loop continueOnFail i items results log
    = Some (inr (results ++ replicate (length items) (JObj [("json", JUndefined)])), log).
Proof.
  intros Hr Hb. induction items as [|json items IH]; intros i results log.
  - cbn. by rewrite app_nil_r.
  - cbn [Node.processItems]. unfold Node.dispatch. rewrite Hr, Hb.
    rewrite IH, app_nil_r, <- app_assoc. done.
Qed.

(** X24: a resource that is neither "record" nor "base" is not an error:
    [execute] sends and logs nothing and returns, for every item, a result
    whose [json] is undefined. *)
Theorem X24_unknown_resource_yields_undefined
        (main0 : option (list (gmap string JsValue))) (continueOnFail : bool) :
  truthy (accessToken credentials) || truthy (apiKey credentials) = true ->
  strictEqStr resource "record" = false ->
  strictEqStr resource "base" = false ->
  execute axios main0 continueOnFail (Some credentials) options
  = Some (Returned
            (JArr [JObj [("main",
                          JArr (replicate (Nat.max 1 (length (default [] main0)))
                                          (JObj [("json", JUndefined)])))]]), []).
Proof.
  intros Htok Hr Hb. unfold Node.execute.
  replace (negb (truthy (accessToken credentials)) && negb (truthy (apiKey credentials)))
    with false
    by (by destruct (truthy (accessToken credentials)), (truthy (apiKey credentials))).
  rewrite loop_unknown_resource by done.
  destruct (default [] main0) as [|json rest]; [done|].
  cbn [length Nat.ltb Nat.leb app]. by replace (Nat.max 1 (S (length rest))) with (S (length rest)) by lia.
Qed.

Lemma loop_stops_at_failure (pre post : list (gmap string JsValue))
      (json : gmap string JsValue) (e : Exn) (lg : list Event) :
  forall i results log,
    perItem (i + length pre)%nat json = Some (Thrown e, lg) ->
    loop false i (pre ++ json :: post) results log
    = loop false i (pre ++ [json]) results log /\
    exists e' log', loop false i (pre ++ [json]) results log = Some (inl e', log').
Proof.
  induction pre as [|first pre IH]; intros i results log Hfail.
  - cbn [app length Node.processItems] in *. rewrite Nat.add_0_r in Hfail.
    rewrite Hfail. split; [done|by eexists _, _].
  - cbn [app Node.processItems].
    destruct (dispatch_total (axios i) first credentials timeout maxRetries retryDelay
                             resource operation) as [[out lg'] Hd].
    rewrite Hd. destruct out as [result|e1]; [|split; [done|by eexists _, _]].
    apply IH. by replace (S i + length pre)%nat with (i + length (first :: pre))%nat
      by (cbn; lia).
Qed.

(** X25: without continue-on-fail, the first item that fails ends the run:
    [execute] throws, the items after it are not processed (what they are
    makes no difference to the outcome or to what is sent), and the results
    of the items before it are not returned. *)
Theorem X25_first_failure_ends_the_run
        (pre post : list (gmap string JsValue)) (json : gmap string JsValue)
        (e : Exn) (lg : list Event) :
  truthy (accessToken credentials) || truthy (apiKey credentials) = true ->
  perItem (length pre) json = Some (Thrown e, lg) ->
  execute axios (Some (pre ++ json :: post)) false (Some credentials) options
  = execute axios (Some (pre ++ [json])) false (Some credentials) options /\
  exists e' log,
    execute axios (Some (pre ++ json :: post)) false (Some credentials) options
    = Some (Thrown e', log) /\
    last log = Some (nodeError e').
Proof.
  intros Htok Hfail.
  destruct (loop_stops_at_failure pre post json e lg 0%nat [] [] Hfail)
    as (Heq & e' & log' & Hrun).
  unfold Node.execute.
  replace (negb (truthy (accessToken credentials)) && negb (truthy (apiKey credentials)))
    with false
    by (by destruct (truthy (accessToken credentials)), (truthy (apiKey credentials))).
  cbn [default from_option id].
  replace (0 <? length (pre ++ json :: post))%nat with true
    by (symmetry; apply Nat.ltb_lt; rewrite length_app; cbn; lia).
  replace (0 <? length (pre ++ [json]))%nat with true
    by (symmetry; apply Nat.ltb_lt; rewrite length_app; cbn; lia).
  rewrite Heq, Hrun. split; [done|].
  eexists _, _. split; [done|]. apply last_snoc.
Qed.

Lemma execute_rate_limited (e : AxiosError) (n : nat) :
  truthy (accessToken credentials) || truthy (apiKey credentials) = true ->
  resource = JStr "base" ->
  operation = JStr "listBases" ->
  (forall i k c, axios i k c = Rejected e) ->
  statusIs e 429 = true ->
  maxRetries = Z.of_nat n ->
  exists log,
    execute axios None false (Some credentials) options
    = Some (Thrown (Raised (Executor.Error ("Airtable API error: " +:+ message e))), log) /\
    length (httpRequests log) = S n /\
    httpSleeps log = (fun a : nat => retryDelay * 2 ^ Z.of_nat a) <$> seq 0 n.
Proof.
  intros Htok Hres Hop Hrej H429 Hn. unfold Node.execute.
  replace (negb (truthy (accessToken credentials)) && negb (truthy (apiKey credentials)))
    with false
    by (by destruct (truthy (accessToken credentials)), (truthy (apiKey credentials))).
  cbn [default from_option id length Nat.ltb Nat.leb Node.processItems].
  unfold Node.dispatch. rewrite Hres, Hop.
  cbn [strictEqStr String.eqb Ascii.eqb Bool.eqb].
  unfold Node.listBases, requestThen.
  rewrite (request_exhausted (axios 0%nat) _ _ _ _ _ _ _ n)
    by (try done; intros; rewrite Hrej; exact H429).
  rewrite Hrej. cbn [Executor.finalOutcome]. rewrite classify_429 by done.
  eexists. split; [reflexivity|]. cbn [app].
  rewrite httpRequests_info, httpSleeps_info, httpRequests_app, httpSleeps_app,
    httpRequests_lift, httpSleeps_lift, sleepsIn_app, sleepsIn_backoff.
  unfold Executor.requestsIn. rewrite omap_app, !length_app.
  pose proof (requestsIn_backoff_length) as Hlen. unfold Executor.requestsIn in Hlen.
  rewrite Hlen. cbn. split; [lia|by rewrite !app_nil_r].
Qed.

(** X26: the retry policy [execute] hands to the executor. With no options
    set, an API that answers every call with 429 is called four times per
    item, after waits of 1, 2 and 4 seconds; a retry delay of 0 is replaced
    by the default second; a retry budget of 0 is honoured, giving a single
    call and no wait. *)
Theorem X26_default_retry_policy (e : AxiosError) :
  truthy (accessToken credentials) || truthy (apiKey credentials) = true ->
  resource = JStr "base" ->
  operation = JStr "listBases" ->
  (forall i k c, axios i k c = Rejected e) ->
  statusIs e 429 = true ->
  let failure :=
    Thrown (Raised (Executor.Error ("Airtable API error: " +:+ message e))) in
  (opt_maxRetries options = None ->
   opt_retryDelay options = None \/ opt_retryDelay options = Some 0 ->
   exists log,
     execute axios None false (Some credentials) options = Some (failure, log) /\
     length (httpRequests log) = 4%nat /\
     httpSleeps log = [1000; 2000; 4000]) /\
  (opt_maxRetries options = Some 0 ->
   exists log,
     execute axios None false (Some credentials) options = Some (failure, log) /\
     length (httpRequests log) = 1%nat /\
     httpSleeps log = []).
Proof.
  intros Htok Hres Hop Hrej H429 failure. split.
  - intros Hmr Hrd.
    destruct (execute_rate_limited e 3 Htok Hres Hop Hrej H429) as (log & Hrun & Hreq & Hsl).
    { by rewrite Hmr. }
    exists log. split; [exact Hrun|]. split; [exact Hreq|].
    rewrite Hsl. by destruct Hrd as [-> | ->].
  - intros Hmr.
    destruct (execute_rate_limited e 0 Htok Hres Hop Hrej H429) as (log & Hrun & Hreq & Hsl).
    { by rewrite Hmr. }
    exists log. done.
Qed.

End Execute.

End NodeFacts.

(** * The further facts at sample inputs *)

(** A permanently rate-limited API and a budget of 3. *)
Lemma X1_attempts_within_budget_witness :
  exists out log,
    Executor.makeAirtableRequest Sample.alwaysLimited "https://api.airtable.com/v0/appX/Tasks"
      JNull Sample.patCredentials "GET" 30000 3 1000 = Some (out, log) /\
    (1 <= Executor.attemptsIn log)%nat /\
    Z.of_nat (Executor.attemptsIn log) <= 3 + 1 /\
    S (length (Executor.sleepsIn log)) = Executor.attemptsIn log /\
    last log = Some (Executor.EvRequest
                       (Executor.configOf "https://api.airtable.com/v0/appX/Tasks" JNull
                                          Sample.patCredentials "GET" 30000)) /\
    Executor.paced log = true /\
    log = Executor.backoffLog "https://api.airtable.com/v0/appX/Tasks" JNull
            Sample.patCredentials "GET" 30000 1000 (Executor.attemptsIn log - 1)
          ++ [Executor.EvRequest
                (Executor.configOf "https://api.airtable.com/v0/appX/Tasks" JNull
                                   Sample.patCredentials "GET" 30000)].
Proof.
  apply (X1_attempts_within_budget Sample.alwaysLimited
           "https://api.airtable.com/v0/appX/Tasks" JNull Sample.patCredentials
           "GET" 30000 3 1000).
  lia.
Defined.

(** A budget of -1. *)
Lemma X2_negative_budget_sends_nothing_witness :
  exists msg log,
    Executor.makeAirtableRequest Sample.alwaysLimited "https://api.airtable.com/v0/appX/Tasks"
      JNull Sample.patCredentials "GET" 30000 (-1) 1000
    = Some (Executor.Thrown (Executor.TypeError msg), log) /\
    Executor.attemptsIn log = 0%nat /\
    Executor.sleepsIn log = [].
Proof.
  apply (X2_negative_budget_sends_nothing Sample.alwaysLimited
           "https://api.airtable.com/v0/appX/Tasks" JNull Sample.patCredentials
           "GET" 30000 (-1) 1000).
  lia.
Defined.

(** One 429, then a success. *)
Lemma X3_returns_iff_attempt_succeeds_witness :
  exists log,
    Executor.makeAirtableRequest (Sample.limitedUntil 1)
      "https://api.airtable.com/v0/appX/Tasks" JNull Sample.patCredentials "GET" 30000 2 1000
    = Some (Executor.Returned (JObj [("records", JArr [])]), log).
Proof.
  apply (X3_returns_iff_attempt_succeeds (Sample.limitedUntil 1)
           "https://api.airtable.com/v0/appX/Tasks" JNull Sample.patCredentials
           "GET" 30000 2 1000 (JObj [("records", JArr [])])).
  - lia.
  - exists 1%nat, 200. split; [lia|]. split; [|reflexivity].
    intros i Hi. destruct i as [|i]; [reflexivity|lia].
Defined.

(** A POST whose first attempt is not found. *)
Lemma X4_retries_resend_same_request_witness :
  cfg_method (Executor.configOf "https://api.airtable.com/v0/appX/Tasks"
                (JObj [("records", JArr [])]) Sample.patCredentials "POST" 30000) = "POST" /\
  cfg_data (Executor.configOf "https://api.airtable.com/v0/appX/Tasks"
              (JObj [("records", JArr [])]) Sample.patCredentials "POST" 30000)
  = Some (JObj [("records", JArr [])]).
Proof.
  destruct (X4_retries_resend_same_request (Sample.limitedThenMissing 0)
              "https://api.airtable.com/v0/appX/Tasks" (JObj [("records", JArr [])])
              Sample.patCredentials "POST" 30000 3 1000
              (Executor.Thrown (Executor.classify (Some Sample.notFound)))
              [Executor.EvRequest
                 (Executor.configOf "https://api.airtable.com/v0/appX/Tasks"
                    (JObj [("records", JArr [])]) Sample.patCredentials "POST" 30000)]
              (Executor.configOf "https://api.airtable.com/v0/appX/Tasks"
                 (JObj [("records", JArr [])]) Sample.patCredentials "POST" 30000)
              eq_refl (list_elem_of_here _ _))
    as (Hm & _ & _ & _ & _ & Hd).
  split; [exact Hm|exact Hd].
Defined.

(** A rate-limited API during the credential test. *)
Lemma X6_test_is_single_shot_witness :
  exists c,
    (CredentialTest.test (fun _ => Rejected Sample.rateLimited) Sample.patCredentials).2 = [c] /\
    cfg_method c = "GET" /\
    cfg_url c = "https://api.airtable.com/v0/meta/bases" /\
    cfg_timeout c = 5000 /\
    CredentialTest.success
      (CredentialTest.test (fun _ => Rejected Sample.rateLimited) Sample.patCredentials).1
    = false.
Proof.
  apply (X6_test_is_single_shot (fun _ => Rejected Sample.rateLimited)
           Sample.patCredentials Sample.rateLimited).
  - reflexivity.
  - intros c'. reflexivity.
Defined.

(** Three ticks while one cycle is pending. *)
Lemma X7_ticks_overlap_witness :
  exists st',
    Trigger.run Sample.epochMillis id "appX" "Tasks" "" 30000 Sample.patCredentials
      (Sample.stateAt 1000) (replicate 3 Trigger.Tick) = Some st' /\
    Trigger.inFlight st'
    = Trigger.inFlight (Sample.stateAt 1000) ++ replicate 3 Trigger.TimerPoll /\
    Trigger.getsIn (Trigger.log st')
    = (Trigger.getsIn (Trigger.log (Sample.stateAt 1000)) + 3)%nat /\
    Trigger.lastCheck st' = Trigger.lastCheck (Sample.stateAt 1000) /\
    Trigger.timerArmed st' = true.
Proof.
  apply (X7_ticks_overlap Sample.epochMillis id "appX" "Tasks" "" 30000
           Sample.patCredentials (Sample.stateAt 1000) 3).
  reflexivity.
Defined.

(** The initial poll settles, two ticks fire, one of their calls settles. *)
Lemma X8_calls_are_accounted_for_witness :
  exists st,
    Trigger.run Sample.epochMillis id "appX" "Tasks" "" 30000 Sample.patCredentials
      {| Trigger.lastCheck := 1000; Trigger.timerArmed := true;
         Trigger.handleReturned := false; Trigger.inFlight := [Trigger.InitialPoll];
         Trigger.log :=
           [Trigger.EvSetInterval 60000;
            Trigger.pollRecords_request id "appX" "Tasks" "" 30000 Sample.patCredentials] |}
      [Trigger.Settle 0 (Sample.listOf []) 1400; Trigger.Tick; Trigger.Tick;
       Trigger.Settle 1 (Rejected Sample.refused) 61500]
    = Some st /\
    Trigger.getsIn (Trigger.log st) = 3%nat /\
    length (Trigger.inFlight st) = 1%nat.
Proof.
  eexists. split; [reflexivity|].
  destruct (X8_calls_are_accounted_for Sample.epochMillis id "appX" "Tasks" 60 "" 30000
              Sample.patCredentials 1000 _ _
              [Trigger.Settle 0 (Sample.listOf []) 1400; Trigger.Tick; Trigger.Tick;
               Trigger.Settle 1 (Rejected Sample.refused) 61500]
              eq_refl eq_refl) as [H1 H2].
  split; [exact H1|reflexivity].
Defined.

(** A refused connection, a tick, another refused connection. *)
Lemma X9_failures_never_move_watermark_witness :
  exists st',
    Trigger.run Sample.epochMillis id "appX" "Tasks" "" 30000 Sample.patCredentials
      (Sample.stateAt 1000)
      [Trigger.Settle 0 (Rejected Sample.refused) 2000; Trigger.Tick;
       Trigger.Settle 0 (Rejected Sample.refused) 3000]
    = Some st' /\
    Trigger.lastCheck st' = 1000 /\
    Trigger.emitsIn (Trigger.log st') = [] /\
    Trigger.timerArmed st' = true.
Proof.
  eexists. split; [reflexivity|].
  apply (X9_failures_never_move_watermark Sample.epochMillis id "appX" "Tasks" "" 30000
           Sample.patCredentials (Sample.stateAt 1000) _
           [Trigger.Settle 0 (Rejected Sample.refused) 2000; Trigger.Tick;
            Trigger.Settle 0 (Rejected Sample.refused) 3000]);
    reflexivity.
Defined.

(** The same record is in two consecutive responses. *)
Lemma X10_emitted_items_are_newer_witness :
  exists st',
    Trigger.run Sample.epochMillis id "appX" "Tasks" "" 30000 Sample.patCredentials
      (Sample.stateAt 1000)
      [Trigger.Settle 0 (Sample.listOf [Sample.recordAt "a" 1500]) 2000; Trigger.Tick;
       Trigger.Settle 0 (Sample.listOf [Sample.recordAt "a" 1500]) 3000]
    = Some st' /\
    1000 <= Trigger.lastCheck st' /\
    Runs.emittedItems (Trigger.log st') = [Trigger.project (Sample.recordAt "a" 1500)].
Proof.
  eexists. split; [reflexivity|].
  destruct (X10_emitted_items_are_newer Sample.epochMillis id "appX" "Tasks" "" 30000
              Sample.patCredentials (Sample.stateAt 1000) _
              [Trigger.Settle 0 (Sample.listOf [Sample.recordAt "a" 1500]) 2000;
               Trigger.Tick;
               Trigger.Settle 0 (Sample.listOf [Sample.recordAt "a" 1500]) 3000]
              eq_refl) as [Hle _].
  - cbn. lia.
  - split; [exact Hle|reflexivity].
Defined.

(** The initial poll finds one record. *)
Lemma X11_no_empty_batch_witness :
  (0 < length [Trigger.project (Sample.recordAt "a" 1500)])%nat.
Proof.
  apply (X11_no_empty_batch Sample.epochMillis id "appX" "Tasks" 60 "" 30000
           Sample.patCredentials 1000 _ _
           [Trigger.Settle 0 (Sample.listOf [Sample.recordAt "a" 1500]) 2000]
           [Trigger.project (Sample.recordAt "a" 1500)] eq_refl eq_refl).
  cbn. apply list_elem_of_further, list_elem_of_further, list_elem_of_here.
Defined.

(** Two placeholders in a URL path. *)
Lemma X13_placeholders_are_replaced_in_order_witness :
  Template.replaceAll (Template.replacer {[ "base" := JStr "appX"; "table" := JStr "Tasks" ]})
    (Segments.templateOf [("v0/", "base"); ("/", "table")] "?pageSize=100")
  = Segments.expansionOf
      (Template.replacer {[ "base" := JStr "appX"; "table" := JStr "Tasks" ]})
      [("v0/", "base"); ("/", "table")] "?pageSize=100".
Proof.
  apply (X13_placeholders_are_replaced_in_order
           (Template.replacer {[ "base" := JStr "appX"; "table" := JStr "Tasks" ]})
           [("v0/", "base"); ("/", "table")] "?pageSize=100"); reflexivity.
Defined.


(** The record id comes from an input field that the item does not have. *)
Lemma X15_validation_precedes_request_witness :
  Node.readRecord (NodeSample.hostOf NodeSample.readTask) id NodeSample.returnsUndefined
    (NodeSample.answering JNull) ∅ Sample.patCredentials 30000 3 1000
  = Some (Node.Thrown
            (Node.Raised (Executor.Error "Base ID, table name, and record ID are required")),
          []).
Proof.
  pose proof (X15_validation_precedes_request
                (NodeSample.hostOf NodeSample.readTask) NodeSample.parseEmptyObject id
                NodeSample.returnsUndefined (NodeSample.answering JNull) ∅
                Sample.patCredentials 30000 3 1000 (JStr "appX") eq_refl) as [_ Htable].
  destruct (Htable (JStr "Tasks") eq_refl) as (_ & _ & Hrecord).
  destruct (Hrecord (JStr "") eq_refl) as [Hread _].
  exact (proj1 (Hread eq_refl)).
Defined.

(** Update fields that are not JSON. *)
Lemma X16_invalid_json_sends_nothing_witness :
  Node.updateRecord (NodeSample.hostOf NodeSample.readTask) NodeSample.parseEmptyObject id
    NodeSample.returnsUndefined (NodeSample.answering JNull) {[ "id" := JStr "rec1" ]}
    Sample.patCredentials 30000 3 1000
  = Some (Node.Thrown (Node.SyntaxError "Unexpected token in JSON"), []).
Proof.
  assert (Hrecord : Node.resolved (NodeSample.hostOf NodeSample.readTask)
                      NodeSample.returnsUndefined {[ "id" := JStr "rec1" ]} "recordId"
                    = inr (JStr "rec1")) by (vm_compute; reflexivity).
  refine (proj2 (X16_invalid_json_sends_nothing
                   (NodeSample.hostOf NodeSample.readTask) NodeSample.parseEmptyObject id
                   NodeSample.returnsUndefined (NodeSample.answering JNull)
                   {[ "id" := JStr "rec1" ]} Sample.patCredentials 30000 3 1000
                   (JStr "appX") (JStr "Tasks") "{oops"
                   (Node.SyntaxError "Unexpected token in JSON")
                   eq_refl eq_refl eq_refl eq_refl _ eq_refl)
                (JStr "rec1") eq_refl Hrecord eq_refl).
  intros H. discriminate H.
Defined.

(** Fields given as the text of an empty object. *)
Lemma X17_create_sends_fields_witness :
  exists out log,
    Node.createRecord (NodeSample.hostOf NodeSample.readTask) NodeSample.parseEmptyObject id
      NodeSample.returnsUndefined (NodeSample.answering JNull) ∅
      Sample.patCredentials 30000 3 1000
    = Some (out, Node.EvInfo "Creating Airtable record"
                   [("baseId", JStr "appX"); ("tableName", JStr "Tasks")] :: log) /\
    Node.httpRequests log <> [] /\
    forall c, c ∈ Node.httpRequests log ->
      cfg_method c = "POST" /\
      cfg_url c = "https://api.airtable.com/v0/appX/Tasks" /\
      cfg_data c = Some (JObj [("records", JArr [JObj [("fields", JObj [])]])]).
Proof.
  apply (X17_create_sends_fields (NodeSample.hostOf NodeSample.readTask)
           NodeSample.parseEmptyObject id NodeSample.returnsUndefined
           (NodeSample.answering JNull) ∅
           Sample.patCredentials 30000 3 1000 (JStr "appX") (JStr "Tasks")
           (JStr "{}") (JObj []));
    try reflexivity.
  lia.
Defined.

(** A delete answered with an empty body. *)
Lemma X18_delete_ignores_response_body_witness :
  exists log,
    Node.deleteRecord (NodeSample.hostOf NodeSample.readTask) id NodeSample.returnsUndefined
      (NodeSample.answering (JStr "")) {[ "id" := JStr "rec1" ]}
      Sample.patCredentials 30000 3 1000
    = Some (Node.Returned (JObj [("success", JBool true);
                                 ("recordId", JStr "rec1");
                                 ("deleted", JBool true)]), log) /\
    length (Node.httpRequests log) = 1%nat /\
    forall c, c ∈ Node.httpRequests log ->
      cfg_method c = "DELETE" /\
      cfg_url c = "https://api.airtable.com/v0/appX/Tasks/rec1" /\
      cfg_data c = None.
Proof.
  apply (X18_delete_ignores_response_body (NodeSample.hostOf NodeSample.readTask) id
           NodeSample.returnsUndefined
           (NodeSample.answering (JStr "")) {[ "id" := JStr "rec1" ]}
           Sample.patCredentials 30000 3 1000 (JStr "appX") (JStr "Tasks") (JStr "rec1")
           "https://api.airtable.com/v0/appX/Tasks/rec1" 0 200 (JStr ""));
    try reflexivity.
  - lia.
  - intros i Hi. lia.
Defined.

(** A list response with two records. *)
Lemma X19_list_counts_what_it_returns_witness :
  exists log,
    Node.listRecords (NodeSample.hostOf NodeSample.readTask) id NodeSample.returnsUndefined
      (NodeSample.answering
         (JObj [("records",
                 JArr [JObj [("id", JStr "rec1"); ("fields", JObj []);
                             ("createdTime", JStr "2024-01-01T00:00:00.000Z")];
                       JObj [("id", JStr "rec2"); ("fields", JObj [])]])]))
      ∅ Sample.patCredentials 30000 3 1000
    = Some (Node.Returned
              (JObj [("success", JBool true);
                     ("count", JNum 2);
                     ("records",
                      JArr [JObj [("recordId", JStr "rec1"); ("fields", JObj []);
                                  ("createdTime", JStr "2024-01-01T00:00:00.000Z")];
                            JObj [("recordId", JStr "rec2"); ("fields", JObj []);
                                  ("createdTime", JUndefined)]])]), log) /\
    Node.httpRequests log
    = [Executor.configOf "https://api.airtable.com/v0/appX/Tasks?pageSize=100" JNull
                         Sample.patCredentials "GET" 30000].
Proof.
  apply (X19_list_counts_what_it_returns (NodeSample.hostOf NodeSample.readTask) id
           NodeSample.returnsUndefined
           (NodeSample.answering
              (JObj [("records",
                      JArr [JObj [("id", JStr "rec1"); ("fields", JObj []);
                                  ("createdTime", JStr "2024-01-01T00:00:00.000Z")];
                            JObj [("id", JStr "rec2"); ("fields", JObj [])]])]))
           ∅ Sample.patCredentials 30000 3 1000
           (JStr "appX") (JStr "Tasks") (JStr "") (JStr "")
           "https://api.airtable.com/v0/appX/Tasks?pageSize=100" 200
           (JObj [("records",
                   JArr [JObj [("id", JStr "rec1"); ("fields", JObj []);
                               ("createdTime", JStr "2024-01-01T00:00:00.000Z")];
                         JObj [("id", JStr "rec2"); ("fields", JObj [])]])])
           [JObj [("id", JStr "rec1"); ("fields", JObj []);
                  ("createdTime", JStr "2024-01-01T00:00:00.000Z")];
            JObj [("id", JStr "rec2"); ("fields", JObj [])]]); try reflexivity.
  - lia.
  - intros r Hr.
    apply elem_of_cons in Hr as [->|Hr]; [by eexists|].
    apply list_elem_of_singleton in Hr as ->. by eexists.
Defined.

(** A list response that is an error object. *)
Lemma X20_list_needs_records_witness :
  exists log,
    Node.listRecords (NodeSample.hostOf NodeSample.readTask) id NodeSample.returnsUndefined
      (NodeSample.answering (JObj [("error", JStr "NOT_FOUND")]))
      ∅ Sample.patCredentials 30000 3 1000
    = Some (Node.Thrown
              (Node.Raised
                 (Executor.TypeError
                    "Cannot read properties of undefined (reading 'length')")), log) /\
    Node.httpRequests log
    = [Executor.configOf "https://api.airtable.com/v0/appX/Tasks?pageSize=100" JNull
                         Sample.patCredentials "GET" 30000].
Proof.
  apply (X20_list_needs_records (NodeSample.hostOf NodeSample.readTask) id
           NodeSample.returnsUndefined
           (NodeSample.answering (JObj [("error", JStr "NOT_FOUND")]))
           ∅ Sample.patCredentials 30000 3 1000
           (JStr "appX") (JStr "Tasks") (JStr "") (JStr "")
           "https://api.airtable.com/v0/appX/Tasks?pageSize=100" 200
           (JObj [("error", JStr "NOT_FOUND")]) JUndefined); try reflexivity.
  - lia.
  - by left.
Defined.

(** No credentials at all. *)
Lemma X21_execute_requires_credentials_witness :
  exists log,
    Node.execute (NodeSample.hostOf NodeSample.readTask) NodeSample.parseEmptyObject id NodeSample.returnsUndefined
      NodeSample.alwaysLimited (Some [∅]) true None NodeSample.noOptions
    = Some (Node.Thrown
              (Node.Raised
                 (Executor.Error
                    "Airtable credentials are required. Please configure Airtable credentials.")),
            log) /\
    Node.httpRequests log = [].
Proof.
  eexists. split.
  - apply (X21_execute_requires_credentials (NodeSample.hostOf NodeSample.readTask)
             NodeSample.parseEmptyObject id NodeSample.returnsUndefined NodeSample.alwaysLimited NodeSample.noOptions
             (Some [∅]) true None).
    by left.
  - reflexivity.
Defined.

(** Two items, the second without a record id. *)
Lemma X22_continue_on_fail_keeps_one_result_per_item_witness :
  exists results log,
    Node.execute (NodeSample.hostOf NodeSample.readTask) NodeSample.parseEmptyObject id NodeSample.returnsUndefined
      (fun i => NodeSample.answering (JObj [("id", JStr "rec1")]))
      (Some [{[ "id" := JStr "rec1" ]}; ∅]) true (Some Sample.patCredentials)
      NodeSample.noOptions
    = Some (Node.Returned (JArr [JObj [("main", JArr results)]]), log) /\
    length results = 2%nat.
Proof.
  destruct (X22_continue_on_fail_keeps_one_result_per_item
              (NodeSample.hostOf NodeSample.readTask) NodeSample.parseEmptyObject id NodeSample.returnsUndefined
              (fun i => NodeSample.answering (JObj [("id", JStr "rec1")]))
              Sample.patCredentials NodeSample.noOptions
              (Some [{[ "id" := JStr "rec1" ]}; ∅]) eq_refl)
    as (results & log & Hrun & Hlen & _).
  exists results, log. split; [exact Hrun|exact Hlen].
Defined.


(** A resource name in the wrong case, three items. *)
Lemma X24_unknown_resource_yields_undefined_witness :
  Node.execute
    (NodeSample.hostOf [("resource", JStr "Record"); ("operation", JStr "readRecord")])
    NodeSample.parseEmptyObject id NodeSample.returnsUndefined NodeSample.alwaysLimited (Some [∅; ∅; ∅]) false
    (Some Sample.patCredentials) NodeSample.noOptions
  = Some (Node.Returned
            (JArr [JObj [("main", JArr (replicate 3 (JObj [("json", JUndefined)])))]]), []).
Proof.
  apply (X24_unknown_resource_yields_undefined
           (NodeSample.hostOf [("resource", JStr "Record"); ("operation", JStr "readRecord")])
           NodeSample.parseEmptyObject id NodeSample.returnsUndefined NodeSample.alwaysLimited Sample.patCredentials
           NodeSample.noOptions (Some [∅; ∅; ∅]) false); reflexivity.
Defined.

(** The first of three items has no record id. *)
Lemma X25_first_failure_ends_the_run_witness :
  Node.execute (NodeSample.hostOf NodeSample.readTask) NodeSample.parseEmptyObject id NodeSample.returnsUndefined
    (fun i => NodeSample.answering (JObj [("id", JStr "rec1")]))
    (Some ([] ++ ∅ :: [{[ "id" := JStr "rec1" ]}; {[ "id" := JStr "rec2" ]}])) false
    (Some Sample.patCredentials) NodeSample.noOptions
  = Node.execute (NodeSample.hostOf NodeSample.readTask) NodeSample.parseEmptyObject id NodeSample.returnsUndefined
      (fun i => NodeSample.answering (JObj [("id", JStr "rec1")]))
      (Some ([] ++ [∅])) false (Some Sample.patCredentials) NodeSample.noOptions.
Proof.
  refine (proj1 (X25_first_failure_ends_the_run
                   (NodeSample.hostOf NodeSample.readTask) NodeSample.parseEmptyObject id NodeSample.returnsUndefined
                   (fun i => NodeSample.answering (JObj [("id", JStr "rec1")]))
                   Sample.patCredentials NodeSample.noOptions
                   [] [{[ "id" := JStr "rec1" ]}; {[ "id" := JStr "rec2" ]}] ∅
                   (Node.Raised
                      (Executor.Error "Base ID, table name, and record ID are required"))
                   [] eq_refl _)).
  reflexivity.
Defined.

(** No options, and an API that always answers 429. *)
Lemma X26_default_retry_policy_witness :
  exists log,
    Node.execute (NodeSample.hostOf NodeSample.listAllBases) NodeSample.parseEmptyObject id NodeSample.returnsUndefined
      NodeSample.alwaysLimited None false (Some Sample.patCredentials) NodeSample.noOptions
    = Some (Node.Thrown
              (Node.Raised
                 (Executor.Error
                    ("Airtable API error: " +:+ message Sample.rateLimited))), log) /\
    length (Node.httpRequests log) = 4%nat /\
    Node.httpSleeps log = [1000; 2000; 4000].
Proof.
  refine (proj1 (X26_default_retry_policy
                   (NodeSample.hostOf NodeSample.listAllBases) NodeSample.parseEmptyObject id NodeSample.returnsUndefined
                   NodeSample.alwaysLimited Sample.patCredentials NodeSample.noOptions
                   Sample.rateLimited eq_refl eq_refl eq_refl _ eq_refl) eq_refl _).
  - intros i k c. reflexivity.
  - by left.
Defined.

(** Every call is answered with a 404. *)
Lemma X27_no_result_when_every_call_fails_witness :
  exists out log,
    Node.dispatch (NodeSample.hostOf NodeSample.readTask) NodeSample.parseEmptyObject id NodeSample.returnsUndefined
      (fun k c => Rejected Sample.notFound) {[ "id" := JStr "rec1" ]}
      Sample.patCredentials 30000 3 1000 (JStr "record") (JStr "readRecord")
    = Some (out, log) /\
    forall result, out = Node.Returned result ->
      result = JUndefined /\
      strictEqStr (JStr "record") "record" = false /\
      strictEqStr (JStr "record") "base" = false.
Proof.
  apply (X27_no_result_when_every_call_fails (NodeSample.hostOf NodeSample.readTask)
           NodeSample.parseEmptyObject id NodeSample.returnsUndefined (fun k c => Rejected Sample.notFound)
           {[ "id" := JStr "rec1" ]} Sample.patCredentials 30000 3 1000
           (JStr "record") (JStr "readRecord") Sample.notFound).
  - intros k c. reflexivity.
  - lia.
Defined.

(** A create answered with an empty list of records. *)
Lemma X28_create_needs_a_returned_record_witness :
  exists log,
    Node.createRecord (NodeSample.hostOf NodeSample.readTask) NodeSample.parseEmptyObject id
      NodeSample.returnsUndefined
      (NodeSample.answering (JObj [("records", JArr [])])) ∅
      Sample.patCredentials 30000 3 1000
    = Some (Node.Thrown
              (Node.Raised
                 (Executor.TypeError "Cannot read properties of undefined (reading 'id')")),
            log) /\
    Node.httpRequests log
    = [Executor.configOf "https://api.airtable.com/v0/appX/Tasks"
                         (JObj [("records", JArr [JObj [("fields", JObj [])]])])
                         Sample.patCredentials "POST" 30000].
Proof.
  apply (X28_create_needs_a_returned_record (NodeSample.hostOf NodeSample.readTask)
           NodeSample.parseEmptyObject id NodeSample.returnsUndefined
           (NodeSample.answering (JObj [("records", JArr [])])) ∅
           Sample.patCredentials 30000 3 1000 (JStr "appX") (JStr "Tasks")
           (JStr "{}") (JObj []) (JObj [("records", JArr [])])
           "https://api.airtable.com/v0/appX/Tasks" 200); try reflexivity.
  lia.
Defined.

(** An update whose fields are an object. *)
Lemma X29_update_sends_id_in_payload_witness :
  exists out log,
    Node.updateRecord
      (NodeSample.hostOf [("baseId", JStr "appX"); ("tableName", JStr "Tasks");
                          ("recordId", JStr "rec1");
                          ("updateFields", JObj [("Done", JBool true)])])
      NodeSample.parseEmptyObject id NodeSample.returnsUndefined
      (NodeSample.answering JNull) ∅
      Sample.patCredentials 30000 3 1000 = Some (out, log) /\
    Node.httpRequests log <> [] /\
    forall c, c ∈ Node.httpRequests log ->
      cfg_method c = "PATCH" /\
      cfg_url c = "https://api.airtable.com/v0/appX/Tasks" /\
      cfg_data c = Some (JObj [("records",
                                JArr [JObj [("id", JStr "rec1");
                                            ("fields", JObj [("Done", JBool true)])]])]).
Proof.
  apply (X29_update_sends_id_in_payload
           (NodeSample.hostOf [("baseId", JStr "appX"); ("tableName", JStr "Tasks");
                               ("recordId", JStr "rec1");
                               ("updateFields", JObj [("Done", JBool true)])])
           NodeSample.parseEmptyObject id NodeSample.returnsUndefined
           (NodeSample.answering JNull) ∅
           Sample.patCredentials 30000 3 1000
           (JStr "appX") (JStr "Tasks") (JStr "rec1")
           (JObj [("Done", JBool true)]) (JObj [("Done", JBool true)])
           "https://api.airtable.com/v0/appX/Tasks");
    try reflexivity.
  lia.
Defined.

(** A table name taken from an input field that holds an object whose
    [toString] is not a function, next to an empty base id. *)
Lemma X30_unresolved_parameter_fails_first_witness :
  Node.createRecord
    (NodeSample.hostOf [("baseId", JStr ""); ("tableName", JStr "{{json.o}}");
                        ("fields", JStr "{}")])
    NodeSample.parseEmptyObject id NodeSample.returnsUndefined
    (NodeSample.answering JNull) {[ "o" := NodeSample.unprintable ]}
    Sample.patCredentials 30000 3 1000
  = Some (Node.Thrown
            (Node.Raised (Executor.TypeError "Cannot convert object to primitive value")),
          []).
Proof.
  assert (Htable : Node.resolved
                     (NodeSample.hostOf [("baseId", JStr ""); ("tableName", JStr "{{json.o}}");
                                         ("fields", JStr "{}")])
                     NodeSample.returnsUndefined {[ "o" := NodeSample.unprintable ]}
                     "tableName"
                   = inl (Node.Raised
                            (Executor.TypeError "Cannot convert object to primitive value")))
    by (vm_compute; reflexivity).
  exact (proj1 (proj1 (proj2 (X30_unresolved_parameter_fails_first
                                (NodeSample.hostOf [("baseId", JStr "");
                                                    ("tableName", JStr "{{json.o}}");
                                                    ("fields", JStr "{}")])
                                NodeSample.parseEmptyObject id NodeSample.returnsUndefined
                                (NodeSample.answering JNull)
                                {[ "o" := NodeSample.unprintable ]}
                                Sample.patCredentials 30000 3 1000 _))
                      (JStr "") eq_refl Htable)).
Defined.
